(** * pythonwhat: State, local worker processes and introspection tasks

    A shallow embedding of [pythonwhat/State.py], [pythonwhat/local.py] and
    [pythonwhat/tasks.py], and the properties of the checking engine that
    are proved (or refuted) about them.

    Layout:
    - [Py]      the part of the Python object model the three files rely on
                (exceptions, values, [str], truthiness, the interpreter
                interface behind [exec]/[eval]/[inspect]/[dill]);
    - [MiniPy]  a tiny concrete interpreter used to run the definitions on
                explicit inputs;
    - [StateModel]  [Context] and [State];
    - [Local]   [CaptureErrors], [WorkerProcess], [run_exercise], [run];
    - [Tasks]   the task classes, their wrappers and the helpers. *)

From Stdlib Require Import ZArith.
From stdpp Require Import base option strings gmap list pretty.

Open Scope string_scope.
Open Scope list_scope.
Set Warnings "-register-all".

(* ===================================================================== *)
(** * The Python object model *)
(* ===================================================================== *)
Module Py.

(** Python separates [Exception] (what [except Exception] catches) from the
    [BaseException]s outside of it ([SystemExit], [KeyboardInterrupt],
    [GeneratorExit]), which only a bare [except:] or a context manager
    whose [__exit__] returns [True] stops. *)
Inductive exn_base := IsException | IsBaseExceptionOnly.

(** An exception instance: where its class sits, the class name and
    [str(e)]. *)
Record exn := Exn {
  exn_base_of : exn_base;
  exn_type : string;
  exn_msg : string
}.

Definition is_Exception (e : exn) : bool :=
  match exn_base_of e with IsException => true | IsBaseExceptionOnly => false end.

(** A computation that returns or raises. *)
Inductive result (A : Type) : Type :=
| Ret (a : A)
| Raise (e : exn).
Arguments Ret {A} a.
Arguments Raise {A} e.

Definition bind {A B} (r : result A) (k : A -> result B) : result B :=
  match r with
  | Ret a => k a
  | Raise e => Raise e
  end.

(** [try: r  except: h] (bare except: every exception is handled). *)
Definition try_except {A} (r : result A) (h : exn -> result A) : result A :=
  match r with
  | Ret a => Ret a
  | Raise e => h e
  end.

(** [try: r  except Exception as e: h e]. *)
Definition try_except_Exception {A} (r : result A) (h : exn -> result A) : result A :=
  match r with
  | Ret a => Ret a
  | Raise e => if is_Exception e then h e else Raise e
  end.

Definition ValueError (msg : string) : exn := Exn IsException "ValueError" msg.
Definition TypeError (msg : string) : exn := Exn IsException "TypeError" msg.
Definition NameError (msg : string) : exn := Exn IsException "NameError" msg.
Definition KeyError (msg : string) : exn := Exn IsException "KeyError" msg.
Definition IndexError (msg : string) : exn := Exn IsException "IndexError" msg.
Definition FileNotFoundError (msg : string) : exn :=
  Exn IsException "FileNotFoundError" msg.
(** [raise Exception] *)
Definition PlainException : exn := Exn IsException "Exception" "".

(** Instances of classes the files never look inside are described by what
    the files observe of them: [__module__] (when the attribute exists),
    the class name, and what [str(obj)] does. *)
Record instance := Instance {
  inst_module : option string;
  inst_class : string;
  inst_str : result string;
  (** the names of its methods *)
  inst_methods : list string;
  (** for a callable the names of its formal parameters *)
  inst_params : option (list string)
}.

Inductive value :=
| VNone
| VBool (b : bool)
| VInt (z : Z)
| VStr (s : string)
| VExc (e : exn)
| VObj (o : instance).

(** A namespace, as [exec] and [eval] take it. *)
Abbreviation dict := (gmap string value).

(** [str(v)] *)
Definition str (v : value) : result string :=
  match v with
  | VNone => Ret "None"
  | VBool true => Ret "True"
  | VBool false => Ret "False"
  | VInt z => Ret (pretty z)
  | VStr s => Ret s
  | VExc e => Ret (exn_msg e)
  | VObj o => inst_str o
  end.

(** [bool(v)]; instances define neither [__bool__] nor [__len__]. *)
Definition truthy (v : value) : bool :=
  match v with
  | VNone => false
  | VBool b => b
  | VInt z => negb (Z.eqb z 0)
  | VStr s => negb (String.eqb s "")
  | VExc _ => true
  | VObj _ => true
  end.

(** [type(v).__name__] *)
Definition type_name (v : value) : string :=
  match v with
  | VNone => "NoneType"
  | VBool _ => "bool"
  | VInt _ => "int"
  | VStr _ => "str"
  | VExc e => exn_type e
  | VObj o => inst_class o
  end.

Definition is_None (v : value) : bool :=
  match v with VNone => true | _ => false end.

(** [c in s] for a one-character [c] *)
Fixpoint contains_char (c : Ascii.ascii) (s : string) : bool :=
  match s with
  | EmptyString => false
  | String a s' => if Ascii.eqb a c then true else contains_char c s'
  end.

(** [s.split(c)] for a one-character separator: never the empty list *)
Fixpoint split_on (c : Ascii.ascii) (s : string) : list string :=
  match s with
  | EmptyString => [EmptyString]
  | String a s' =>
      if Ascii.eqb a c then EmptyString :: split_on c s'
      else match split_on c s' with
           | [] => [String a EmptyString]
           | w :: ws => String a w :: ws
           end
  end.

(** [sep.join(l)] *)
Fixpoint join (sep : string) (l : list string) : string :=
  match l with
  | [] => EmptyString
  | [x] => x
  | x :: rest => x +:+ sep +:+ join sep rest
  end.

Definition dot : Ascii.ascii := Ascii.ascii_of_nat 46.

(** What running a piece of code leaves behind: the namespace it ran in
    (mutated in place, also when the code raises half way), what it wrote
    to standard output, and the exception that ended it, if any. *)
Record outcome := Outcome {
  out_ns : dict;
  out_text : string;
  out_exc : option exn
}.

(** The interpreter and the library calls of the three files that are not
    code of this repository. *)
Class Interpreter := {
  (** parsed trees ([ast] nodes) *)
  ast : Type;
  (** [exec(code, ns)] for source text *)
  exec_src : string -> dict -> outcome;
  (** [exec(compile(tree, "<script>", "exec"), ns)] *)
  exec_tree : ast -> dict -> outcome;
  (** [eval(text, ns)] *)
  eval_src : string -> dict -> result value;
  (** [eval(compile(ast.Expression(tree), "<script>", "eval"), ns)] *)
  eval_tree : ast -> dict -> result value;
  (** [f( *args )] *)
  call : value -> list value -> result value;
  (** [inspect.Signature] objects, the parameter lists they are built
      from, [inspect.Signature(parameters)] and [inspect.signature(f)] *)
  signature : Type;
  parameters : Type;
  Signature : parameters -> result signature;
  inspect_signature : value -> result signature;
  (** [dill.dumps(v)] *)
  dill_dumps : value -> result string;
}.

(** What a task hands back to its caller.  Python has one universe of
    objects; the tasks of [tasks.py] and [local.py] return ordinary
    values, byte strings made by [dill], the pair of [run_code], signature
    objects, and the worker loop substitutes the list
    [[{"type": "backend-error", "payload": p}, ...]], kept here by its
    payloads. *)
Inductive answer `{Interpreter} :=
| AValue (v : value)
| ABytes (b : string)
| ACaptured (raw_output : string) (error : option string)
| ASignature (s : signature)
| ABackendError (payloads : list string).

Definition ANone `{Interpreter} : answer := AValue VNone.

(** [a is None] *)
Definition answer_is_None `{Interpreter} (a : answer) : bool :=
  match a with
  | AValue VNone => true
  | _ => false
  end.

(** The result of a successful run, or the exception that ended it. *)
Definition completed (o : outcome) : result dict :=
  match out_exc o with
  | None => Ret (out_ns o)
  | Some e => Raise e
  end.

(** A context manager recorded by [context_env_update]:
    [cm_exit] is what [__exit__(None, None, None)] raises, if anything. *)
Record context_manager := ContextManager {
  cm_id : nat;
  cm_exit : option exn
}.

(** The shell of a process.  [user_ns] is its namespace; the two reserved
    entries [user_ns['__env__']] (the nested namespace of a scoped
    environment) and [user_ns['__context_obj__']] (the context managers that
    were entered for it) are kept as fields of their own, [None] when the
    key is absent.  [exited] logs the [__exit__] calls made so far. *)
Record shell := Shell {
  user_ns : dict;
  env_layer : option dict;
  context_obj : option (list context_manager);
  exited : list nat
}.

(** [get_env(shell.user_ns)] *)
Definition get_env (sh : shell) : dict :=
  match env_layer sh with
  | Some e => e
  | None => user_ns sh
  end.

(** [get_env(shell.user_ns)[k] = v] *)
Definition set_env_item (k : string) (v : value) (sh : shell) : shell :=
  match env_layer sh with
  | Some e => Shell (user_ns sh) (Some (<[k := v]> e)) (context_obj sh) (exited sh)
  | None => Shell (<[k := v]> (user_ns sh)) None (context_obj sh) (exited sh)
  end.

(** [s.replace(pat, rep)] for a non-empty [pat]: the occurrences of [pat],
    found from left to right without overlap, are replaced. *)
Fixpoint replace_go (pat rep : string) (skip : nat) (s : string) : string :=
  match s with
  | EmptyString => EmptyString
  | String c s' =>
      match skip with
      | S k => replace_go pat rep k s'
      | O =>
          if String.prefix pat s
          then rep +:+ replace_go pat rep (String.length pat - 1) s'
          else String c (replace_go pat rep 0 s')
      end
  end.

Definition replace (pat rep s : string) : string := replace_go pat rep 0 s.

(** What a template is rendered with: [None], the [kwargs] dict of a
    message, or a plain value. *)
Inductive template_arg :=
| TNone
| TKwargs (kwargs : dict)
| TValue (v : value).

(** [isinstance(v, list) and needle in str(v)] needs a substring test. *)
Fixpoint is_substring (needle hay : string) : bool :=
  if String.prefix needle hay then true
  else match hay with
       | EmptyString => false
       | String _ hay' => is_substring needle hay'
       end.

(** [hasattr(obj, '__module__')] and [obj.__module__]: instances of built-in
    types have no such attribute. *)
Definition module_attr (v : value) : option string :=
  match v with
  | VObj o => inst_module o
  | _ => None
  end.

(** A task: an instance of a task class, called on the shell of the
    process that runs it.  The call returns or raises, and leaves the
    shell as it made it either way. *)
Record task `{Interpreter} := Task {
  task_class : string;
  task_call : shell -> result answer * shell
}.
Arguments Task {_} task_class task_call.

(** A call on something with state [S]: it returns, it raises, or it never
    comes back (a [get] on a queue nobody feeds). *)
Inductive reply (S A : Type) : Type :=
| Returns (a : A) (s : S)
| Raises (e : exn) (s : S)
| Blocks.
Arguments Returns {S A} a s.
Arguments Raises {S A} e s.
Arguments Blocks {S A}.

Definition io (S A : Type) : Type := S -> reply S A.

Definition io_ret {S A} (a : A) : io S A := fun s => Returns a s.
Definition io_raise {S A} (e : exn) : io S A := fun s => Raises e s.
Definition io_bind {S A B} (m : io S A) (k : A -> io S B) : io S B :=
  fun s =>
    match m s with
    | Returns a s' => k a s'
    | Raises e s' => Raises e s'
    | Blocks => Blocks
    end.
(** A computation that cannot block, run on the state. *)
Definition io_lift {S A} (r : result A) : io S A :=
  fun s => match r with Ret a => Returns a s | Raise e => Raises e s end.

Declare Scope io_scope.
Delimit Scope io_scope with io.
Notation "x <- m ;; k" := (io_bind m (fun x => k))
  (at level 100, m at next level, right associativity) : io_scope.

(** What [tasks.py] asks of a process: [process.executeTask(task)]. *)
Class Process `{Interpreter} (P : Type) := {
  executeTask : task -> io P answer
}.

End Py.

(* ===================================================================== *)
(** * A small interpreter, to run the definitions on explicit programs *)
(* ===================================================================== *)
Module MiniPy.
Import Py.

Inductive expr :=
| Lit (v : value)
| Name (x : string).

(** [pass], [x = e], [del x], [raise e], [print(e)] *)
Inductive stmt :=
| Pass
| Assign (x : string) (e : expr)
| Del (x : string)
| RaiseStmt (e : exn)
| Print (e : expr).

Inductive node :=
| Module (body : list stmt)
| Expression (e : expr).

Definition eval_expr (e : expr) (ns : dict) : result value :=
  match e with
  | Lit v => Ret v
  | Name x =>
      match ns !! x with
      | Some v => Ret v
      | None => Raise (NameError ("name '" +:+ x +:+ "' is not defined"))
      end
  end.

Definition newline : string := String (Ascii.ascii_of_nat 10) "".

Definition exec_stmt (s : stmt) (ns : dict) (text : string) : outcome :=
  match s with
  | Pass => Outcome ns text None
  | Assign x e =>
      match eval_expr e ns with
      | Ret v => Outcome (<[x := v]> ns) text None
      | Raise ex => Outcome ns text (Some ex)
      end
  | Del x =>
      match ns !! x with
      | Some _ => Outcome (delete x ns) text None
      | None => Outcome ns text (Some (NameError ("name '" +:+ x +:+ "' is not defined")))
      end
  | RaiseStmt ex => Outcome ns text (Some ex)
  | Print e =>
      match bind (eval_expr e ns) str with
      | Ret s => Outcome ns (text +:+ s +:+ newline) None
      | Raise ex => Outcome ns text (Some ex)
      end
  end.

Fixpoint exec_body (body : list stmt) (ns : dict) (text : string) : outcome :=
  match body with
  | [] => Outcome ns text None
  | s :: rest =>
      let o := exec_stmt s ns text in
      match out_exc o with
      | None => exec_body rest (out_ns o) (out_text o)
      | Some _ => o
      end
  end.

Definition exec_node (n : node) (ns : dict) : outcome :=
  match n with
  | Module body => exec_body body ns ""
  | Expression _ => Outcome ns "" (Some (TypeError "expected Module node got Expression"))
  end.

Definition eval_node (n : node) (ns : dict) : result value :=
  match n with
  | Expression e => eval_expr e ns
  | Module _ => Raise (TypeError "expected Expression node got Module")
  end.

(** The source texts the examples use, with their parse. *)
Definition sources : list (string * list stmt) :=
  [ ("", []);
    ("pass", [Pass]);
    ("a = 1", [Assign "a" (Lit (VInt 1))]);
    ("x = 5", [Assign "x" (Lit (VInt 5))]);
    ("print(7)", [Print (Lit (VInt 7))]);
    ("raise Exception('boom')", [RaiseStmt (Exn IsException "Exception" "boom")]);
    ("raise Exception()", [RaiseStmt (Exn IsException "Exception" "")]) ].

Fixpoint lookup_source (src : string) (table : list (string * list stmt))
    : option (list stmt) :=
  match table with
  | [] => None
  | (s, body) :: rest => if String.eqb s src then Some body else lookup_source src rest
  end.

Definition exec_text (src : string) (ns : dict) : outcome :=
  match lookup_source src sources with
  | Some body => exec_body body ns ""
  | None => Outcome ns "" (Some (Exn IsException "SyntaxError" "invalid syntax"))
  end.

(** [obj.attr]: instances answer for their methods with a bound method. *)
Definition getattr (obj : value) (attr : string) : result value :=
  match obj with
  | VObj o =>
      if bool_decide (attr ∈ inst_methods o)
      then Ret (VObj (Instance None "method" (Ret ("<bound method " +:+ attr +:+ ">"))
                        [] None))
      else Raise (Exn IsException "AttributeError" attr)
  | _ => Raise (Exn IsException "AttributeError" attr)
  end.

(** [eval] of a source text: a name, or a dotted name [a.b.c]. *)
Definition eval_text (src : string) (ns : dict) : result value :=
  match split_on dot src with
  | [] => Raise (Exn IsException "SyntaxError" "invalid syntax")
  | x :: attrs =>
      foldl (fun r attr => bind r (fun obj => getattr obj attr))
            (eval_expr (Name x) ns) attrs
  end.

(** [inspect.signature(f)]: the parameters a callable declares. *)
Definition inspect_params (f : value) : result (list string) :=
  match f with
  | VObj o =>
      match inst_params o with
      | Some ps => Ret ps
      | None => Raise (ValueError "no signature found")
      end
  | _ => Raise (TypeError "is not a callable object")
  end.

#[export] Instance interpreter : Interpreter := {|
  ast := node;
  exec_src := exec_text;
  exec_tree := exec_node;
  eval_src := eval_text;
  eval_tree := eval_node;
  call := fun _ _ => Raise (TypeError "object is not callable");
  signature := list string;
  parameters := list string;
  Signature := fun ps => Ret ps;
  inspect_signature := inspect_params;
  dill_dumps := fun v => bind (str v) Ret;
|}.

End MiniPy.

(* ===================================================================== *)
(** * State.py: Context and State *)
(* ===================================================================== *)
Module StateModel.
Import Py.

(** What [State.py] imports: [TargetVars] (from [pythonwhat.parsing], a
    module of this repository that is not among the three files), the token
    map of [asttokens], [wrap_in_module], the names of [parser_dict], the
    converters, and the template engine.  They are taken as given. *)
Class Externals `{Interpreter} := {
  (** [TargetVars] objects, [TargetVars()], their truth value and
      [defined_items()] *)
  TargetVars : Type;
  TargetVars_new : TargetVars;
  TargetVars_bool : TargetVars -> bool;
  defined_items : TargetVars -> dict;
  (** [asttokens.ASTTokens] and [tokens.get_text(node)] *)
  tokens : Type;
  get_text : tokens -> ast -> string;
  (** [wrap_in_module(nodes)] *)
  wrap_in_module : list ast -> ast;
  (** the keys of [parser_dict] *)
  parser_dict : list string;
  (** [Dispatcher(pre_exercise_tree)] *)
  dispatcher : Type;
  Dispatcher : option ast -> dispatcher;
  (** [get_manual_converters()] *)
  converters_t : Type;
  get_manual_converters : converters_t;
  (** student / solution parts, the reporter *)
  parts : Type;
  reporter : Type;
  (** [Reporter(reporter, errors=errors)] *)
  Reporter : reporter -> list string -> reporter;
  (** [jinja2.Template(text).render( **kwargs )] *)
  render : string -> gmap string template_arg -> result string;
}.

Section WithExternals.
Context `{Externals}.

(** ** Context

    A [Context] holds three mutable objects: [context] (a [TargetVars]),
    [prev] and [_items] (two dicts).  Objects live in a store and are
    referred to by their address, so that sharing between a context and
    the one derived from it is visible. *)
Inductive object :=
| ODict (d : dict)
| OTargetVars (t : TargetVars).

Abbreviation store := (gmap positive object).

Record Context := MkContext {
  ctx_context : positive;
  ctx_prev : positive;
  _items : positive
}.

(** A new object, at an address not in use. *)
Definition alloc (o : object) (h : store) : positive * store :=
  let l := fresh (dom h) in (l, <[l := o]> h).

(** [bool(obj)] of a stored object *)
Definition truth (h : store) (l : positive) : bool :=
  match h !! l with
  | Some (ODict d) => negb (bool_decide (d = ∅))
  | Some (OTargetVars t) => TargetVars_bool t
  | None => false
  end.

(** [{ **self.prev, **self.context.defined_items() }]: a new dict.  A
    [prev] that is no dict or a [context] without [defined_items] raises. *)
Definition merged_items (context prev : positive) (h : store) : result dict :=
  match h !! prev, h !! context with
  | Some (ODict p), Some (OTargetVars t) => Ret (defined_items t ∪ p)
  | _, _ => Raise (TypeError "argument after ** must be a mapping")
  end.

(** [[
      def __init__(self, context=None, prev=None):
          self.context = context if context else TargetVars()
          self.prev = prev if prev else {}
          self._items = { **self.prev, **self.context.defined_items() }
    ]] *)
Definition Context_init (context prev : option positive) (h : store)
    : result Context * store :=
  let '(c, h) := match context with
                 | Some l => if truth h l then (l, h)
                             else alloc (OTargetVars TargetVars_new) h
                 | None => alloc (OTargetVars TargetVars_new) h
                 end in
  let '(p, h) := match prev with
                 | Some l => if truth h l then (l, h) else alloc (ODict ∅) h
                 | None => alloc (ODict ∅) h
                 end in
  match merged_items c p h with
  | Ret items =>
      let '(i, h) := alloc (ODict items) h in
      (Ret (MkContext c p i), h)
  | Raise e => (Raise e, h)
  end.

(** [[
      def update_ctx(self, new_ctx):
          upd_prev = { **self.prev, **self.context.defined_items() }
          return self.__class__(new_ctx, upd_prev)
    ]] *)
Definition update_ctx (self : Context) (new_ctx : option positive) (h : store)
    : result Context * store :=
  match merged_items (ctx_context self) (ctx_prev self) h with
  | Ret items =>
      let '(upd_prev, h) := alloc (ODict items) h in
      Context_init new_ctx (Some upd_prev) h
  | Raise e => (Raise e, h)
  end.

(** [dict(ctx)]: the bindings a context shows ([__getitem__], [__iter__]
    and [__len__] all read [_items]). *)
Definition bindings (h : store) (ctx : Context) : option dict :=
  match h !! _items ctx with
  | Some (ODict d) => Some d
  | _ => None
  end.

(** A context as [__init__] leaves it, in a store where nobody mutated its
    parts since. *)
Definition well_formed (h : store) (ctx : Context) : Prop :=
  exists t p,
    h !! ctx_context ctx = Some (OTargetVars t) /\
    h !! ctx_prev ctx = Some (ODict p) /\
    h !! _items ctx = Some (ODict (defined_items t ∪ p)).

(** The bindings an update brings: those [defined_items] gives for it
    (an update that is falsy is replaced by [TargetVars()]). *)
Definition update_bindings (h : store) (new_ctx : positive) : option dict :=
  match h !! new_ctx with
  | Some (OTargetVars u) =>
      Some (defined_items (if TargetVars_bool u then u else TargetVars_new))
  | _ => None
  end.

(** ** State *)

(** An entry of the message trail: [{"msg": ..., "kwargs": ...}]. *)
Record message := Message {
  msg : string;
  kwargs : dict
}.

Inductive State := MkState {
  (** the class: [State], or the subclass made for a parser name *)
  klass : string;
  student_code : option string;
  solution_code : option string;
  pre_exercise_code : option string;
  student_tree_tokens : option tokens;
  solution_tree_tokens : option tokens;
  student_tree : option ast;
  solution_tree : option ast;
  pre_exercise_tree : option ast;
  student_process : option nat;
  solution_process : option nat;
  raw_student_output : option string;
  reporter_of : reporter;
  parent_state : option State;
  student_parts : option parts;
  solution_parts : option parts;
  messages : list message;
  force_diagnose : bool;
  ast_dispatcher : dispatcher;
  student_context : Context;
  solution_context : Context;
  student_env : Context;
  solution_env : Context;
  highlight : option ast;
  highlighting_disabled : option bool;
  converters : converters_t;
  manual_sigs : option (gmap string parameters);
  _parser_cache : list string
}.

(** *** build_message *)

(** [[
      tmp_kwargs = {
          "parent": prev_d.get("kwargs"),
          "child": next_d.get("kwargs"),
          "this": d["kwargs"],
          **d["kwargs"],
      }
    ]] *)
Definition neighbour_kwargs (d : option message) : template_arg :=
  match d with
  | Some d => TKwargs (kwargs d)
  | None => TNone
  end.

Definition tmp_kwargs (prev_d : option message) (d : message)
    (next_d : option message) : gmap string template_arg :=
  (TValue <$> kwargs d) ∪
  {[ "parent" := neighbour_kwargs prev_d;
     "child" := neighbour_kwargs next_d;
     "this" := TKwargs (kwargs d) ]}.

(** [zip([{}, *msgs[:-1]], msgs, [*msgs[1:], {}])]; the empty dict at
    either end has no ["kwargs"], it is [None] here. *)
Fixpoint zip3 {A B C} (l1 : list A) (l2 : list B) (l3 : list C) : list (A * B * C) :=
  match l1, l2, l3 with
  | a :: l1, b :: l2, c :: l3 => (a, b, c) :: zip3 l1 l2 l3
  | _, _, _ => []
  end.

Definition windows (msgs : list message)
    : list (option message * message * option message) :=
  zip3 (None :: (Some <$> removelast msgs)) msgs ((Some <$> tail msgs) ++ [None]).

(** The loop: entries without a message are skipped, the others are
    rendered and appended to [out_list]. *)
Fixpoint out_list_of (triples : list (option message * message * option message))
    : result (list string) :=
  match triples with
  | [] => Ret []
  | (prev_d, d, next_d) :: rest =>
      (* don't bother appending if there is no message *)
      if String.eqb (msg d) "" then out_list_of rest
      else
        bind (render (replace "__JINJA__:" "" (msg d)) (tmp_kwargs prev_d d next_d))
          (fun out => bind (out_list_of rest) (fun outs => Ret (out :: outs)))
  end.

(** [out_list[-3:]] *)
Definition last_three {A} (l : list A) : list A := drop (length l - 3) l.

(** [self.highlight and not self.highlighting_disabled] *)
Definition shows_highlight (self : State) : bool :=
  match highlight self with
  | Some _ =>
      match highlighting_disabled self with
      | Some true => false
      | _ => true
      end
  | None => false
  end.

Definition build_message (self : State) (tail_ : string) (fmt_kwargs : option dict)
    (append : bool) : result string :=
  let fmt_kwargs := match fmt_kwargs with
                    | Some k => k
                    | None => ∅
                    end in
  (* add trailing message to msg list *)
  let msgs := messages self ++ [Message tail_ fmt_kwargs] in
  bind (out_list_of (windows msgs)) (fun out_list =>
    (* if highlighting info is available, don't put all expand messages *)
    let out_list := if shows_highlight self then last_three out_list else out_list in
    if append then Ret (String.concat "" out_list)
    else match last out_list with
         | Some out => Ret out
         | None => Raise (IndexError "list index out of range")
         end).

(** The window of an entry, by its position in the trail: the entry
    before it (none for the first), the entry, the entry after it (none
    for the last). *)
Definition window_at (msgs : list message) (i : nat) (d : message)
    : option message * message * option message :=
  (match i with O => None | S j => msgs !! j end, d, msgs !! S i).

Definition trail_windows (msgs : list message)
    : list (option message * message * option message) :=
  imap (window_at msgs) msgs.

(** The rendering of the entries that have a message, in trail order. *)
Definition has_message (w : option message * message * option message) : bool :=
  negb (String.eqb (msg (w.1.2)) "").

Fixpoint render_each (ws : list (option message * message * option message))
    : result (list string) :=
  match ws with
  | [] => Ret []
  | (prev_d, d, next_d) :: rest =>
      bind (render (replace "__JINJA__:" "" (msg d)) (tmp_kwargs prev_d d next_d))
        (fun out => bind (render_each rest) (fun outs => Ret (out :: outs)))
  end.

(** *** to_child *)

(** A subtree argument: [None], a node, or a list of nodes. *)
Inductive subtree_arg :=
| NoTree
| Tree (t : ast)
| TreeList (nodes : list ast).

(** [append_message]: a text or a dict. *)
Inductive message_arg :=
| MsgText (text : string)
| MsgDict (m : message).

Record to_child_args := {
  arg_student_subtree : subtree_arg;
  arg_solution_subtree : subtree_arg;
  arg_student_context : option positive;
  arg_solution_context : option positive;
  arg_student_env : option positive;
  arg_solution_env : option positive;
  arg_student_parts : option parts;
  arg_solution_parts : option parts;
  arg_highlight : option ast;
  arg_highlighting_disabled : option bool;
  arg_append_message : message_arg;
  arg_node_name : string
}.

(** The defaults of the signature. *)
Definition to_child_defaults : to_child_args := {|
  arg_student_subtree := NoTree;
  arg_solution_subtree := NoTree;
  arg_student_context := None;
  arg_solution_context := None;
  arg_student_env := None;
  arg_solution_env := None;
  arg_student_parts := None;
  arg_solution_parts := None;
  arg_highlight := None;
  arg_highlighting_disabled := None;
  arg_append_message := MsgText "";
  arg_node_name := ""
|}.

(** [if isinstance(subtree, list): subtree = wrap_in_module(subtree)] *)
Definition wrapped (subtree : subtree_arg) : option ast :=
  match subtree with
  | NoTree => None
  | Tree t => Some t
  | TreeList nodes => Some (wrap_in_module nodes)
  end.

(** [ctx = self.ctx.update_ctx(new) if new is not None else self.ctx] *)
Definition updated (ctx : Context) (new : option positive) (h : store)
    : result Context * store :=
  match new with
  | Some l => update_ctx ctx (Some l) h
  | None => (Ret ctx, h)
  end.

(** [[
      def _update(self, **kwargs):
          child = copy(self)
          for k, v in kwargs.items():
              setattr(child, k, v)
          return child
    ]]
    with the seven keywords [to_child] passes. *)
Definition _update (self : State) (student_context solution_context
    student_env solution_env : Context) (highlight : option ast)
    (highlighting_disabled : option bool) (messages : list message) : State :=
  MkState (klass self) (student_code self) (solution_code self)
    (pre_exercise_code self) (student_tree_tokens self) (solution_tree_tokens self)
    (student_tree self) (solution_tree self) (pre_exercise_tree self)
    (student_process self) (solution_process self) (raw_student_output self)
    (reporter_of self) (parent_state self) (student_parts self)
    (solution_parts self) messages (force_diagnose self) (ast_dispatcher self)
    student_context solution_context student_env solution_env
    highlight highlighting_disabled (converters self) (manual_sigs self)
    (_parser_cache self).

(** [tokens.get_text(subtree)]; without a token map there is nothing to
    call. *)
Definition text_of (tok : option tokens) (subtree : ast) : result string :=
  match tok with
  | Some tok => Ret (get_text tok subtree)
  | None => Raise (Exn IsException "AttributeError"
                     "'NoneType' object has no attribute 'get_text'")
  end.

Definition to_child (self : State) (args : to_child_args) (h : store)
    : result State * store :=
  let student_subtree := wrapped (arg_student_subtree args) in
  let solution_subtree := wrapped (arg_solution_subtree args) in
  (* get new contexts *)
  match updated (solution_context self) (arg_solution_context args) h with
  | (Raise e, h) => (Raise e, h)
  | (Ret solution_context, h) =>
  match updated (student_context self) (arg_student_context args) h with
  | (Raise e, h) => (Raise e, h)
  | (Ret student_context, h) =>
  (* get new envs *)
  match updated (solution_env self) (arg_solution_env args) h with
  | (Raise e, h) => (Raise e, h)
  | (Ret solution_env, h) =>
  match updated (student_env self) (arg_student_env args) h with
  | (Raise e, h) => (Raise e, h)
  | (Ret student_env, h) =>
  let highlighting_disabled :=
    match arg_highlighting_disabled args with
    | None => highlighting_disabled self
    | Some b => Some b
    end in
  let append_message :=
    match arg_append_message args with
    | MsgDict m => m
    | MsgText text => Message text ∅
    end in
  let messages := messages self ++ [append_message] in
  match solution_subtree, student_subtree with
  | Some solution_subtree, Some student_subtree =>
      let klass := if String.eqb (arg_node_name args) "" then Ret "State"
                   else if bool_decide (arg_node_name args ∈ parser_dict)
                        then Ret (arg_node_name args)
                        else Raise (KeyError (arg_node_name args)) in
      (bind klass (fun klass =>
       bind (text_of (student_tree_tokens self) student_subtree) (fun student_code =>
       bind (text_of (solution_tree_tokens self) solution_subtree) (fun solution_code =>
       Ret (MkState klass (Some student_code) (Some solution_code)
              (pre_exercise_code self)
              (student_tree_tokens self) (solution_tree_tokens self)
              (Some student_subtree) (Some solution_subtree)
              (pre_exercise_tree self)
              (student_process self) (solution_process self)
              (raw_student_output self) (reporter_of self)
              (Some self)
              (arg_student_parts args) (arg_solution_parts args)
              messages (force_diagnose self)
              (Dispatcher (pre_exercise_tree self))
              student_context solution_context student_env solution_env
              (* self.student_tree if (not highlight) and self.parent_state *)
              (match arg_highlight args with
               | None => Some student_subtree
               | Some n => Some n
               end)
              highlighting_disabled get_manual_converters None [])))), h)
  | _, _ =>
      (Ret (_update self student_context solution_context student_env
              solution_env (arg_highlight args) highlighting_disabled messages), h)
  end
  end end end end.


(** The entry [to_child] appends to the trail. *)
Definition appended_message (args : to_child_args) : message :=
  match arg_append_message args with
  | MsgDict m => m
  | MsgText text => Message text ∅
  end.

(** *** assert_root, assert_is, assert_is_not *)

(** [protowhat.Feedback.InstructorError] *)
Definition InstructorError (msg : string) : exn :=
  Exn IsException "InstructorError" msg.

(** [[
      def assert_root(self, fun, extra_msg=""):
          if self.parent_state is not None:
              raise InstructorError(
                  "`%s()` should only be called from the root state, `Ex()`. %s"
                  % (fun, extra_msg)
              )
    ]] *)
Definition assert_root (self : State) (fun_ extra_msg : string) : result unit :=
  match parent_state self with
  | Some _ =>
      Raise (InstructorError
               ("`" +:+ fun_ +:+ "()` should only be called from the root state, `Ex()`. "
                +:+ extra_msg))
  | None => Ret tt
  end.

(** [" or ".join(["`%s()`" % pf for pf in prev_fun])] *)
Definition quoted_calls (prev_fun : list string) : string :=
  join " or " (map (fun pf => "`" +:+ pf +:+ "()`") prev_fun).

(** [[
      def assert_is(self, klasses, fun, prev_fun):
          if self.__class__.__name__ not in klasses:
              raise InstructorError(
                  "`%s()` can only be called on %s."
                  % (fun, " or ".join(["`%s()`" % pf for pf in prev_fun]))
              )
    ]] *)
Definition assert_is (self : State) (klasses : list string) (fun_ : string)
    (prev_fun : list string) : result unit :=
  if bool_decide (klass self ∈ klasses) then Ret tt
  else Raise (InstructorError
                ("`" +:+ fun_ +:+ "()` can only be called on "
                 +:+ quoted_calls prev_fun +:+ ".")).

(** [[
      def assert_is_not(self, klasses, fun, prev_fun):
          if self.__class__.__name__ in klasses:
              raise InstructorError(
                  "`%s()` should not be called on %s."
                  % (fun, " or ".join(["`%s()`" % pf for pf in prev_fun]))
              )
    ]] *)
Definition assert_is_not (self : State) (klasses : list string) (fun_ : string)
    (prev_fun : list string) : result unit :=
  if bool_decide (klass self ∈ klasses)
  then Raise (InstructorError
                ("`" +:+ fun_ +:+ "()` should not be called on "
                 +:+ quoted_calls prev_fun +:+ "."))
  else Ret tt.

End WithExternals.

Abbreviation store := (gmap positive object).

End StateModel.

(* ===================================================================== *)
(** * local.py: worker processes and the orchestrator *)
(* ===================================================================== *)
Module Local.
Import Py StateModel.

(** [pythonbackend] is an optional dependency from outside the
    repository: whether its import succeeded, the shell its [create({})]
    gives, and its [TaskCaptureFullOutput((code,), filename, None,
    silent=True)], whose answer is kept as the [output_stream] and [error]
    of the raw output. *)
Class Backend `{Interpreter} := {
  BACKEND_AVAILABLE : bool;
  create : shell;
  TaskCaptureFullOutput : option string -> string -> task
}.

Section WithRuntime.
Context `{Externals} `{!Backend}.

(** ** StubShell, run_code, the two tasks of local.py *)

(** [StubShell()]: an empty namespace. *)
Definition StubShell : shell := Shell ∅ None None [].

(** [[
      def run_code(executor, code):
          with io.StringIO() as output:
              try:
                  with redirect_stdout(output):
                      executor(code)
                  raw_output = output.getvalue()
                  error = None
              except BaseException as e:
                  raw_output = ""
                  error = str(e)
          return raw_output, error
    ]]
    with [StubShell.run_code] ([exec(code, self.user_ns)]) as executor. *)
Definition run_code (code : option string) (sh : shell)
    : (string * option string) * shell :=
  match code with
  | None =>
      (* [exec(None, ns)] is a [TypeError], caught like any other *)
      (("", Some "exec() arg 1 must be a string, bytes or code object"), sh)
  | Some code =>
      let o := exec_src code (user_ns sh) in
      let sh := Shell (out_ns o) (env_layer sh) (context_obj sh) (exited sh) in
      match out_exc o with
      | None => ((out_text o, None), sh)
      | Some e => (("", Some (exn_msg e)), sh)
      end
  end.

Definition TaskCaptureOutput (code : option string) : task :=
  Task "TaskCaptureOutput"
    (fun sh => let '((raw_output, error), sh) := run_code code sh in
               (Ret (ACaptured raw_output error), sh)).

Definition TaskKillProcess : task :=
  Task "TaskKillProcess" (fun sh => (Ret ANone, sh)).

(** [isinstance(next_task, TaskKillProcess)] *)
Definition is_kill (t : task) : bool := String.eqb (task_class t) "TaskKillProcess".

(** ** CaptureErrors

    [[
      def __exit__(self, exc_type, exception, traceback):
          if exc_type is not None:
              self.output.append({"type": "backend-error", "payload": str(exception)})
              return True
    ]]
    An entry of [output] is kept by its payload. *)
Definition CaptureErrors_exit (output : list string) (exception : option exn)
    : list string * bool :=
  match exception with
  | Some exception => (output ++ [exn_msg exception], true)
  | None => (output, false)
  end.

(** [with CaptureErrors(output): body]: an exception of the body is
    suppressed when [__exit__] returns a true value, re-raised otherwise. *)
Definition with_CaptureErrors {A} (output : list string) (body : result A)
    : result (option A) * list string :=
  match body with
  | Ret a => (Ret (Some a), (CaptureErrors_exit output None).1)
  | Raise e =>
      let '(output, suppress) := CaptureErrors_exit output (Some e) in
      if suppress then (Ret None, output) else (Raise e, output)
  end.

(** ** WorkerProcess.run *)

(** [Queue.put_nowait] on a queue without bound. *)
Definition put_nowait (queue : list answer) (a : answer) : result (list answer) :=
  Ret (queue ++ [a]).

(** One turn of the loop, from the task [task_queue.get()] returned:
    [[
      output = []
      with CaptureErrors(output):
          next_task = self.task_queue.get()
          answer = next_task(shell)
      if len(output) > 0:  # means backend error happened
          answer = output
      output = []
      with CaptureErrors(output):
          self.result_queue.put_nowait(answer)
      if len(output) > 0:  # means backend error happened
          self.result_queue.put_nowait(output)
    ]]
    The result is the result queue afterwards, or the exception that
    leaves the loop. *)
Definition loop_turn (next_task : task) (sh : shell) (result_queue : list answer)
    : result (list answer) * shell :=
  let '(r, sh) := task_call next_task sh in
  let '(body, output) := with_CaptureErrors [] r in
  (bind body (fun answer =>
     let answer := match answer with
                   | Some a => if (0 <? length output)%nat then ABackendError output else a
                   | None => ABackendError output
                   end in
     let '(body, output) := with_CaptureErrors [] (put_nowait result_queue answer) in
     bind body (fun queue =>
       let result_queue := default result_queue queue in
       if (0 <? length output)%nat
       then put_nowait result_queue (ABackendError output)
       else Ret result_queue)), sh).

(** How [run] stands after the tasks that were queued: blocked in
    [task_queue.get()], returned (with the tasks it left in the queue), or
    ended by an exception. *)
Inductive run_state :=
| Waiting (sh : shell) (result_queue : list answer)
| Returned (sh : shell) (result_queue : list answer) (unserved : list task)
| Crashed (e : exn) (sh : shell) (result_queue : list answer).

(** [[
      while True:
          ... one turn ...
          if isinstance(next_task, TaskKillProcess):
              break  # break while loop -> we do not wait upon new task
      return
    ]] *)
Fixpoint WorkerProcess_run (task_queue : list task) (sh : shell)
    (result_queue : list answer) : run_state :=
  match task_queue with
  | [] => Waiting sh result_queue
  | next_task :: task_queue =>
      match loop_turn next_task sh result_queue with
      | (Raise e, sh) => Crashed e sh result_queue
      | (Ret result_queue, sh) =>
          if is_kill next_task then Returned sh result_queue task_queue
          else WorkerProcess_run task_queue sh result_queue
      end
  end.

(** The response a task is owed: its answer, or the internal error made
    of the text of the exception it raised. *)
Definition response (t : task) (sh : shell) : answer :=
  match (task_call t sh).1 with
  | Ret a => a
  | Raise e => ABackendError [exn_msg e]
  end.

(** The shell after a list of tasks ran on it, and their responses. *)
Fixpoint shell_after (tasks : list task) (sh : shell) : shell :=
  match tasks with
  | [] => sh
  | t :: tasks => shell_after tasks (task_call t sh).2
  end.

Fixpoint responses (tasks : list task) (sh : shell) : list answer :=
  match tasks with
  | [] => []
  | t :: tasks => response t sh :: responses tasks (task_call t sh).2
  end.

(** ** Process objects *)

(** [StubProcess]: a shell in the calling process. *)
Record StubProcess := MkStubProcess {
  sp_shell : shell;
  sp_identity : nat
}.

(** [[
      def executeTask(self, task):
          return task(self.shell)
    ]] *)
Definition StubProcess_executeTask (t : task) : io StubProcess answer :=
  fun self =>
    let '(r, sh) := task_call t (sp_shell self) in
    io_lift r (MkStubProcess sh (sp_identity self)).

#[export] Instance StubProcess_Process : Process StubProcess :=
  {| executeTask := StubProcess_executeTask |}.

(** [WorkerProcess] and its subclass [SimpleProcess] differ in
    [get_shell]. *)
Inductive worker_class := ClsWorkerProcess | ClsSimpleProcess.

Definition get_shell (cls : worker_class) : shell :=
  match cls with
  | ClsWorkerProcess => create
  | ClsSimpleProcess => StubShell
  end.

(** A worker as the orchestrator sees it: [wp_alive] is [is_alive()],
    [wp_in_run] holds while [run] is in its loop, [wp_cwd] is the working
    directory the process was started in. *)
Record WorkerProcess := MkWorkerProcess {
  wp_class : worker_class;
  wp_identity : nat;
  wp_alive : bool;
  wp_in_run : bool;
  wp_cwd : option string;
  wp_shell : shell;
  wp_task_queue : list task;
  wp_result_queue : list answer
}.

(** The worker takes what is in its task queue. *)
Definition serve (p : WorkerProcess) : WorkerProcess :=
  if wp_alive p && wp_in_run p then
    match WorkerProcess_run (wp_task_queue p) (wp_shell p) (wp_result_queue p) with
    | Waiting sh results =>
        MkWorkerProcess (wp_class p) (wp_identity p) true true (wp_cwd p) sh [] results
    | Returned sh results unserved =>
        MkWorkerProcess (wp_class p) (wp_identity p) true false (wp_cwd p) sh unserved results
    | Crashed _ sh results =>
        MkWorkerProcess (wp_class p) (wp_identity p) false false (wp_cwd p) sh
          (wp_task_queue p) results
    end
  else p.

(** [[
      def executeTask(self, task):
          self.task_queue.put_nowait(task)
          return self.result_queue.get()  # wait and fetches next item in queue
    ]] *)
Definition WorkerProcess_executeTask (t : task) : io WorkerProcess answer :=
  fun self =>
    let self := serve (MkWorkerProcess (wp_class self) (wp_identity self)
                         (wp_alive self) (wp_in_run self) (wp_cwd self) (wp_shell self)
                         (wp_task_queue self ++ [t]) (wp_result_queue self)) in
    match wp_result_queue self with
    | a :: results =>
        Returns a (MkWorkerProcess (wp_class self) (wp_identity self)
                     (wp_alive self) (wp_in_run self) (wp_cwd self) (wp_shell self)
                     (wp_task_queue self) results)
    | [] => Blocks
    end.

#[export] Instance WorkerProcess_Process : Process WorkerProcess :=
  {| executeTask := WorkerProcess_executeTask |}.

(** [self.terminate(); self.join(timeout=3.0)]: whether the process is
    still there after the wait is not the program's to decide. *)
Definition terminate_join (still_alive : bool) (self : WorkerProcess) : WorkerProcess :=
  MkWorkerProcess (wp_class self) (wp_identity self)
    (wp_alive self && still_alive) false (wp_cwd self) (wp_shell self)
    (wp_task_queue self) (wp_result_queue self).

(** ** The orchestrating process *)

Inductive process :=
| PStub (p : StubProcess)
| PWorker (p : WorkerProcess).

(** The objects by identity, the class attribute
    [WorkerProcess.instances], the working directory and the directories
    that exist, the numbers [random.randint] will give, and which
    processes outlast [terminate] and the wait. *)
Record world := World {
  procs : gmap nat process;
  instances : list nat;
  cwd : string;
  dirs : gset string;
  randoms : list nat;
  outlasts : nat -> bool
}.

Definition set_procs (f : gmap nat process -> gmap nat process) (w : world) : world :=
  World (f (procs w)) (instances w) (cwd w) (dirs w) (randoms w) (outlasts w).
Definition set_instances (f : list nat -> list nat) (w : world) : world :=
  World (procs w) (f (instances w)) (cwd w) (dirs w) (randoms w) (outlasts w).

(** [list.remove(x)]: the first occurrence. *)
Fixpoint list_remove (x : nat) (l : list nat) : list nat :=
  match l with
  | [] => []
  | y :: l => if decide (x = y) then l else y :: list_remove x l
  end.

(** [(pid,) if pid else (random.randint(0, 1e12),)] *)
Definition identity_for (pid : option nat) (randoms : list nat) : nat * list nat :=
  match pid with
  | Some (S n) => (S n, randoms)
  | _ => (hd 0 randoms, tl randoms)
  end.

Definition new_identity (pid : option nat) : io world nat :=
  fun w =>
    let '(identity, randoms) := identity_for pid (randoms w) in
    Returns identity
      (World (procs w) (instances w) (cwd w) (dirs w) randoms (outlasts w)).

Definition new_object (o : process) : io world nat :=
  fun w => let self := fresh (dom (procs w)) in
           Returns self (set_procs (insert self o) w).

(** A method of a worker, on the object [self] names. *)
Definition on_worker {A} (self : nat) (m : io WorkerProcess A) : io world A :=
  fun w =>
    match procs w !! self with
    | Some (PWorker p) =>
        match m p with
        | Returns a p => Returns a (set_procs (insert self (PWorker p)) w)
        | Raises e p => Raises e (set_procs (insert self (PWorker p)) w)
        | Blocks => Blocks
        end
    | _ => Raises (Exn IsException "AttributeError" "") w
    end.

Definition is_alive (self : nat) : io world bool :=
  on_worker self (fun p => Returns (wp_alive p) p).

(** [[
      def __init__(self, pid=None):
          Process.__init__(self)
          self.task_queue = Queue()
          self.result_queue = Queue()
          self.daemon = True
          self.instances.append(self)
          self._identity = (pid,) if pid else (random.randint(0, 1e12),)
    ]] *)
Definition WorkerProcess_init (cls : worker_class) (pid : option nat) : io world nat :=
  (self <- new_object (PWorker (MkWorkerProcess cls 0 false false None StubShell [] [])) ;;
   _ <- (fun w => Returns tt (set_instances (fun l => l ++ [self]) w)) ;;
   identity <- new_identity pid ;;
   _ <- on_worker self (fun p =>
          Returns tt (MkWorkerProcess cls identity false false None StubShell [] [])) ;;
   io_ret self)%io.

(** [process.start()]: the child enters [run] with the shell of its class,
    in the working directory of the moment. *)
Definition start (self : nat) : io world unit :=
  fun w =>
    on_worker self (fun p =>
      Returns tt (serve (MkWorkerProcess (wp_class p) (wp_identity p) true true
                           (Some (cwd w)) (get_shell (wp_class p))
                           (wp_task_queue p) (wp_result_queue p)))) w.

(** [[
      def kill(self):
          try:
              if self.is_alive():
                  self.executeTask(TaskKillProcess())
                  self.terminate()
                  self.join(timeout=3.0)
                  if self.is_alive():
                      raise Exception
              if self in self.instances:
                  self.instances.remove(self)
          finally:
              pass
    ]] *)
Definition kill (self : nat) : io world unit :=
  (alive <- is_alive self ;;
   _ <- (if alive : bool then
           _ <- on_worker self (executeTask TaskKillProcess) ;;
           _ <- (fun w => on_worker self
                   (fun p => Returns tt (terminate_join (outlasts w self) p)) w) ;;
           alive <- is_alive self ;;
           if alive : bool then io_raise PlainException else io_ret tt
         else io_ret tt) ;;
   fun w => if decide (self ∈ instances w)
            then Returns tt (set_instances (list_remove self) w)
            else Returns tt w)%io.

(** [[
      @classmethod
      def kill_all(cls):
          for instance in list(cls.instances):
              instance.kill()
    ]] *)
Fixpoint kill_each (l : list nat) : io world unit :=
  match l with
  | [] => io_ret tt
  | instance :: l => (_ <- kill instance ;; kill_each l)%io
  end.

Definition kill_all : io world unit :=
  fun w => kill_each (instances w) w.

(** ** ChDir *)

Definition os_getcwd : io world string := fun w => Returns (cwd w) w.

(** [os.chdir(path)] needs the directory to exist. *)
Definition os_chdir (path : string) : io world unit :=
  fun w =>
    if decide (path ∈ dirs w)
    then Returns tt (World (procs w) (instances w) path (dirs w) (randoms w) (outlasts w))
    else Raises (FileNotFoundError path) w.

(** [os.makedirs(path, exist_ok=True)] *)
Definition os_makedirs (path : string) : io world unit :=
  fun w => Returns tt (World (procs w) (instances w) (cwd w) ({[path]} ∪ dirs w)
                         (randoms w) (outlasts w)).

(** [[
      class ChDir(object):
          def __init__(self, path):
              self.old_dir = os.getcwd()
              self.new_dir = str(path)
          def __enter__(self):
              os.chdir(self.new_dir)
          def __exit__(self, *args):
              os.chdir(self.old_dir)
    ]]
    and [with ChDir(path): body]: [__exit__] runs when the body was
    entered, whether it returned or raised, and suppresses nothing. *)
Definition with_ChDir {A} (path : string) (body : io world A) : io world A :=
  (old_dir <- os_getcwd ;;
   _ <- os_chdir path ;;
   fun w =>
     match body w with
     | Returns a w => (_ <- os_chdir old_dir ;; io_ret a) w
     | Raises e w => (_ <- os_chdir old_dir ;; io_raise e) w
     | Blocks => Blocks
     end)%io.

(** ** run_single_process *)

(** [StubShell(init_code)]:
    [[
      self.user_ns = {}
      if init_code:
          self.run_code(init_code)
    ]] *)
Definition StubShell_init (init_code : option string) : result shell :=
  match init_code with
  | Some code =>
      if truthy (VStr code) then
        let o := exec_src code ∅ in
        match out_exc o with
        | None => Ret (Shell (out_ns o) None None [])
        | Some e => Raise e
        end
      else Ret StubShell
  | None => Ret StubShell
  end.

(** [raw_stu_output, error = answer] *)
Definition unpack_pair (a : answer) : result (string * option string) :=
  match a with
  | ACaptured raw_output error => Ret (raw_output, error)
  | ABackendError [_; _] => Raise (TypeError "a payload is not a string")
  | ABackendError _ =>
      Raise (ValueError "not enough or too many values to unpack (expected 2)")
  | _ => Raise (TypeError "cannot unpack non-iterable object")
  end.

(** [[
      def run_single_process(pec, code, pid=None, mode="simple"):
          if mode == "stub":
              process = StubProcess(init_code=pec, pid=pid)
              raw_stu_output, error = run_code(process.shell.run_code, code)
          elif mode == "simple":
              process = SimpleProcess(pid)
              process.start()
              _ = process.executeTask(TaskCaptureOutput(pec))
              raw_stu_output, error = process.executeTask(TaskCaptureOutput(code))
          elif mode == "full" and BACKEND_AVAILABLE:
              process = WorkerProcess(pid)
              process.start()
              _ = process.executeTask(
                  TaskCaptureFullOutput((pec,), "<PEC>", None, silent=True))
              output, raw_output = process.executeTask(
                  TaskCaptureFullOutput((code,), "script.py", None, silent=True))
              raw_stu_output = raw_output["output_stream"]
              error = raw_output["error"]
          else:
              raise ValueError("Invalid mode")
          return process, raw_stu_output, error
    ]] *)
Definition run_single_process (pec code : option string) (pid : option nat)
    (mode : string) : io world (nat * string * option string) :=
  (if String.eqb mode "stub" then
     sh <- io_lift (StubShell_init pec) ;;
     identity <- new_identity pid ;;
     let '((raw_stu_output, error), sh) := run_code code sh in
     process <- new_object (PStub (MkStubProcess sh identity)) ;;
     io_ret (process, raw_stu_output, error)
   else if String.eqb mode "simple" then
     process <- WorkerProcess_init ClsSimpleProcess pid ;;
     _ <- start process ;;
     _ <- on_worker process (executeTask (TaskCaptureOutput pec)) ;;
     a <- on_worker process (executeTask (TaskCaptureOutput code)) ;;
     r <- io_lift (unpack_pair a) ;;
     let '(raw_stu_output, error) := r in
     io_ret (process, raw_stu_output, error)
   else if String.eqb mode "full" && BACKEND_AVAILABLE then
     process <- WorkerProcess_init ClsWorkerProcess pid ;;
     _ <- start process ;;
     _ <- on_worker process (executeTask (TaskCaptureFullOutput pec "<PEC>")) ;;
     a <- on_worker process (executeTask (TaskCaptureFullOutput code "script.py")) ;;
     r <- io_lift (unpack_pair a) ;;
     let '(raw_stu_output, error) := r in
     io_ret (process, raw_stu_output, error)
   else io_raise (ValueError "Invalid mode"))%io.

(** ** run_exercise *)

(** [wd or os.getcwd()] *)
Definition wd_or_cwd (wd : option string) : io world string :=
  match wd with
  | Some path => io_ret path
  | None => os_getcwd
  end.

(** [[
      def run_exercise(pec, sol_code, stu_code, sol_wd=None, stu_wd=None, **kwargs):
          with ChDir(sol_wd or os.getcwd()):
              sol_process, _, _ = run_single_process(pec, sol_code, **kwargs)
          with ChDir(stu_wd or os.getcwd()):
              stu_process, raw_stu_output, error = run_single_process(pec, stu_code, **kwargs)
          return sol_process, stu_process, raw_stu_output, error
    ]]
    A working directory is a [Path] when given. *)
Definition run_exercise (pec sol_code stu_code : option string)
    (sol_wd stu_wd : option string) (pid : option nat) (mode : string)
    : io world (nat * nat * string * option string) :=
  (sol_dir <- wd_or_cwd sol_wd ;;
   sol <- with_ChDir sol_dir (run_single_process pec sol_code pid mode) ;;
   let '(sol_process, _, _) := sol in
   stu_dir <- wd_or_cwd stu_wd ;;
   stu <- with_ChDir stu_dir (run_single_process pec stu_code pid mode) ;;
   let '(stu_process, raw_stu_output, error) := stu in
   io_ret (sol_process, stu_process, raw_stu_output, error))%io.

(** ** run *)

(** [Path(a, b, ...)] on components without redundant separators: an
    empty component is dropped, an absolute one starts over. *)
Definition Path (components : list string) : string :=
  foldl (fun path c =>
           if String.eqb c "" then path
           else if String.prefix "/" c || String.eqb path "" then c
           else path +:+ "/" +:+ c) "" components.

(** The keywords [run] passes to [to_child]. *)
Record run_keywords := RunKeywords {
  kw_student_process : nat;
  kw_solution_process : nat;
  kw_raw_student_output : string;
  kw_reporter : reporter
}.

(** The names in the signature of [State.to_child]. *)
Definition to_child_parameters : list string :=
  ["student_subtree"; "solution_subtree"; "student_context"; "solution_context";
   "student_env"; "solution_env"; "student_parts"; "solution_parts";
   "highlight"; "highlighting_disabled"; "append_message"; "node_name"].

Definition run_keyword_names : list string :=
  ["student_process"; "solution_process"; "raw_student_output"; "reporter"].

(** [state.to_child(student_process=..., solution_process=...,
    raw_student_output=..., reporter=...)]: [to_child] takes no [**kwargs],
    so a keyword outside its signature is a [TypeError]; with none such it
    would run on its defaults. *)
Definition to_child_with (state : State) (kw : run_keywords) (h : store)
    : result State * store :=
  match List.find (fun k => negb (bool_decide (k ∈ to_child_parameters)))
          run_keyword_names with
  | Some k =>
      (Raise (TypeError ("to_child() got an unexpected keyword argument '"
                         +:+ k +:+ "'")), h)
  | None => to_child state to_child_defaults h
  end.

(** [[
      sol_wd = Path(os.getcwd(), solution_dir, relative_working_dir)
      os.makedirs(str(sol_wd), exist_ok=True)
      stu_wd = Path(os.getcwd(), relative_working_dir)
      sol_process, stu_process, raw_stu_output, error = run_exercise(
          pec="",
          sol_code=state.solution_code or "",
          stu_code=state.student_code,
          sol_wd=sol_wd,
          stu_wd=stu_wd,
      )
    ]] *)
Definition run_processes (state : State) (relative_working_dir solution_dir : string)
    : io world (nat * nat * string * option string) :=
  (here <- os_getcwd ;;
   let sol_wd := Path [here; solution_dir; relative_working_dir] in
   _ <- os_makedirs sol_wd ;;
   here <- os_getcwd ;;
   let stu_wd := Path [here; relative_working_dir] in
   run_exercise (Some "")
     (Some (match solution_code state with
            | Some code => if truthy (VStr code) then code else ""
            | None => ""
            end))
     (student_code state) (Some sol_wd) (Some stu_wd) None "simple")%io.

(** [[
      reporter=Reporter(state.reporter, errors=[error] if error else [])
    ]] *)
Definition keywords_of (state : State) (r : nat * nat * string * option string)
    : run_keywords :=
  let '(sol_process, stu_process, raw_stu_output, error) := r in
  RunKeywords stu_process sol_process raw_stu_output
    (Reporter (reporter_of state)
       (match error with
        | Some error => if truthy (VStr error) then [error] else []
        | None => []
        end)).

(** [run(state, relative_working_dir="", solution_dir="solution")] *)
Definition run (state : State) (relative_working_dir solution_dir : string)
    (h : store) : io world (State * store) :=
  (r <- run_processes state relative_working_dir solution_dir ;;
   let '(child, h) := to_child_with state (keywords_of state r) h in
   child <- io_lift child ;;
   io_ret (child, h))%io.

(** ** State.has_different_processes

    [[
      try:
          return (
              self.student_process._identity[0] != self.solution_process._identity[0]
          )
      except:
          # play it safe (most common)
          return True
    ]]
    (of [State.py]; the process classes are those above). *)
Definition identity_of (w : world) (process : option nat) : result nat :=
  match process with
  | Some self =>
      match procs w !! self with
      | Some (PStub p) => Ret (sp_identity p)
      | Some (PWorker p) => Ret (wp_identity p)
      | None => Raise (Exn IsException "AttributeError" "_identity")
      end
  | None => Raise (Exn IsException "AttributeError"
                     "'NoneType' object has no attribute '_identity'")
  end.

Definition has_different_processes (self : State) (w : world) : bool :=
  match bind (identity_of w (student_process self)) (fun student =>
        bind (identity_of w (solution_process self)) (fun solution =>
        Ret (negb (Nat.eqb student solution)))) with
  | Ret different => different
  | Raise _ => true
  end.

(** ** What the registry is kept like *)

(** A worker that is in its loop with nothing queued and nothing unread. *)
Definition waiting (p : WorkerProcess) : Prop :=
  wp_alive p = true /\ wp_in_run p = true /\
  wp_task_queue p = [] /\ wp_result_queue p = [].

(** Every instance is registered once and is a worker object. *)
Definition registry_ok (w : world) : Prop :=
  NoDup (instances w) /\
  forall self, self ∈ instances w -> exists p, procs w !! self = Some (PWorker p).

End WithRuntime.
End Local.

(* ===================================================================== *)
(** * tasks.py: the tasks that run inside a worker *)
(* ===================================================================== *)
Module Tasks.
Import Py.

(** Helpers of this repository that [tasks.py] imports from [utils] and
    [utils_env]; their sources are not part of the three files, they are
    taken as given. *)
Class Utils := {
  (** [utils.copy_env(env, keep_objs)]: a copy of the namespace *)
  copy_env : dict -> option (list string) -> dict;
  (** the [context] / [context_vals] a task carries *)
  context_t : Type;
  context_vals_t : Type;
  (** [set_context_vals(env, context, context_vals)], which updates [env] *)
  set_context_vals : dict -> context_t -> context_vals_t -> dict;
  (** [pythonwhat.State.State.active_state.get_converters()]: the table of
      converters, by qualified class name; [State.py] declares neither
      [active_state] nor [get_converters], so the call may raise *)
  get_converters : result (gmap string (value -> result value));
}.

(** ** context_objs_exit

    [[
      got_error = False
      for context_obj in context_objs:
          try:
              context_obj.__exit__(None, None, None)
          except Exception as e:
              got_error = e
      return got_error
    ]]
    [log] records the [__exit__] calls in the order they are made. *)
Fixpoint context_objs_exit_from (context_objs : list context_manager)
    (got_error : value) (log : list nat) : result value * list nat :=
  match context_objs with
  | [] => (Ret got_error, log)
  | context_obj :: rest =>
      let log := log ++ [cm_id context_obj] in
      match cm_exit context_obj with
      | None => context_objs_exit_from rest got_error log
      | Some e =>
          if is_Exception e
          then context_objs_exit_from rest (VExc e) log
          else (Raise e, log)
      end
  end.

Definition context_objs_exit (context_objs : list context_manager)
    (log : list nat) : result value * list nat :=
  context_objs_exit_from context_objs (VBool false) log.

(** ** TaskBreakDownNewEnv

    [[
      try:
          res = context_objs_exit(shell.user_ns['__context_obj__'])
          del shell.user_ns['__context_obj__']
          del shell.user_ns['__env__']
          return res
      except:
          return False
    ]] *)
Definition TaskBreakDownNewEnv_call (sh : shell) : result value * shell :=
  match context_obj sh with
  | None => (Ret (VBool false), sh)
  | Some context_objs =>
      match context_objs_exit context_objs (exited sh) with
      | (Raise _, log) =>
          (Ret (VBool false), Shell (user_ns sh) (env_layer sh) (context_obj sh) log)
      | (Ret res, log) =>
          match env_layer sh with
          | None => (Ret (VBool false), Shell (user_ns sh) None None log)
          | Some _ => (Ret res, Shell (user_ns sh) None None log)
          end
      end
  end.

(** The errors the managers raise on exit, in the recorded order. *)
Definition exit_errors (context_objs : list context_manager) : list exn :=
  omap cm_exit context_objs.

(** The last error of a list, or [False]. *)
Definition last_error_or_False (errors : list exn) : value :=
  match last errors with
  | Some e => VExc e
  | None => VBool false
  end.

(** The objects a [with] statement is given, as [context_env_update]
    uses them: what [__enter__()] returns or raises, the manager that is
    recorded for the tear-down, and, for a value that is unpacked over
    several names, its items ([len] and iteration raise for a value that
    has none). *)
Class Managers := {
  enter : value -> result value;
  manager : value -> context_manager;
  sequence : value -> result (list value)
}.

(** An entry of the [context] list of [TaskSetUpNewEnv]:
    [{'context_expr': ..., 'optional_vars': ...}]. *)
Record with_item `{Interpreter} := WithItem {
  context_expr : ast;
  optional_vars : option (list string)
}.
Arguments WithItem {_} context_expr optional_vars.

Section WithRuntime.
Context `{Interpreter} `{Utils}.

(** The environment [TaskGetOutput], [TaskGetResult] and
    [TaskRunTreeStoreEnv] build before running anything:
    [[
      new_env = utils.copy_env(get_env(shell.user_ns), self.keep_objs_in_env)
      if self.extra_env is not None:
          new_env.update(copy.deepcopy(self.extra_env))
      set_context_vals(new_env, self.context, self.context_vals)
    ]] *)
Definition fresh_env (keep_objs_in_env : option (list string))
    (extra_env : option dict) (context : context_t)
    (context_vals : context_vals_t) (sh : shell) : dict :=
  let new_env := copy_env (get_env sh) keep_objs_in_env in
  let new_env := match extra_env with
                 | Some extra => extra ∪ new_env
                 | None => new_env
                 end in
  set_context_vals new_env context context_vals.

(** [if self.pre_code is not None: exec(self.pre_code, new_env)] *)
Definition exec_pre_code (pre_code : option string) (new_env : dict) : result dict :=
  match pre_code with
  | Some code => completed (exec_src code new_env)
  | None => Ret new_env
  end.

(** ** TaskRunTreeStoreEnv *)
Record TaskRunTreeStoreEnv := {
  rts_keep_objs_in_env : option (list string);
  rts_extra_env : option dict;
  rts_context : context_t;
  rts_context_vals : context_vals_t;
  rts_pre_code : option string;
  rts_tree : ast;
  rts_name : string;
  rts_tempname : string
}.

(** [TaskRunTreeStoreEnv.__call__]: the answer (or the exception that
    leaves the task) and the shell afterwards. *)
Definition TaskRunTreeStoreEnv_call (t : TaskRunTreeStoreEnv) (sh : shell)
    : result value * shell :=
  let new_env := fresh_env (rts_keep_objs_in_env t) (rts_extra_env t)
                   (rts_context t) (rts_context_vals t) sh in
  match bind (exec_pre_code (rts_pre_code t) new_env)
             (fun ns => completed (exec_tree (rts_tree t) ns)) with
  | Raise _ => (Ret VNone, sh)
  | Ret new_env =>
      match new_env !! rts_name t with
      | None => (Ret (VStr "undefined"), sh)
      | Some obj =>
          let sh := set_env_item (rts_tempname t) obj sh in
          (bind (str obj) (fun s => Ret (VStr s)), sh)
      end
  end.

(** ** get_signature *)

(** The [signature] argument: [None], the name of a manual signature, or a
    signature object. *)
Inductive signature_arg :=
| SigNone
| SigName (s : string)
| SigObject (sig : signature).

(** [[
      try:
          els[0] = type(eval(els[0], env)).__name__
          generic_name = ".".join(els[:])
      except:
          raise ValueError('signature error - cannot convert call')
    ]] *)
Definition generic_name_of (name : string) (env : dict) : result string :=
  match split_on dot name with
  | [] => Raise (ValueError "signature error - cannot convert call")
  | first :: rest =>
      match eval_src first env with
      | Ret obj => Ret (join "." (type_name obj :: rest))
      | Raise _ => Raise (ValueError "signature error - cannot convert call")
      end
  end.

(** The inner [try] body of [get_signature]: the manual signatures. *)
Definition manual_signature (name mapped_name : string)
    (manual_sigs : gmap string parameters) (env : dict) : result signature :=
  match manual_sigs !! name with
  | Some ps => Signature ps
  | None =>
      (* it might be a method, and we have to find the general method name *)
      if contains_char dot mapped_name then
        bind (generic_name_of name env) (fun generic_name =>
          match manual_sigs !! generic_name with
          | Some ps => Signature ps
          | None => Raise (ValueError ("signature error - " +:+ generic_name
                                       +:+ " not in builtins"))
          end)
      else Raise (ValueError "manual signature not found")
  end.

Definition get_signature (name mapped_name : string) (sig : signature_arg)
    (manual_sigs : gmap string parameters) (env : dict) : result signature :=
  match sig with
  | SigName s =>
      match manual_sigs !! s with
      | Some ps => Signature ps
      | None => Raise (ValueError "signature error - specified signature not found")
      end
  | SigObject sig => Ret sig
  | SigNone =>
      (* establish function *)
      match eval_src mapped_name env with
      | Raise _ => Raise (ValueError (mapped_name +:+ "() was not found."))
      | Ret fun_ =>
          (* first go through manual sigs *)
          try_except (manual_signature name mapped_name manual_sigs env)
            (fun _ =>
               try_except (inspect_signature fun_)
                 (fun _ => Raise (ValueError
                    "signature error - cannot determine signature")))
      end
  end.

(** ** TaskGetSignature *)
Record TaskGetSignature := {
  gs_name : string;
  gs_mapped_name : string;
  gs_signature : signature_arg;
  gs_manual_sigs : gmap string parameters
}.

Definition TaskGetSignature_call (t : TaskGetSignature) (sh : shell)
    : result answer * shell :=
  match get_signature (gs_name t) (gs_mapped_name t) (gs_signature t)
          (gs_manual_sigs t) (get_env sh) with
  | Ret sig => (Ret (ASignature sig), sh)
  | Raise _ => (Ret ANone, sh)
  end.

(** ** TaskGetResult *)
Record TaskGetResult := {
  gr_keep_objs_in_env : option (list string);
  gr_extra_env : option dict;
  gr_context : context_t;
  gr_context_vals : context_vals_t;
  gr_pre_code : option string;
  gr_expr_code : option string;
  gr_tree : ast;
  gr_name : string
}.

(** [get_env(shell.user_ns)[name] = v; return str(get_env(shell.user_ns)[name])]
    inside a [try] whose [except] returns [None]. *)
Definition stage_and_str (name : string) (r : result value) (sh : shell)
    : result value * shell :=
  match r with
  | Raise _ => (Ret VNone, sh)
  | Ret v =>
      let sh := set_env_item name v sh in
      match str v with
      | Ret s => (Ret (VStr s), sh)
      | Raise _ => (Ret VNone, sh)
      end
  end.

Definition TaskGetResult_call (t : TaskGetResult) (sh : shell)
    : result value * shell :=
  let new_env := fresh_env (gr_keep_objs_in_env t) (gr_extra_env t)
                   (gr_context t) (gr_context_vals t) sh in
  stage_and_str (gr_name t)
    (bind (exec_pre_code (gr_pre_code t) new_env) (fun new_env =>
       match gr_expr_code t with
       | Some code =>
           (* exec returns None *)
           bind (completed (exec_src code new_env)) (fun _ => Ret VNone)
       | None => eval_tree (gr_tree t) new_env
       end))
    sh.

(** ** TaskGetFunctionCallResult *)
Record TaskGetFunctionCallResult := {
  fcr_fun_name : string;
  fcr_arguments : list value;
  fcr_name : string
}.

Definition TaskGetFunctionCallResult_call (t : TaskGetFunctionCallResult)
    (sh : shell) : result value * shell :=
  stage_and_str (fcr_name t)
    (match get_env sh !! fcr_fun_name t with
     | Some f => call f (fcr_arguments t)
     | None => Raise (KeyError (fcr_fun_name t))
     end)
    sh.

(** ** TaskGetTreeResult *)
Record TaskGetTreeResult := {
  tr_tree : ast;
  tr_name : string
}.

Definition TaskGetTreeResult_call (t : TaskGetTreeResult) (sh : shell)
    : result value * shell :=
  stage_and_str (tr_name t) (eval_tree (tr_tree t) (get_env sh)) sh.

(** ** TaskGetClass, TaskConvert, TaskGetStream *)

(** [get_env(shell.user_ns)[name]] *)
Definition env_item (name : string) (sh : shell) : result value :=
  match get_env sh !! name with
  | Some obj => Ret obj
  | None => Raise (KeyError name)
  end.

Definition TaskGetClass_call (name : string) (sh : shell) : result value * shell :=
  (bind (env_item name sh) (fun obj =>
     let typestr := match module_attr obj with
                    | Some m => m +:+ "."
                    | None => ""
                    end in
     Ret (VStr (typestr +:+ type_name obj))),
   sh).

(** The converter travels through [dill.dumps] / [dill.loads]; it is kept
    as the function it is. *)
Definition TaskConvert_call (name : string) (converter : value -> result value)
    (sh : shell) : result value * shell :=
  (bind (env_item name sh) converter, sh).

Definition TaskGetStream_call (name : string) (sh : shell) : result answer * shell :=
  match bind (env_item name sh) dill_dumps with
  | Ret b => (Ret (ABytes b), sh)
  | Raise _ => (Ret ANone, sh)
  end.

(** A call that returns a value, as a task. *)
Definition value_task (class : string)
    (f : shell -> result value * shell) : task :=
  Task class (fun sh => let '(r, sh') := f sh in (bind r (fun v => Ret (AValue v)), sh')).

(** ** Wrapper functions *)
Section Wrappers.
Context {P : Type} `{!Process P}.
Open Scope io_scope.

Definition getStream (name : string) : io P answer :=
  executeTask (Task "TaskGetStream" (TaskGetStream_call name)).

(** [obj_class in converters], [converters[obj_class]]: a list is not
    hashable. *)
Definition converter_for (obj_class : answer)
    (converters : gmap string (value -> result value))
    : result (option (value -> result value)) :=
  match obj_class with
  | AValue (VStr c) => Ret (converters !! c)
  | ABackendError _ => Raise (TypeError "unhashable type: 'list'")
  | _ => Ret None
  end.

(** [isinstance(stream, list) and 'backend-error' in str(stream)] *)
Definition is_backend_error_list (stream : answer) : bool :=
  match stream with
  | ABackendError (_ :: _) => true
  | AValue (VObj o) =>
      String.eqb (inst_class o) "list" &&
      match inst_str o with
      | Ret text => is_substring "backend-error" text
      | Raise _ => false
      end
  | _ => false
  end.

Definition getRepresentation (name : string) : io P answer :=
  obj_class <- executeTask (value_task "TaskGetClass" (TaskGetClass_call name)) ;;
  converters <- io_lift get_converters ;;
  found <- io_lift (converter_for obj_class converters) ;;
  match found with
  | Some converter =>
      stream <- executeTask
                  (value_task "TaskConvert" (TaskConvert_call name converter)) ;;
      if is_backend_error_list stream then io_ret ANone else io_ret stream
  | None => getStream name
  end.

(** [[
      if strrep is not None:
          bytestream = getRepresentation("_evaluation_object_", process)
      else:
          bytestream = None
      return (bytestream, strrep)
    ]] *)
Definition representation_of (strrep : answer) : io P (answer * answer) :=
  if negb (answer_is_None strrep) then
    bytestream <- getRepresentation "_evaluation_object_" ;;
    io_ret (bytestream, strrep)
  else io_ret (ANone, strrep).

Definition getResultInProcess (kwargs : TaskGetResult) : io P (answer * answer) :=
  let kwargs := {| gr_keep_objs_in_env := gr_keep_objs_in_env kwargs;
                   gr_extra_env := gr_extra_env kwargs;
                   gr_context := gr_context kwargs;
                   gr_context_vals := gr_context_vals kwargs;
                   gr_pre_code := gr_pre_code kwargs;
                   gr_expr_code := gr_expr_code kwargs;
                   gr_tree := gr_tree kwargs;
                   gr_name := "_evaluation_object_" |} in
  strrep <- executeTask (value_task "TaskGetResult" (TaskGetResult_call kwargs)) ;;
  representation_of strrep.

Definition getFunctionCallResultInProcess (kwargs : TaskGetFunctionCallResult)
    : io P (answer * answer) :=
  let kwargs := {| fcr_fun_name := fcr_fun_name kwargs;
                   fcr_arguments := fcr_arguments kwargs;
                   fcr_name := "_evaluation_object_" |} in
  strrep <- executeTask (value_task "TaskGetFunctionCallResult"
                           (TaskGetFunctionCallResult_call kwargs)) ;;
  representation_of strrep.

Definition getTreeResultInProcess (kwargs : TaskGetTreeResult)
    : io P (answer * answer) :=
  let kwargs := {| tr_tree := tr_tree kwargs;
                   tr_name := "_evaluation_object_" |} in
  strrep <- executeTask (value_task "TaskGetTreeResult"
                           (TaskGetTreeResult_call kwargs)) ;;
  representation_of strrep.

End Wrappers.

(** A process together with the classes of the tasks it was asked to run,
    in the order of the requests. *)
Definition recorded_executeTask {P : Type} `{!Process P} (t : task)
    : io (P * list string) answer :=
  fun '(p, log) =>
    match executeTask t p with
    | Returns a p' => Returns a (p', log ++ [task_class t])
    | Raises e p' => Raises e (p', log ++ [task_class t])
    | Blocks => Blocks
    end.

Definition Recorded {P : Type} `{!Process P} : Process (P * list string) :=
  {| executeTask := recorded_executeTask |}.

(** What the pair of a result wrapper and the requests it made must
    satisfy: the task [first] is requested before anything else; a [None]
    string result comes with a [None] byte stream and no further request;
    further requests are only made after a string result that is not
    [None]. *)
Definition staged_protocol (first : string) (log : list string)
    (bytestream strrep : answer) (log' : list string) : Prop :=
  (answer_is_None strrep = true -> bytestream = ANone /\ log' = log ++ [first]) /\
  (exists rest, log' = log ++ first :: rest /\
                (rest <> [] -> answer_is_None strrep = false)).

(** What happened to the snippet, read off the run itself. *)
Inductive snippet_run :=
| SnippetRaised (e : exn)
| NameUnbound
| NameBound (obj : value).

Definition snippet_run_of (t : TaskRunTreeStoreEnv) (sh : shell) : snippet_run :=
  let new_env := fresh_env (rts_keep_objs_in_env t) (rts_extra_env t)
                   (rts_context t) (rts_context_vals t) sh in
  match exec_pre_code (rts_pre_code t) new_env with
  | Raise e => SnippetRaised e
  | Ret ns =>
      let o := exec_tree (rts_tree t) ns in
      match out_exc o with
      | Some e => SnippetRaised e
      | None =>
          match out_ns o !! rts_name t with
          | None => NameUnbound
          | Some obj => NameBound obj
          end
      end
  end.

(** ** context_env_update, TaskSetUpNewEnv *)
Section SetUp.
Context `{Managers}.

(** [[
      context_keys = context['optional_vars']
      if context_keys is None:
          continue
      elif len(context_keys) == 1:
          env_update[context_keys[0]] = context_obj_init
      else:
          assert len(context_keys) == len(context_obj_init)
          for (context_key, current_obj) in zip(context_keys, context_obj_init):
              env_update[context_key] = current_obj
    ]] *)
Definition bind_optional_vars (context_keys : option (list string))
    (context_obj_init : value) (env_update : dict) : result dict :=
  match context_keys with
  | None => Ret env_update
  | Some [key] => Ret (<[key := context_obj_init]> env_update)
  | Some context_keys =>
      bind (sequence context_obj_init) (fun objs =>
        if Nat.eqb (length context_keys) (length objs)
        then Ret (foldl (fun upd ko => <[ko.1 := ko.2]> upd) env_update
                    (zip context_keys objs))
        else Raise (Exn IsException "AssertionError" ""))
  end.

(** [[
      for context in context_list:
          context_obj = eval(
              compile(context['context_expr'], '<context_eval>', 'eval'),
              env)
          context_objs.append(context_obj)
          context_obj_init = context_obj.__enter__()
          ...
      return (env_update, context_objs)
    ]] *)
Fixpoint context_env_update_from (context_list : list with_item) (env : dict)
    (env_update : dict) (context_objs : list context_manager)
    : result (dict * list context_manager) :=
  match context_list with
  | [] => Ret (env_update, context_objs)
  | context :: context_list =>
      bind (eval_tree (context_expr context) env) (fun context_obj =>
      let context_objs := context_objs ++ [manager context_obj] in
      bind (enter context_obj) (fun context_obj_init =>
      bind (bind_optional_vars (optional_vars context) context_obj_init env_update)
        (fun env_update =>
           context_env_update_from context_list env env_update context_objs)))
  end.

Definition context_env_update (context_list : list with_item) (env : dict)
    : result (dict * list context_manager) :=
  context_env_update_from context_list env ∅ [].

(** [[
      shell.user_ns['__env__'] = utils.copy_env(shell.user_ns)
      try:
          context_env, context_objs = context_env_update(self.context, shell.user_ns['__env__'])
          shell.user_ns['__env__'].update(context_env)
          shell.user_ns['__context_obj__'] = context_objs
          return True
      except Exception as e:
          return e
    ]] *)
Definition TaskSetUpNewEnv_call (context : list with_item) (sh : shell)
    : result value * shell :=
  let env := copy_env (user_ns sh) None in
  match context_env_update context env with
  | Ret (context_env, context_objs) =>
      (Ret (VBool true),
       Shell (user_ns sh) (Some (context_env ∪ env)) (Some context_objs) (exited sh))
  | Raise e =>
      let sh := Shell (user_ns sh) (Some env) (context_obj sh) (exited sh) in
      if is_Exception e then (Ret (VExc e), sh) else (Raise e, sh)
  end.

End SetUp.

End WithRuntime.
End Tasks.

(* ===================================================================== *)
(** * Explicit inputs *)
(* ===================================================================== *)
Module Examples.
Import Py MiniPy Tasks.

(** [copy_env] copies, [set_context_vals] has nothing to set. *)
#[export] Instance utils : Utils := {|
  copy_env := fun env _ => env;
  context_t := unit;
  context_vals_t := unit;
  set_context_vals := fun env _ _ => env;
  get_converters := Ret ∅;
|}.

Definition empty_shell : shell := Shell ∅ None None [].

(** A [TaskRunTreeStoreEnv] for the name [x], with no pre-code. *)
Definition store_x (tree : node) : TaskRunTreeStoreEnv := {|
  rts_keep_objs_in_env := None;
  rts_extra_env := None;
  rts_context := tt;
  rts_context_vals := tt;
  rts_pre_code := None;
  rts_tree := tree;
  rts_name := "x";
  rts_tempname := "_evaluation_object_"
|}.

(** [raise Exception('boom')] *)
Definition snippet_raises : node :=
  Module [RaiseStmt (Exn IsException "Exception" "boom")].
(** [pass] *)
Definition snippet_pass : node := Module [Pass].
(** [x = 5] *)
Definition snippet_x_5 : node := Module [Assign "x" (Lit (VInt 5))].
(** [x = "undefined"] *)
Definition snippet_x_undefined : node :=
  Module [Assign "x" (Lit (VStr "undefined"))].

(** Context managers: the first exits cleanly, the second raises a
    [ValueError] on exit, the third raises [SystemExit], the fourth exits
    cleanly, the fifth raises a [KeyError]. *)
Definition cm_ok_1 : context_manager := ContextManager 1 None.
Definition cm_ValueError_2 : context_manager :=
  ContextManager 2 (Some (ValueError "bad exit")).
Definition cm_SystemExit_3 : context_manager :=
  ContextManager 3 (Some (Exn IsBaseExceptionOnly "SystemExit" "")).
Definition cm_ok_4 : context_manager := ContextManager 4 None.
Definition cm_KeyError_5 : context_manager :=
  ContextManager 5 (Some (KeyError "'k'")).

(** A function [f(x)], and a [DataFrame] with a method [head]. *)
Definition function_f_x : value :=
  VObj (Instance (Some "__main__") "function" (Ret "<function f>") [] (Some ["x"])).
Definition a_DataFrame : value :=
  VObj (Instance (Some "pandas.core.frame") "DataFrame" (Ret "Empty DataFrame")
          ["head"; "tail"] None).

Definition env_f_df : dict := {[ "f" := function_f_x; "df" := a_DataFrame ]}.

(** The manual table: [f(a, b)] and [DataFrame.head(n)]. *)
Definition manual_f_head : gmap string (list string) :=
  {[ "f" := ["a"; "b"]; "DataFrame.head" := ["n"] ]}.

(** For the examples, a [TargetVars] lists target names with the value
    they were given, if any; [defined_items] keeps those that have one. *)
#[export] Instance externals : StateModel.Externals := {|
  StateModel.TargetVars := list (string * option value);
  StateModel.TargetVars_new := [];
  StateModel.TargetVars_bool := fun t => negb (bool_decide (t = []));
  StateModel.defined_items := fun t =>
    list_to_map (omap (fun '(k, v) => match v with
                                      | Some v => Some (k, v)
                                      | None => None
                                      end) t);
  StateModel.tokens := unit;
  StateModel.get_text := fun _ _ => "";
  StateModel.wrap_in_module := fun nodes =>
    Module (flat_map (fun n => match n with Module b => b | Expression _ => [] end)
              nodes);
  StateModel.parser_dict := ["if_elses"; "for_loops"; "function_defs"];
  StateModel.dispatcher := unit;
  StateModel.Dispatcher := fun _ => tt;
  StateModel.converters_t := unit;
  StateModel.get_manual_converters := tt;
  StateModel.parts := unit;
  StateModel.reporter := list string;
  StateModel.Reporter := fun r errors => r ++ errors;
  (** a template without placeholders renders as itself *)
  StateModel.render := fun text _ => Ret text;
|}.

(** A store with the context [{x: 1, z: 0}] (at 1, 2, 3) and the update
    [x = 2, y = 3, w] (at 4), where [w] has no value yet. *)
Definition store_C_U : StateModel.store :=
  {[ 1%positive := StateModel.OTargetVars [("x", Some (VInt 1))];
     2%positive := StateModel.ODict {[ "z" := VInt 0 ]};
     3%positive := StateModel.ODict {[ "x" := VInt 1; "z" := VInt 0 ]};
     4%positive := StateModel.OTargetVars
                     [("x", Some (VInt 2)); ("y", Some (VInt 3)); ("w", None)] ]}.

Definition context_C : StateModel.Context := StateModel.MkContext 1 2 3.
Definition bindings_C : dict := {[ "x" := VInt 1; "z" := VInt 0 ]}.
Definition bindings_U : dict := {[ "x" := VInt 2; "y" := VInt 3 ]}.

(** A root state over the store [store_C_U], with the four contexts at
    [context_C], a trail and a highlight. *)
Definition a_state (trail : list StateModel.message) (hl : option node)
    : StateModel.State :=
  StateModel.MkState "State" (Some "x = 5") (Some "x = 5") (Some "")
    (Some tt) (Some tt) (Some snippet_x_5) (Some snippet_x_5) (Some (Module []))
    None None None [] None None None trail false tt
    context_C context_C context_C context_C hl None tt None [].

Definition text_message (text : string) : StateModel.message :=
  StateModel.Message text ∅.

Definition trail_ABCD : list StateModel.message :=
  [text_message "A"; text_message ""; text_message "B"; text_message "C";
   text_message "D"].

(** No backend: the full mode is not available. *)
#[export] Instance no_backend : Local.Backend := {|
  Local.BACKEND_AVAILABLE := false;
  Local.create := Local.StubShell;
  Local.TaskCaptureFullOutput := fun code _ => Local.TaskCaptureOutput code
|}.

(** A task of the checking machinery that raises. *)
Definition task_boom : task :=
  Task "TaskBoom" (fun sh => (Raise (ValueError "boom"), sh)).

(** [2] and the unbound name [zz], as expression trees. *)
Definition tree_2 : TaskGetTreeResult :=
  {| tr_tree := Expression (Lit (VInt 2)); tr_name := "" |}.
Definition tree_zz : TaskGetTreeResult :=
  {| tr_tree := Expression (Name "zz"); tr_name := "" |}.

Definition a_StubProcess : Local.StubProcess :=
  Local.MkStubProcess Local.StubShell 7.

(** A running [SimpleProcess], waiting for tasks. *)
Definition a_worker : Local.WorkerProcess :=
  Local.MkWorkerProcess Local.ClsSimpleProcess 7 true true (Some "/home/repl")
    Local.StubShell [] [].

(** A worker that was created and never started. *)
Definition an_idle_worker : Local.WorkerProcess :=
  Local.MkWorkerProcess Local.ClsSimpleProcess 8 false false None
    Local.StubShell [] [].

(** Two registered workers, the first running, the second never started;
    [stubborn] says whether the first outlasts [terminate] and the wait. *)
Definition a_world (stubborn : bool) : Local.world := {|
  Local.procs := {[ 1%nat := Local.PWorker a_worker; 2%nat := Local.PWorker an_idle_worker ]};
  Local.instances := [1; 2]%nat;
  Local.cwd := "/home/repl";
  Local.dirs := {[ "/home/repl" ]};
  Local.randoms := [11; 12; 13]%nat;
  Local.outlasts := fun self => stubborn && bool_decide (self = 1%nat)
|}.

(** A call of [to_child] that descends into the tree of [x = 5] on the
    student side and of [pass] on the solution side. *)
Definition descent (node_name : string) : StateModel.to_child_args := {|
  StateModel.arg_student_subtree := StateModel.Tree snippet_x_5;
  StateModel.arg_solution_subtree := StateModel.Tree snippet_pass;
  StateModel.arg_student_context := None;
  StateModel.arg_solution_context := None;
  StateModel.arg_student_env := None;
  StateModel.arg_solution_env := None;
  StateModel.arg_student_parts := None;
  StateModel.arg_solution_parts := None;
  StateModel.arg_highlight := None;
  StateModel.arg_highlighting_disabled := None;
  StateModel.arg_append_message := StateModel.MsgText "Check the loop. ";
  StateModel.arg_node_name := node_name
|}.

(** The child this call makes of the root state without trail. *)
Definition a_child (node_name : string) : StateModel.State :=
  StateModel.MkState node_name (Some "") (Some "") (Some "")
    (Some tt) (Some tt) (Some snippet_x_5) (Some snippet_pass) (Some (Module []))
    None None None [] (Some (a_state [] None)) None None
    [text_message "Check the loop. "] false tt
    context_C context_C context_C context_C (Some snippet_x_5) None tt None [].

(** A second update, [y = 4, v = 5], for the store [store_V]. *)
Definition store_V : StateModel.store :=
  <[ 9%positive := StateModel.OTargetVars
                     [("y", Some (VInt 4)); ("v", Some (VInt 5))] ]> store_C_U.

Definition bindings_V : dict := {[ "y" := VInt 4; "v" := VInt 5 ]}.

(** A [TaskGetResult] that is given the code [x = 5] to run. *)
Definition get_result_expr : TaskGetResult := {|
  gr_keep_objs_in_env := None;
  gr_extra_env := None;
  gr_context := tt;
  gr_context_vals := tt;
  gr_pre_code := None;
  gr_expr_code := Some "x = 5";
  gr_tree := Expression (Name "x");
  gr_name := "_evaluation_object_"
|}.

(** The tree [2], to be staged under the usual name. *)
Definition tree_2_staged : TaskGetTreeResult :=
  {| tr_tree := Expression (Lit (VInt 2)); tr_name := "_evaluation_object_" |}.


(** For the examples an integer [n] is a context manager: entering it
    gives [n], its exit raises nothing, except that the exit of [13]
    raises [ValueError]; nothing else can be entered, and nothing can be
    unpacked. *)
#[export] Instance managers : Managers := {|
  enter := fun v => match v with
                    | VInt z => Ret (VInt z)
                    | _ => Raise (Exn IsException "AttributeError" "__enter__")
                    end;
  manager := fun v => match v with
                      | VInt 13 => ContextManager 13 (Some (ValueError "unlucky"))
                      | VInt z => ContextManager (Z.to_nat z) None
                      | _ => ContextManager 0 None
                      end;
  sequence := fun _ => Raise (TypeError "object has no len()")
|}.

Definition with_7_zz : list with_item :=
  [WithItem (Expression (Lit (VInt 7))) (Some ["a"]);
   WithItem (Expression (Name "zz")) None].


(** Nothing runs yet. *)
Definition fresh_world : Local.world := {|
  Local.procs := ∅;
  Local.instances := [];
  Local.cwd := "/home/repl";
  Local.dirs := {[ "/home/repl"; "/home/repl/solution" ]};
  Local.randoms := [11; 12; 13]%nat;
  Local.outlasts := fun _ => false
|}.

End Examples.

(* ===================================================================== *)
(** * Properties *)
(* ===================================================================== *)

Import Py.

(** ** run-snippet-capture-result ([TaskRunTreeStoreEnv]) *)
Section RunTreeStoreEnv.
Import Tasks.
Context `{Interpreter} `{Utils}.

(** The answer of the task is a function of what happened to the snippet. *)
Lemma TaskRunTreeStoreEnv_answer (t : TaskRunTreeStoreEnv) (sh : shell) :
  fst (TaskRunTreeStoreEnv_call t sh) =
    match snippet_run_of t sh with
    | SnippetRaised _ => Ret VNone
    | NameUnbound => Ret (VStr "undefined")
    | NameBound obj => bind (str obj) (fun s => Ret (VStr s))
    end.
Proof.
  unfold TaskRunTreeStoreEnv_call, snippet_run_of.
  destruct (exec_pre_code _ _) as [ns|e]; simpl; [|reflexivity].
  unfold completed.
  destruct (out_exc (exec_tree (rts_tree t) ns)); [reflexivity|].
  destruct (out_ns _ !! rts_name t); reflexivity.
Qed.

(** The staged object: when the name is bound, the task stores the object
    under [tempname] in the environment of the shell, and nothing else
    changes; in the two other cases the shell is left as it was. *)
Lemma TaskRunTreeStoreEnv_shell (t : TaskRunTreeStoreEnv) (sh : shell) :
  snd (TaskRunTreeStoreEnv_call t sh) =
    match snippet_run_of t sh with
    | NameBound obj => set_env_item (rts_tempname t) obj sh
    | _ => sh
    end.
Proof.
  unfold TaskRunTreeStoreEnv_call, snippet_run_of.
  destruct (exec_pre_code _ _) as [ns|e]; simpl; [|reflexivity].
  unfold completed.
  destruct (out_exc (exec_tree (rts_tree t) ns)); [reflexivity|].
  destruct (out_ns _ !! rts_name t); reflexivity.
Qed.

(** C1, as amended.  [TaskRunTreeStoreEnv] answers [None] when running the
    snippet raises, the literal ["undefined"] when the snippet completes and
    the target name is not in the namespace it ran in, and the string form
    of the object bound to the name otherwise (when [str] of it returns).
    [None] is never confused with either string answer; the ["undefined"]
    marker and the answer for a bound object coincide exactly when the
    string form of the object is ["undefined"]. *)
Theorem run_snippet_capture_result_outcomes :
  forall (t : TaskRunTreeStoreEnv) (sh : shell),
    (forall e, snippet_run_of t sh = SnippetRaised e ->
       fst (TaskRunTreeStoreEnv_call t sh) = Ret VNone) /\
    (snippet_run_of t sh = NameUnbound ->
       fst (TaskRunTreeStoreEnv_call t sh) = Ret (VStr "undefined")) /\
    (forall obj s, snippet_run_of t sh = NameBound obj -> str obj = Ret s ->
       fst (TaskRunTreeStoreEnv_call t sh) = Ret (VStr s)) /\
    (forall (t' : TaskRunTreeStoreEnv) (sh' : shell) e obj s,
       snippet_run_of t sh = SnippetRaised e ->
       (snippet_run_of t' sh' = NameUnbound \/
        (snippet_run_of t' sh' = NameBound obj /\ str obj = Ret s)) ->
       fst (TaskRunTreeStoreEnv_call t sh) <> fst (TaskRunTreeStoreEnv_call t' sh')) /\
    (forall (t' : TaskRunTreeStoreEnv) (sh' : shell) obj s,
       snippet_run_of t sh = NameUnbound ->
       snippet_run_of t' sh' = NameBound obj -> str obj = Ret s ->
       (fst (TaskRunTreeStoreEnv_call t sh) = fst (TaskRunTreeStoreEnv_call t' sh')
        <-> s = "undefined")).
Proof.
  intros t sh. rewrite TaskRunTreeStoreEnv_answer.
  split; [|split; [|split; [|split]]].
  - intros e ->. reflexivity.
  - intros ->. reflexivity.
  - intros obj s -> ->. reflexivity.
  - intros t' sh' e obj s -> Hc. rewrite TaskRunTreeStoreEnv_answer.
    destruct Hc as [-> | [-> ->]]; simpl; congruence.
  - intros t' sh' obj s -> Hb Hs.
    rewrite TaskRunTreeStoreEnv_answer, Hb, Hs. simpl.
    split; [congruence | intros ->; reflexivity].
Qed.

End RunTreeStoreEnv.

Section RunTreeStoreEnvExamples.
Import Tasks MiniPy Examples.

Example run_snippet_raises :
  fst (TaskRunTreeStoreEnv_call (store_x snippet_raises) empty_shell) = Ret VNone.
Proof. reflexivity. Qed.

Example run_snippet_never_binds :
  fst (TaskRunTreeStoreEnv_call (store_x snippet_pass) empty_shell)
  = Ret (VStr "undefined").
Proof. reflexivity. Qed.

Example run_snippet_binds_5 :
  TaskRunTreeStoreEnv_call (store_x snippet_x_5) empty_shell
  = (Ret (VStr "5"), Shell {[ "_evaluation_object_" := VInt 5 ]} None None []).
Proof. reflexivity. Qed.

(** The claim of C1 at [x = 5]: the name is bound, the answer is ["5"]. *)
Lemma run_snippet_capture_result_witness :
  snippet_run_of (store_x snippet_x_5) empty_shell = NameBound (VInt 5) /\
  fst (TaskRunTreeStoreEnv_call (store_x snippet_x_5) empty_shell) = Ret (VStr "5").
Proof.
  split; [reflexivity|].
  apply (proj1 (proj2 (proj2
           (run_snippet_capture_result_outcomes (store_x snippet_x_5) empty_shell)))
           (VInt 5) "5"); reflexivity.
Defined.

(** C1 as stated fails: [pass] never binds [x], [x = "undefined"] binds it,
    and the task gives the same answer for both, so the two outcomes are
    not distinguishable. *)
Lemma unbound_marker_not_distinguishable :
  snippet_run_of (store_x snippet_pass) empty_shell = NameUnbound /\
  snippet_run_of (store_x snippet_x_undefined) empty_shell
    = NameBound (VStr "undefined") /\
  fst (TaskRunTreeStoreEnv_call (store_x snippet_pass) empty_shell)
    = fst (TaskRunTreeStoreEnv_call (store_x snippet_x_undefined) empty_shell).
Proof. repeat split. Qed.

End RunTreeStoreEnvExamples.

(** ** Tearing down a scoped environment ([context_objs_exit]) *)
Section ContextObjsExit.
Import Tasks.

Lemma context_objs_exit_from_Exceptions (context_objs : list context_manager) :
  forall (got_error : value) (log : list nat),
    Forall (fun e => is_Exception e = true) (exit_errors context_objs) ->
    context_objs_exit_from context_objs got_error log
    = (Ret (match last (exit_errors context_objs) with
            | Some e => VExc e
            | None => got_error
            end),
       log ++ map cm_id context_objs).
Proof.
  induction context_objs as [|c rest IH]; intros got_error log Hall; simpl.
  - by rewrite app_nil_r.
  - unfold exit_errors in *. cbn [omap list_omap] in *.
    destruct (cm_exit c) as [e|] eqn:Hc; cbn [mbind option_bind] in *.
    + pose proof (Forall_inv Hall) as He. pose proof (Forall_inv_tail Hall) as Hall'.
      simpl in He. rewrite He. rewrite IH by exact Hall'. rewrite <- app_assoc. simpl.
      f_equal. f_equal.
      rewrite last_cons. by destruct (last (omap cm_exit rest)).
    + rewrite IH by done. by rewrite <- app_assoc.
Qed.

(** C8, as amended.  As long as the failures the managers raise on exit
    are [Exception]s, [context_objs_exit] calls [__exit__] on every
    recorded manager, in the recorded order, raises nothing, and returns
    the last error met, or [False] when every exit succeeded. *)
Theorem context_objs_exit_aggregates :
  forall (context_objs : list context_manager) (log : list nat),
    Forall (fun e => is_Exception e = true) (exit_errors context_objs) ->
    context_objs_exit context_objs log
    = (Ret (last_error_or_False (exit_errors context_objs)),
       log ++ map cm_id context_objs).
Proof.
  intros context_objs log Hall. unfold context_objs_exit.
  by rewrite context_objs_exit_from_Exceptions.
Qed.

(** The tear-down task on top of it: with a scoped environment in place
    and only [Exception]s raised on exit, the task exits every manager,
    removes the two reserved entries and answers with the aggregate. *)
Lemma TaskBreakDownNewEnv_aggregates (sh : shell) context_objs env :
  context_obj sh = Some context_objs ->
  env_layer sh = Some env ->
  Forall (fun e => is_Exception e = true) (exit_errors context_objs) ->
  TaskBreakDownNewEnv_call sh
  = (Ret (last_error_or_False (exit_errors context_objs)),
     Shell (user_ns sh) None None (exited sh ++ map cm_id context_objs)).
Proof.
  intros Hc He Hall. unfold TaskBreakDownNewEnv_call, context_objs_exit.
  rewrite Hc, context_objs_exit_from_Exceptions by done. by rewrite He.
Qed.

(** Whatever the managers raise, the task itself never raises. *)
Lemma TaskBreakDownNewEnv_never_raises (sh : shell) :
  exists res, fst (TaskBreakDownNewEnv_call sh) = Ret res.
Proof.
  unfold TaskBreakDownNewEnv_call.
  destruct (context_obj sh) as [objs|]; [|by eexists].
  destruct (context_objs_exit objs (exited sh)) as [[res|e] log]; simpl.
  - destruct (env_layer sh); by eexists.
  - by eexists.
Qed.

End ContextObjsExit.

Section ContextObjsExitExamples.
Import Tasks Examples.

(** Two failures out of four exits: all four managers are exited, the
    last error wins. *)
Lemma context_objs_exit_witness :
  Forall (fun e => is_Exception e = true)
         (exit_errors [cm_ok_1; cm_ValueError_2; cm_KeyError_5; cm_ok_4]) /\
  context_objs_exit [cm_ok_1; cm_ValueError_2; cm_KeyError_5; cm_ok_4] []
  = (Ret (VExc (KeyError "'k'")), [1; 2; 5; 4]%nat).
Proof.
  assert (Hall : Forall (fun e => is_Exception e = true)
            (exit_errors [cm_ok_1; cm_ValueError_2; cm_KeyError_5; cm_ok_4])).
  { repeat constructor. }
  split; [exact Hall|].
  exact (context_objs_exit_aggregates
           [cm_ok_1; cm_ValueError_2; cm_KeyError_5; cm_ok_4] [] Hall).
Defined.

Example context_objs_exit_all_fine :
  context_objs_exit [cm_ok_1; cm_ok_4] [] = (Ret (VBool false), [1; 4]%nat).
Proof. reflexivity. Qed.

(** C8 as stated fails: a manager whose [__exit__] raises [SystemExit]
    (not an [Exception]) stops the iteration, the managers after it are
    never exited, and the error is raised to the caller of
    [context_objs_exit]. *)
Lemma context_objs_exit_stopped_by_SystemExit :
  context_objs_exit [cm_ok_1; cm_SystemExit_3; cm_ok_4] []
  = (Raise (Exn IsBaseExceptionOnly "SystemExit" ""), [1; 3]%nat).
Proof. reflexivity. Qed.

(** The task around it then answers [False] and leaves both reserved
    entries in place. *)
Example TaskBreakDownNewEnv_after_SystemExit :
  TaskBreakDownNewEnv_call
    (Shell ∅ (Some ∅) (Some [cm_ok_1; cm_SystemExit_3; cm_ok_4]) [])
  = (Ret (VBool false),
     Shell ∅ (Some ∅) (Some [cm_ok_1; cm_SystemExit_3; cm_ok_4]) [1; 3]%nat).
Proof. reflexivity. Qed.

End ContextObjsExitExamples.

(** ** get-signature *)
Section GetSignature.
Import Tasks.
Context `{Interpreter}.

Lemma split_on_nonempty c s : split_on c s <> [].
Proof.
  destruct s as [|a s]; simpl; [done|].
  destruct (Ascii.eqb a c); [done|]. by destruct (split_on c s).
Qed.

Lemma append_empty_r (s : string) : s +:+ "" = s.
Proof.
  induction s as [|x s IH]; [done|].
  change (String x s +:+ "") with (String x (s +:+ "")). by rewrite IH.
Qed.

(** [split] and [join] on a name: up to its first dot, and the rest. *)
Lemma split_on_no_separator c (a : string) :
  contains_char c a = false -> split_on c a = [a].
Proof.
  induction a as [|x a IH]; cbn; [done|].
  destruct (Ascii.eqb x c); [done|]. intros Ha. by rewrite IH.
Qed.

Lemma split_on_first c (a m : string) :
  contains_char c a = false ->
  split_on c (a +:+ String c m) = a :: split_on c m.
Proof.
  induction a as [|x a IH].
  - intros _. change ("" +:+ String c m) with (String c m). cbn.
    by rewrite Ascii.eqb_refl.
  - change (String x a +:+ String c m) with (String x (a +:+ String c m)). cbn.
    destruct (Ascii.eqb x c); [done|]. intros Ha. by rewrite IH.
Qed.

Lemma join_cons_split_on (cls m : string) :
  join "." (cls :: split_on dot m) = cls +:+ "." +:+ join "." (split_on dot m).
Proof.
  cbn [join]. destruct (split_on dot m) eqn:E; [|done].
  by apply split_on_nonempty in E.
Qed.

Lemma join_split_on (m : string) : join "." (split_on dot m) = m.
Proof.
  induction m as [|x m IH]; [done|].
  cbn [split_on]. destruct (Ascii.eqb x dot) eqn:Ex.
  - apply Ascii.eqb_eq in Ex as ->. rewrite join_cons_split_on, IH. done.
  - destruct (split_on dot m) as [|w ws] eqn:E; [by apply split_on_nonempty in E|].
    destruct ws as [|w' ws].
    + cbn [join] in IH |- *. by rewrite IH.
    + cbn [join] in IH |- *. rewrite <- IH. done.
Qed.

(** Every name is a part without dot, followed by nothing or by a dot and
    the rest. *)
Lemma name_up_to_dot (name : string) :
  exists obj_name suffix,
    name = obj_name +:+ suffix /\ contains_char dot obj_name = false /\
    (suffix = "" \/ exists method, suffix = "." +:+ method).
Proof.
  induction name as [|x name (a & s & Hn & Ha & Hs)].
  - exists "", "". repeat split. by left.
  - destruct (Ascii.eqb x dot) eqn:Ex.
    + apply Ascii.eqb_eq in Ex as ->. exists "", (String dot name).
      repeat split. right. by exists name.
    + exists (String x a), s. split; [|split; [|done]].
      * change (String x a +:+ s) with (String x (a +:+ s)). by rewrite Hn.
      * cbn. by rewrite Ex.
Qed.

(** The generalized name of a call: the class of the object in place of
    the part of the name before its first dot. *)
Lemma generic_name_of_up_to_dot (obj_name suffix : string) (env : dict) :
  contains_char dot obj_name = false ->
  suffix = "" \/ (exists method, suffix = "." +:+ method) ->
  generic_name_of (obj_name +:+ suffix) env
  = match eval_src obj_name env with
    | Ret obj =>
        Ret (match obj with
             | VNone => "NoneType"
             | VBool _ => "bool"
             | VInt _ => "int"
             | VStr _ => "str"
             | VExc e => exn_type e
             | VObj o => inst_class o
             end +:+ suffix)
    | Raise _ => Raise (ValueError "signature error - cannot convert call")
    end.
Proof.
  intros Ha [->|[m ->]]; unfold generic_name_of.
  - rewrite append_empty_r, split_on_no_separator by done.
    destruct (eval_src obj_name env) as [obj|e]; [|done].
    f_equal. cbn [join]. rewrite append_empty_r. by destruct obj.
  - change ("." +:+ m) with (String dot m). rewrite split_on_first by done.
    destruct (eval_src obj_name env) as [obj|e]; [|done].
    f_equal. rewrite join_cons_split_on, join_split_on. by destruct obj.
Qed.

(** C6, as amended.  With no signature passed in, [get_signature] first
    evaluates the mapped name and raises [ValueError] when that fails,
    whatever the manual table holds.  When the callable is found, the
    manual entry of the call's name is used, whatever introspection of the
    callable would say; else, when the mapped name has a dot, the manual
    entry of the generalized name: the name with the part before its
    first dot replaced by the name of the class of the object that part
    evaluates to ([type(obj).method] for [obj.method]); and only when both
    look-ups fail, or no signature can be made of the entry found,
    introspection of the callable, with [ValueError] when that fails
    too. *)
Theorem get_signature_resolution_order :
  forall (name mapped_name : string) (manual_sigs : gmap string parameters)
         (env : dict),
    let class_of (obj : value) :=
      match obj with
      | VNone => "NoneType"
      | VBool _ => "bool"
      | VInt _ => "int"
      | VStr _ => "str"
      | VExc e => exn_type e
      | VObj o => inst_class o
      end in
    let up_to_dot (obj_name suffix : string) :=
      name = obj_name +:+ suffix /\ contains_char dot obj_name = false /\
      (suffix = "" \/ exists method, suffix = "." +:+ method) in
    match eval_src mapped_name env with
    | Raise _ =>
        get_signature name mapped_name SigNone manual_sigs env
        = Raise (ValueError (mapped_name +:+ "() was not found."))
    | Ret f =>
        let introspection :=
          match inspect_signature f with
          | Ret sig => Ret sig
          | Raise _ => Raise (ValueError "signature error - cannot determine signature")
          end in
        let from_entry (ps : parameters) :=
          match Signature ps with
          | Ret sig => Ret sig
          | Raise _ => introspection
          end in
        (forall ps,
           manual_sigs !! name = Some ps ->
           get_signature name mapped_name SigNone manual_sigs env = from_entry ps) /\
        (forall obj_name suffix obj ps,
           manual_sigs !! name = None ->
           contains_char dot mapped_name = true ->
           up_to_dot obj_name suffix ->
           eval_src obj_name env = Ret obj ->
           manual_sigs !! (class_of obj +:+ suffix) = Some ps ->
           get_signature name mapped_name SigNone manual_sigs env = from_entry ps) /\
        (manual_sigs !! name = None ->
         (contains_char dot mapped_name = false \/
          forall obj_name suffix,
            up_to_dot obj_name suffix ->
            match eval_src obj_name env with
            | Ret obj => manual_sigs !! (class_of obj +:+ suffix) = None
            | Raise _ => True
            end) ->
         get_signature name mapped_name SigNone manual_sigs env = introspection)
    end.
Proof.
  intros name mapped_name manual_sigs env class_of up_to_dot.
  unfold get_signature.
  destruct (eval_src mapped_name env) as [f|e]; [|done].
  unfold manual_signature, try_except.
  split; [|split].
  - intros ps ->. by destruct (Signature ps).
  - intros obj_name suffix obj ps -> -> (-> & Hno & Hsuffix) Hobj Hentry.
    rewrite generic_name_of_up_to_dot, Hobj by done. cbn [bind].
    fold (class_of obj). rewrite Hentry. by destruct (Signature ps).
  - intros -> Hfail. destruct (contains_char dot mapped_name) eqn:Hdot; [|done].
    destruct Hfail as [?|Hfail]; [done|].
    destruct (name_up_to_dot name) as (obj_name & suffix & Hn & Hno & Hsuffix).
    specialize (Hfail obj_name suffix (conj Hn (conj Hno Hsuffix))).
    rewrite Hn, generic_name_of_up_to_dot by done.
    destruct (eval_src obj_name env) as [obj|e]; [|done].
    cbn [bind]. fold (class_of obj). by rewrite Hfail.
Qed.

(** X24.  When the mapped name is not found in the environment, nothing
    is resolved: the function raises [ValueError] before the manual table
    is looked at, so not even a manual entry for the name is used. *)
Lemma get_signature_not_found name mapped_name manual_sigs env e :
  eval_src mapped_name env = Raise e ->
  get_signature name mapped_name SigNone manual_sigs env
  = Raise (ValueError (mapped_name +:+ "() was not found.")).
Proof. intros Hf. unfold get_signature. by rewrite Hf. Qed.

End GetSignature.

Section GetSignatureExamples.
Import Tasks MiniPy Examples.

(** The amended claim at [df.head(...)]: the callable is found, there is
    no entry for [df.head], and the entry of [DataFrame.head] is used. *)
Lemma get_signature_resolution_order_witness :
  manual_f_head !! "df.head" = None /\
  eval_src (Interpreter:=interpreter) "df" env_f_df = Ret a_DataFrame /\
  manual_f_head !! ("DataFrame" +:+ ".head") = Some ["n"] /\
  get_signature (H:=interpreter) "df.head" "df.head" SigNone manual_f_head env_f_df
  = Ret ["n"].
Proof.
  split; [reflexivity|]. split; [reflexivity|]. split; [reflexivity|].
  destruct (get_signature_resolution_order (H:=interpreter) "df.head" "df.head"
              manual_f_head env_f_df) as (_ & Hgeneralized & _).
  apply (Hgeneralized "df" ".head" a_DataFrame ["n"]).
  - reflexivity.
  - reflexivity.
  - split; [reflexivity|]. split; [reflexivity|]. right. by exists "head".
  - reflexivity.
  - reflexivity.
Defined.

(** C6 as stated fails: the manual table has an entry for [f], but no
    callable [f] is found in the environment, and [get_signature] raises
    instead of using the entry. *)
Lemma manual_entry_not_used_without_callable :
  manual_f_head !! "f" = Some ["a"; "b"] /\
  get_signature (H:=interpreter) "f" "f" SigNone manual_f_head ∅
  = Raise (ValueError "f() was not found.").
Proof. split; reflexivity. Qed.

Example get_signature_manual_entry_first :
  get_signature (H:=interpreter) "f" "f" SigNone manual_f_head env_f_df = Ret ["a"; "b"] /\
  inspect_signature (Interpreter:=interpreter) function_f_x = Ret ["x"].
Proof. split; reflexivity. Qed.

(** [df.head(...)]: no entry for [df.head], the entry of [DataFrame.head]
    is used. *)
Example get_signature_generalized_method :
  manual_f_head !! "df.head" = None /\
  get_signature (H:=interpreter) "df.head" "df.head" SigNone manual_f_head env_f_df = Ret ["n"].
Proof. split; reflexivity. Qed.

(** Without manual entries, introspection decides. *)
Example get_signature_introspection_last :
  get_signature (H:=interpreter) "f" "f" SigNone ∅ env_f_df = Ret ["x"].
Proof. reflexivity. Qed.

(** [zz] is bound to nothing, though the manual table has an entry for
    [f]. *)
Lemma get_signature_not_found_witness :
  get_signature "f" "zz" SigNone manual_f_head env_f_df
  = Raise (ValueError "zz() was not found.").
Proof.
  exact (get_signature_not_found "f" "zz" manual_f_head env_f_df
           (Exn IsException "NameError" "name 'zz' is not defined") eq_refl).
Defined.

End GetSignatureExamples.

(** ** The result wrappers: byte streams only after a string result *)
Section ResultWrappers.
Import Tasks.
Context `{Interpreter} `{Utils} {P : Type} `{!Process P}.

Local Existing Instance Recorded.

Lemma recorded_executeTask_log (t : task) (p p' : P) (log log' : list string) a :
  executeTask (P := P * list string) t (p, log) = Returns a (p', log') ->
  log' = log ++ [task_class t].
Proof.
  simpl. unfold recorded_executeTask.
  destruct (executeTask t p); intros Heq; by inversion Heq.
Qed.

Lemma getRepresentation_log (name : string) (p p' : P) (log log' : list string) a :
  getRepresentation (P := P * list string) name (p, log) = Returns a (p', log') ->
  exists rest, log' = log ++ rest.
Proof.
  unfold getRepresentation, getStream, io_bind, io_lift, io_ret.
  destruct (executeTask _ (p, log)) as [c [p1 log1]| |] eqn:E1; [|done|done].
  apply recorded_executeTask_log in E1 as ->.
  destruct get_converters as [converters|]; [|done].
  destruct (converter_for c converters) as [[converter|]|]; [| |done].
  - destruct (executeTask _ (p1, _)) as [st [p2 log2]| |] eqn:E2; [|done|done].
    apply recorded_executeTask_log in E2 as ->.
    destruct (is_backend_error_list st); intros Heq; inversion Heq; subst;
      rewrite <- app_assoc; by eexists.
  - intros E2. apply recorded_executeTask_log in E2 as ->.
    rewrite <- app_assoc. by eexists.
Qed.

Lemma representation_of_protocol (first : string) (strrep : answer)
    (p1 p' : P) (log log' : list string) bytestream strrep' :
  representation_of (P := P * list string) strrep (p1, log ++ [first])
    = Returns (bytestream, strrep') (p', log') ->
  staged_protocol first log bytestream strrep' log'.
Proof.
  unfold representation_of, io_bind, io_ret.
  destruct (answer_is_None strrep) eqn:Hnone; simpl.
  - intros Heq. inversion Heq; subst. split.
    + done.
    + exists []. split; [done|]. done.
  - destruct (getRepresentation _ _) as [b [p2 log2]| |] eqn:E; [|done|done].
    intros Heq. inversion Heq; subst.
    apply getRepresentation_log in E as [rest ->]. split.
    + congruence.
    + exists rest. split; [by rewrite <- app_assoc|]. done.
Qed.

(** C10.  Whenever one of [getResultInProcess],
    [getFunctionCallResultInProcess], [getTreeResultInProcess] returns a
    pair [(bytestream, strrep)]: the byte stream is [None] whenever the
    string result is [None], and the process is asked for anything beyond
    the staging task only after that task reported a string result that is
    not [None]. *)
Theorem result_wrappers_staged_protocol :
  forall (p p' : P) (log log' : list string) (bytestream strrep : answer),
    (forall kwargs,
       getResultInProcess (P := P * list string) kwargs (p, log)
         = Returns (bytestream, strrep) (p', log') ->
       staged_protocol "TaskGetResult" log bytestream strrep log') /\
    (forall kwargs,
       getFunctionCallResultInProcess (P := P * list string) kwargs (p, log)
         = Returns (bytestream, strrep) (p', log') ->
       staged_protocol "TaskGetFunctionCallResult" log bytestream strrep log') /\
    (forall kwargs,
       getTreeResultInProcess (P := P * list string) kwargs (p, log)
         = Returns (bytestream, strrep) (p', log') ->
       staged_protocol "TaskGetTreeResult" log bytestream strrep log').
Proof.
  intros p p' log log' bytestream strrep.
  split; [|split]; intros kwargs;
    unfold getResultInProcess, getFunctionCallResultInProcess,
      getTreeResultInProcess, io_bind;
    (destruct (executeTask _ (p, log)) as [s1 [p1 log1]| |] eqn:E1; [|done|done]);
    apply recorded_executeTask_log in E1 as ->;
    by apply representation_of_protocol.
Qed.

End ResultWrappers.

(** ** Context.update_ctx *)
Section ContextUpdate.
Import StateModel.
Context `{Externals}.

Lemma alloc_fresh (o : object) (h : store) :
  (alloc o h).1 ∉ dom h.
Proof. unfold alloc. simpl. apply is_fresh. Qed.

Lemma alloc_lookup (o : object) (h : store) :
  (alloc o h).2 !! (alloc o h).1 = Some o.
Proof. unfold alloc. simpl. apply lookup_insert_eq. Qed.

Lemma alloc_preserves (o : object) (h : store) (l : positive) :
  l ∈ dom h -> (alloc o h).2 !! l = h !! l.
Proof.
  intros Hl. unfold alloc. simpl. apply lookup_insert_ne.
  intros <-. by apply (is_fresh (dom h)).
Qed.

Lemma alloc_dom (o : object) (h : store) (l : positive) :
  l ∈ dom h -> l ∈ dom (alloc o h).2.
Proof. intros Hl. unfold alloc. simpl. rewrite dom_insert. set_solver. Qed.

Lemma alloc_dom_new (o : object) (h : store) :
  (alloc o h).1 ∈ dom (alloc o h).2.
Proof. unfold alloc. simpl. rewrite dom_insert. set_solver. Qed.

(** What [__init__] does with a truthy-or-not [context] and a [prev] that
    was just made by [update_ctx]. *)
Lemma Context_init_spec (h : store) (U l1 : positive) (u : TargetVars) (c : dict) :
  h !! U = Some (OTargetVars u) ->
  h !! l1 = Some (ODict c) ->
  exists C' h',
    Context_init (Some U) (Some l1) h = (Ret C', h') /\
    bindings h' C'
      = Some (defined_items (if TargetVars_bool u then u else TargetVars_new) ∪ c) /\
    (forall l, l ∈ dom h -> h' !! l = h !! l) /\
    (ctx_prev C' = l1 \/ ctx_prev C' ∉ dom h) /\
    (_items C' ∉ dom h) /\
    (ctx_context C' = U \/ ctx_context C' ∉ dom h) /\
    well_formed h' C'.
Proof.
  intros HU Hl1.
  assert (HUd : U ∈ dom h) by (apply elem_of_dom; eauto).
  assert (Hl1d : l1 ∈ dom h) by (apply elem_of_dom; eauto).
  unfold Context_init, truth. rewrite HU.
  (* the context *)
  set (u' := if TargetVars_bool u then u else TargetVars_new).
  set (r1 := if TargetVars_bool u then (U, h) else alloc (OTargetVars TargetVars_new) h).
  assert (H1 : r1.2 !! r1.1 = Some (OTargetVars u') /\
               (forall l, l ∈ dom h -> r1.2 !! l = h !! l) /\
               (forall l, l ∈ dom h -> l ∈ dom r1.2) /\
               (r1.1 = U \/ r1.1 ∉ dom h) /\ r1.1 ∈ dom r1.2).
  { subst r1 u'. destruct (TargetVars_bool u); cbn [fst snd].
    - repeat split; auto.
    - repeat split.
      + apply (alloc_lookup (OTargetVars TargetVars_new) h).
      + intros l Hl. by apply alloc_preserves.
      + intros l Hl. by apply alloc_dom.
      + right. apply alloc_fresh.
      + apply alloc_dom_new. }
  destruct r1 as [c1 h1]. simpl in H1. destruct H1 as (Hc1 & Hk1 & Hd1 & Hor1 & Hin1).
  rewrite (Hk1 l1 Hl1d), Hl1.
  (* prev *)
  set (r2 := if negb (bool_decide (c = ∅)) then (l1, h1) else alloc (ODict ∅) h1).
  assert (H2 : r2.2 !! r2.1 = Some (ODict c) /\
               (forall l, l ∈ dom h1 -> r2.2 !! l = h1 !! l) /\
               (forall l, l ∈ dom h1 -> l ∈ dom r2.2) /\
               (r2.1 = l1 \/ r2.1 ∉ dom h1)).
  { subst r2. destruct (bool_decide (c = ∅)) eqn:Hc; cbn [fst snd negb].
    - apply bool_decide_eq_true in Hc. subst c. repeat split.
      + apply (alloc_lookup (ODict ∅) h1).
      + intros l Hl. by apply alloc_preserves.
      + intros l Hl. by apply alloc_dom.
      + right. apply alloc_fresh.
    - repeat split; auto. rewrite (Hk1 l1 Hl1d). done. }
  destruct r2 as [p2 h2]. simpl in H2. destruct H2 as (Hp2 & Hk2 & Hd2 & Hor2).
  unfold merged_items. rewrite Hp2, (Hk2 c1 Hin1), Hc1.
  assert (Hp2d : p2 ∈ dom h2) by (apply elem_of_dom; eauto).
  assert (Hc1d : c1 ∈ dom h2) by auto.
  destruct (alloc (ODict (defined_items u' ∪ c)) h2) as [i h3] eqn:Ha.
  pose proof (alloc_fresh (ODict (defined_items u' ∪ c)) h2) as Hfr.
  pose proof (alloc_lookup (ODict (defined_items u' ∪ c)) h2) as Hlk.
  pose proof (alloc_preserves (ODict (defined_items u' ∪ c)) h2) as Hpr.
  rewrite Ha in Hfr, Hlk, Hpr. simpl in Hfr, Hlk, Hpr.
  exists (MkContext c1 p2 i), h3. simpl.
  split; [reflexivity|]. unfold bindings, well_formed. simpl. rewrite Hlk.
  split; [reflexivity|].
  split. { intros l Hl. rewrite Hpr by auto. rewrite Hk2 by auto. auto. }
  split. { destruct Hor2 as [->|Hn]; [by left|]. right. intros Hin. apply Hn. auto. }
  split. { intros Hin. apply Hfr. auto. }
  split. { exact Hor1. }
  exists u', c. rewrite (Hpr c1 Hc1d), (Hpr p2 Hp2d), (Hk2 c1 Hin1), Hc1, Hp2. done.
Qed.

(** C5.  For a context [C] and an update [U], [C.update_ctx(U)] returns a
    context whose bindings are the union of the bindings of [C] and those
    of [U], the value of [U] winning on every key they share.  The
    operation is pure: every object that existed before (so [C], its
    ancestors and their dicts) is left as it was, and the [prev] and
    [_items] of the new context are new objects, not shared with [C]. *)
Theorem update_ctx_union_pure :
  forall (h : store) (C : Context) (U : positive) (c dU : dict),
    well_formed h C ->
    bindings h C = Some c ->
    update_bindings h U = Some dU ->
    exists C' h' b',
      update_ctx C (Some U) h = (Ret C', h') /\
      bindings h' C' = Some b' /\
      (forall k, b' !! k = match dU !! k with
                            | Some v => Some v
                            | None => c !! k
                            end) /\
      (forall l, l ∈ dom h -> h' !! l = h !! l) /\
      (ctx_prev C' ∉ dom h) /\
      (_items C' ∉ dom h) /\
      (ctx_context C' = U \/ ctx_context C' ∉ dom h).
Proof.
  intros h C U c dU (t & p & Hc & Hp & Hi) Hb HdU.
  unfold bindings in Hb. rewrite Hi in Hb. injection Hb as <-.
  unfold update_bindings in HdU.
  destruct (h !! U) as [[|u]|] eqn:HU; try done. injection HdU as <-.
  unfold update_ctx, merged_items. rewrite Hp, Hc.
  destruct (alloc (ODict (defined_items t ∪ p)) h) as [l1 h1] eqn:Ha.
  pose proof (alloc_fresh (ODict (defined_items t ∪ p)) h) as Hfr.
  pose proof (alloc_lookup (ODict (defined_items t ∪ p)) h) as Hlk.
  pose proof (alloc_preserves (ODict (defined_items t ∪ p)) h) as Hpr.
  pose proof (alloc_dom (ODict (defined_items t ∪ p)) h) as Hdm.
  rewrite Ha in Hfr, Hlk, Hpr, Hdm. simpl in Hfr, Hlk, Hpr, Hdm.
  assert (HUd : U ∈ dom h) by (apply elem_of_dom; eauto).
  destruct (Context_init_spec h1 U l1 u (defined_items t ∪ p))
    as (C' & h' & Hrun & Hbind & Hkeep & Hprev & Hitems & Hctx & _).
  { rewrite Hpr by done. done. }
  { done. }
  exists C', h', (defined_items (if TargetVars_bool u then u else TargetVars_new)
                  ∪ (defined_items t ∪ p)).
  split; [exact Hrun|]. split; [exact Hbind|].
  split. { intros k. rewrite lookup_union. by destruct (_ !! k), (_ !! k). }
  split. { intros l Hl. rewrite Hkeep by auto. auto. }
  split. { destruct Hprev as [->|Hn]; [done|]. intros Hin. apply Hn. auto. }
  split. { intros Hin. apply Hitems. auto. }
  destruct Hctx as [->|Hn]; [by left|]. right. intros Hin. apply Hn. auto.
Qed.

(** Contexts made by [update_ctx] are again as [__init__] leaves them. *)
Lemma update_ctx_well_formed (h : store) (C : Context) (U : positive) (u : TargetVars)
    C' h' :
  well_formed h C ->
  h !! U = Some (OTargetVars u) ->
  update_ctx C (Some U) h = (Ret C', h') ->
  well_formed h' C'.
Proof.
  intros (t & p & Hc & Hp & Hi) HU.
  unfold update_ctx, merged_items. rewrite Hp, Hc.
  destruct (alloc (ODict (defined_items t ∪ p)) h) as [l1 h1] eqn:Ha.
  pose proof (alloc_lookup (ODict (defined_items t ∪ p)) h) as Hlk.
  pose proof (alloc_preserves (ODict (defined_items t ∪ p)) h) as Hpr.
  rewrite Ha in Hlk, Hpr. simpl in Hlk, Hpr.
  assert (HUd : U ∈ dom h) by (apply elem_of_dom; eauto).
  destruct (Context_init_spec h1 U l1 u (defined_items t ∪ p))
    as (C2 & h2 & Hrun & _ & _ & _ & _ & _ & Hwf).
  { rewrite Hpr by done. done. }
  { done. }
  rewrite Hrun. intros Heq. by inversion Heq; subst.
Qed.

End ContextUpdate.

Section ContextUpdateExamples.
Import StateModel MiniPy Examples.

Example update_ctx_runs :
  (update_ctx context_C (Some 4%positive) store_C_U).1 = Ret (MkContext 4 5 6) /\
  bindings (update_ctx context_C (Some 4%positive) store_C_U).2 (MkContext 4 5 6)
    = Some {[ "x" := VInt 2; "y" := VInt 3; "z" := VInt 0 ]} /\
  bindings (update_ctx context_C (Some 4%positive) store_C_U).2 context_C
    = Some bindings_C.
Proof. repeat split; vm_compute; reflexivity. Qed.

Lemma context_C_well_formed : well_formed store_C_U context_C.
Proof.
  exists [("x", Some (VInt 1))], {[ "z" := VInt 0 ]}.
  repeat split; vm_compute; reflexivity.
Defined.

(** The claim of C5 at the context [{x: 1, z: 0}] and the update
    [x = 2, y = 3]. *)
Lemma update_ctx_union_pure_witness :
  exists C' h' b',
    update_ctx context_C (Some 4%positive) store_C_U = (Ret C', h') /\
    bindings h' C' = Some b' /\
    (forall k, b' !! k = match bindings_U !! k with
                          | Some v => Some v
                          | None => bindings_C !! k
                          end) /\
    (forall l, l ∈ dom store_C_U -> h' !! l = store_C_U !! l) /\
    (ctx_prev C' ∉ dom store_C_U) /\
    (_items C' ∉ dom store_C_U) /\
    (ctx_context C' = 4%positive \/ ctx_context C' ∉ dom store_C_U).
Proof.
  refine (update_ctx_union_pure store_C_U context_C 4%positive
            bindings_C bindings_U context_C_well_formed _ _).
  - vm_compute; reflexivity.
  - vm_compute; reflexivity.
Defined.

End ContextUpdateExamples.

(** ** State.build_message *)
Section BuildMessage.
Import StateModel.
Context `{Externals}.

(** The three zipped lists are the sliding window over the trail. *)
Lemma zip3_window (l : list message) :
  forall p : option message,
    zip3 (p :: (Some <$> removelast l)) l ((Some <$> tail l) ++ [None])
    = imap (fun i d => (match i with O => p | S j => l !! j end, d, l !! S i)) l.
Proof.
  induction l as [|x l IH]; intros p; [reflexivity|].
  destruct l as [|y l'].
  - reflexivity.
  - transitivity ((p, x, Some y)
                  :: zip3 (Some x :: (Some <$> removelast (y :: l'))) (y :: l')
                       ((Some <$> tail (y :: l')) ++ [None])); [reflexivity|].
    rewrite IH. reflexivity.
Qed.

Lemma windows_trail_windows (msgs : list message) :
  windows msgs = trail_windows msgs.
Proof. unfold windows, trail_windows. by rewrite zip3_window. Qed.

(** The loop renders the entries that have a message, and only those. *)
Lemma out_list_of_render_each ws :
  out_list_of ws = render_each (List.filter has_message ws).
Proof.
  induction ws as [|[[prev_d d] next_d] rest IH]; [reflexivity|].
  cbn [out_list_of List.filter]. unfold has_message at 1. cbn [fst snd].
  destruct (String.eqb (msg d) ""); cbn [negb]; [exact IH|].
  cbn [render_each]. by rewrite IH.
Qed.

(** The last three of a list are a suffix of it. *)
Lemma last_three_suffix {A} (l : list A) :
  exists front, l = front ++ last_three l /\ length (last_three l) = min 3 (length l).
Proof.
  exists (take (length l - 3) l). unfold last_three. split.
  - by rewrite take_drop.
  - rewrite length_drop. lia.
Qed.

(** What a template is rendered against: the parameters of the entry
    itself by their names, and, where the entry has no parameter of that
    name, the parameters of the entry before it as [parent], of the entry
    after it as [child], and its own as [this]. *)
Lemma tmp_kwargs_lookup (prev_d : option message) (d : message)
    (next_d : option message) (k : string) :
  tmp_kwargs prev_d d next_d !! k
  = match kwargs d !! k with
    | Some v => Some (TValue v)
    | None =>
        if decide (k = "parent")
        then Some (match prev_d with Some p => TKwargs (kwargs p) | None => TNone end)
        else if decide (k = "child")
        then Some (match next_d with Some n => TKwargs (kwargs n) | None => TNone end)
        else if decide (k = "this") then Some (TKwargs (kwargs d))
        else None
    end.
Proof.
  unfold tmp_kwargs. rewrite lookup_union, lookup_fmap.
  destruct (kwargs d !! k) as [v|]; cbn.
  { by destruct (_ !! k). }
  rewrite (left_id None _).
  destruct (decide (k = "parent")) as [->|Hp].
  { rewrite lookup_insert_eq. by destruct prev_d. }
  rewrite lookup_insert_ne by done.
  destruct (decide (k = "child")) as [->|Hc].
  { rewrite lookup_insert_eq. by destruct next_d. }
  rewrite lookup_insert_ne by done.
  destruct (decide (k = "this")) as [->|Ht].
  { by rewrite lookup_singleton_eq. }
  by rewrite lookup_singleton_ne.
Qed.

(** C9, as amended.  [build_message] renders the trail (with the
    trailing message as its last entry) in order, each entry that has a
    message text against the window of the entry before it, itself and the
    entry after it; with highlight information that is not disabled only
    the last three rendered entries are kept, otherwise all of them.  With
    [append] the result is the concatenation of the kept entries in trail
    order; without it, the last kept entry alone, and [IndexError] when
    there is none.  The second part says what an entry is rendered
    against, the third what the last three of a list are. *)
Theorem build_message_renders_trail :
  forall (self : State) (tail_ : string) (fmt_kwargs : option dict) (append : bool),
    build_message self tail_ fmt_kwargs append
    = bind (render_each
              (List.filter has_message
                 (trail_windows
                    (messages self ++ [Message tail_ (default ∅ fmt_kwargs)]))))
        (fun rendered =>
           let kept := if shows_highlight self then last_three rendered
                       else rendered in
           if append then Ret (String.concat "" kept)
           else match last kept with
                | Some out => Ret out
                | None => Raise (IndexError "list index out of range")
                end) /\
    (forall (prev_d : option message) (d : message) (next_d : option message)
            (k : string),
       tmp_kwargs prev_d d next_d !! k
       = match kwargs d !! k with
         | Some v => Some (TValue v)
         | None =>
             if decide (k = "parent")
             then Some (match prev_d with
                        | Some p => TKwargs (kwargs p)
                        | None => TNone
                        end)
             else if decide (k = "child")
             then Some (match next_d with
                        | Some n => TKwargs (kwargs n)
                        | None => TNone
                        end)
             else if decide (k = "this") then Some (TKwargs (kwargs d))
             else None
         end) /\
    (forall rendered : list string,
       exists dropped,
         rendered = dropped ++ last_three rendered /\
         length (last_three rendered) = min 3 (length rendered)).
Proof.
  intros self tail_ fmt_kwargs append. split; [|split].
  - unfold build_message.
    rewrite windows_trail_windows, out_list_of_render_each.
    by destruct fmt_kwargs.
  - apply tmp_kwargs_lookup.
  - apply last_three_suffix.
Qed.

End BuildMessage.

Section BuildMessageExamples.
Import StateModel MiniPy Examples.

Example build_message_all_entries :
  build_message (a_state trail_ABCD None) "E" None true = Ret "ABCDE".
Proof. vm_compute. reflexivity. Qed.

Example build_message_last_three :
  build_message (a_state trail_ABCD (Some snippet_x_5)) "E" None true = Ret "CDE".
Proof. vm_compute. reflexivity. Qed.

(** C9, counterexample.  Without [append] the rendered entries are not
    concatenated: only the last of them is returned. *)
Lemma build_message_without_append_last_only :
  build_message (a_state trail_ABCD None) "E" None true = Ret "ABCDE" /\
  build_message (a_state trail_ABCD None) "E" None false = Ret "E".
Proof. split; vm_compute; reflexivity. Qed.

Example trail_windows_of_three :
  trail_windows [text_message "A"; text_message "B"; text_message "C"]
  = [ (None, text_message "A", Some (text_message "B"));
      (Some (text_message "A"), text_message "B", Some (text_message "C"));
      (Some (text_message "B"), text_message "C", None) ].
Proof. reflexivity. Qed.

Example replace_JINJA :
  replace "__JINJA__:" "" "__JINJA__:Check {{ this }}" = "Check {{ this }}".
Proof. reflexivity. Qed.

End BuildMessageExamples.

(** ** State.to_child without descent *)
Section ToChild.
Import StateModel.
Context `{Externals}.




End ToChild.

Section ToChildExamples.
Import StateModel MiniPy Examples.



End ToChildExamples.

(** ** The worker loop *)
Section WorkerLoop.
Import StateModel Local.
Context `{Externals}.

(** A turn of the loop puts exactly the response of the task on the
    result queue, and raises nothing. *)
Lemma loop_turn_response (t : task) (sh : shell) (queue : list answer) :
  loop_turn t sh queue = (Ret (queue ++ [response t sh]), (task_call t sh).2).
Proof.
  unfold loop_turn, response.
  destruct (task_call t sh) as [[a|e] sh']; reflexivity.
Qed.

Lemma WorkerProcess_run_app (before rest : list task) :
  forall (sh : shell) (queue : list answer),
    Forall (fun t => is_kill t = false) before ->
    WorkerProcess_run (before ++ rest) sh queue
    = WorkerProcess_run rest (shell_after before sh) (queue ++ responses before sh).
Proof.
  induction before as [|t before IH]; intros sh queue Hnk.
  - simpl. by rewrite app_nil_r.
  - pose proof (Forall_inv Hnk) as Ht. pose proof (Forall_inv_tail Hnk) as Hrest.
    simpl in Ht. cbn [app WorkerProcess_run shell_after responses].
    rewrite loop_turn_response, Ht, IH by done.
    by rewrite <- app_assoc.
Qed.

(** The loop is never ended by an exception. *)
Lemma WorkerProcess_run_never_crashes (tasks : list task) :
  forall sh queue e sh' queue',
    WorkerProcess_run tasks sh queue <> Crashed e sh' queue'.
Proof.
  induction tasks as [|t tasks IH]; intros sh queue e sh' queue'; [done|].
  cbn [WorkerProcess_run]. rewrite loop_turn_response.
  destruct (is_kill t); [done|]. apply IH.
Qed.


(** C7.  Let a task raise [e] inside the loop, after tasks none of which
    is a shutdown task.  Then every earlier task got its response, the
    response of the failing task is the internal-error payload carrying
    the text of [e], pushed on the result queue in its turn, and the loop
    goes on with the tasks that follow (it only returns here when the
    failing task is itself a shutdown task); in no case does an exception
    end the loop. *)
Theorem worker_loop_contains_failures :
  forall (before after : list task) (t : task) (sh : shell)
         (queue : list answer) (e : exn),
    Forall (fun t => is_kill t = false) before ->
    (task_call t (shell_after before sh)).1 = Raise e ->
    let sh' := (task_call t (shell_after before sh)).2 in
    let queue' := queue ++ responses before sh ++ [ABackendError [exn_msg e]] in
    length (responses before sh) = length before /\
    WorkerProcess_run (before ++ t :: after) sh queue
    = (if is_kill t then Returned sh' queue' after
       else WorkerProcess_run after sh' queue') /\
    (forall e' sh'' queue'',
       WorkerProcess_run (before ++ t :: after) sh queue <> Crashed e' sh'' queue'').
Proof.
  intros before after t sh queue e Hnk Hraise sh' queue'.
  split; [|split].
  - clear. revert sh. induction before as [|b before IH]; intros sh; [done|].
    simpl. by rewrite IH.
  - rewrite WorkerProcess_run_app by done.
    cbn [WorkerProcess_run]. rewrite loop_turn_response.
    unfold response. rewrite Hraise. subst sh' queue'.
    rewrite <- app_assoc. reflexivity.
  - intros e' sh'' queue''. apply WorkerProcess_run_never_crashes.
Qed.

(** X12.  The loop returns only after a shutdown task: the tasks it
    leaves unserved are exactly those queued behind the first shutdown
    task. *)
Lemma WorkerProcess_run_returns_after_kill (tasks : list task) :
  forall sh queue sh' queue' unserved,
    WorkerProcess_run tasks sh queue = Returned sh' queue' unserved ->
    exists before t,
      tasks = before ++ t :: unserved /\ is_kill t = true /\
      Forall (fun t => is_kill t = false) before.
Proof.
  induction tasks as [|t tasks IH]; intros sh queue sh' queue' unserved; [done|].
  cbn [WorkerProcess_run]. rewrite loop_turn_response.
  destruct (is_kill t) eqn:Hk.
  - intros Heq. inversion Heq; subst. by exists [], t.
  - intros Hrun. apply IH in Hrun as (before & t' & -> & Hk' & Hnk).
    exists (t :: before), t'. repeat split; [done|]. by constructor.
Qed.

End WorkerLoop.

Section WorkerLoopExamples.
Import StateModel Local MiniPy Examples.

Example worker_loop_answers_every_task :
  WorkerProcess_run
    [TaskCaptureOutput (Some "x = 5"); task_boom;
     TaskCaptureOutput (Some "print(7)"); TaskKillProcess; task_boom]
    StubShell []
  = Returned (Shell {[ "x" := VInt 5 ]} None None [])
      [ACaptured "" None; ABackendError ["boom"];
       ACaptured ("7" +:+ String (Ascii.ascii_of_nat 10) "") None; ANone]
      [task_boom].
Proof. reflexivity. Qed.

(** A task raises after one that ran fine: its answer is the
    backend-error payload, and the loop goes on with the two tasks that
    follow. *)
Lemma worker_loop_contains_failures_witness :
  WorkerProcess_run
    ([TaskCaptureOutput (Some "x = 5")] ++
     task_boom :: [TaskCaptureOutput (Some "print(7)"); TaskKillProcess])
    StubShell []
  = WorkerProcess_run [TaskCaptureOutput (Some "print(7)"); TaskKillProcess]
      (task_call task_boom
         (shell_after [TaskCaptureOutput (Some "x = 5")] StubShell)).2
      ([] ++ responses [TaskCaptureOutput (Some "x = 5")] StubShell
          ++ [ABackendError [exn_msg (ValueError "boom")]]).
Proof.
  assert (Hnk : Forall (fun t => is_kill t = false)
                  [TaskCaptureOutput (Some "x = 5")]).
  { repeat constructor. }
  assert (Hraise : (task_call task_boom
                      (shell_after [TaskCaptureOutput (Some "x = 5")] StubShell)).1
                   = Raise (ValueError "boom")).
  { reflexivity. }
  exact (proj1 (proj2 (worker_loop_contains_failures
                         [TaskCaptureOutput (Some "x = 5")]
                         [TaskCaptureOutput (Some "print(7)"); TaskKillProcess]
                         task_boom StubShell [] (ValueError "boom") Hnk Hraise))).
Defined.


(** A shutdown task with a task queued behind it. *)
Lemma WorkerProcess_run_returns_after_kill_witness :
  exists before t,
    [task_boom; TaskKillProcess; task_boom] = before ++ t :: [task_boom] /\
    is_kill t = true /\
    Forall (fun t => is_kill t = false) before.
Proof.
  assert (Hrun : WorkerProcess_run [task_boom; TaskKillProcess; task_boom] StubShell []
                 = Returned StubShell [ABackendError ["boom"]; ANone] [task_boom]).
  { reflexivity. }
  exact (WorkerProcess_run_returns_after_kill
           [task_boom; TaskKillProcess; task_boom] StubShell []
           StubShell [ABackendError ["boom"]; ANone] [task_boom] Hrun).
Defined.

End WorkerLoopExamples.

(** ** The result wrappers on a stub process *)
Section ResultWrappersExamples.
Import StateModel Tasks Local MiniPy Examples.
Local Existing Instance Recorded.

(** The tree [2] on a stub process: the staging task reports ["2"], and
    only then are the class and the byte stream asked for. *)
Lemma result_wrappers_staged_protocol_witness :
  getTreeResultInProcess (P := StubProcess * list string) tree_2 (a_StubProcess, [])
  = Returns (ABytes "2", AValue (VStr "2"))
      (MkStubProcess (Shell {[ "_evaluation_object_" := VInt 2 ]} None None []) 7,
       ["TaskGetTreeResult"; "TaskGetClass"; "TaskGetStream"]) /\
  staged_protocol "TaskGetTreeResult" [] (ABytes "2") (AValue (VStr "2"))
    ["TaskGetTreeResult"; "TaskGetClass"; "TaskGetStream"].
Proof.
  assert (Hrun :
    getTreeResultInProcess (P := StubProcess * list string) tree_2 (a_StubProcess, [])
    = Returns (ABytes "2", AValue (VStr "2"))
        (MkStubProcess (Shell {[ "_evaluation_object_" := VInt 2 ]} None None []) 7,
         ["TaskGetTreeResult"; "TaskGetClass"; "TaskGetStream"])).
  { reflexivity. }
  split; [exact Hrun|].
  exact (proj2 (proj2 (result_wrappers_staged_protocol
                         a_StubProcess
                         (MkStubProcess
                            (Shell {[ "_evaluation_object_" := VInt 2 ]} None None []) 7)
                         [] ["TaskGetTreeResult"; "TaskGetClass"; "TaskGetStream"]
                         (ABytes "2") (AValue (VStr "2")))) tree_2 Hrun).
Defined.

(** An unbound name: the staging task reports [None], and nothing more is
    asked of the process. *)
Example getTreeResultInProcess_None :
  getTreeResultInProcess (P := StubProcess * list string) tree_zz (a_StubProcess, [])
  = Returns (ANone, ANone) (a_StubProcess, ["TaskGetTreeResult"]).
Proof. reflexivity. Qed.

End ResultWrappersExamples.

(** ** WorkerProcess.kill *)
Section Kill.
Import StateModel Local.
Context `{Externals} `{!Backend}.

Lemma set_procs_insert_id (w : world) (self : nat) (o : process) :
  procs w !! self = Some o -> set_procs (insert self o) w = w.
Proof.
  intros Hl. destruct w as [ps ins c ds rs ol]. unfold set_procs. cbn in *.
  by rewrite insert_id.
Qed.

Lemma set_procs_twice (w : world) (self : nat) (o1 o2 : process) :
  set_procs (insert self o2) (set_procs (insert self o1) w)
  = set_procs (insert self o2) w.
Proof. unfold set_procs. cbn. by rewrite insert_insert_eq. Qed.

Lemma list_remove_not_in (x : nat) (l : list nat) :
  NoDup l -> x ∉ list_remove x l.
Proof.
  induction 1 as [|y l Hy Hnd IH]; cbn.
  - apply not_elem_of_nil.
  - destruct (decide (x = y)) as [->|Hne]; [done|].
    rewrite elem_of_cons. intros [?|?]; [done|]. by apply IH.
Qed.

Lemma list_remove_other (x y : nat) (l : list nat) :
  y <> x -> y ∈ list_remove x l <-> y ∈ l.
Proof.
  intros Hne. induction l as [|z l IH]; cbn; [done|].
  destruct (decide (x = z)) as [->|Hxz].
  - rewrite elem_of_cons. split; [by right|]. by intros [->|?].
  - rewrite !elem_of_cons, IH. done.
Qed.

(** The worker never answers [executeTask] with an exception. *)
Lemma WorkerProcess_executeTask_no_raise (t : task) (p : WorkerProcess) e p' :
  WorkerProcess_executeTask t p <> Raises e p'.
Proof.
  unfold WorkerProcess_executeTask.
  by destruct (wp_result_queue (serve _)).
Qed.

(** [kill] on an object that is not alive only takes it off the registry. *)
Lemma kill_not_alive (w : world) (self : nat) (p : WorkerProcess) :
  procs w !! self = Some (PWorker p) ->
  wp_alive p = false ->
  kill self w = Returns tt (if decide (self ∈ instances w)
                            then set_instances (list_remove self) w else w).
Proof.
  intros Hl Ha. unfold kill, io_bind, is_alive, on_worker.
  rewrite Hl, Ha. rewrite (set_procs_insert_id _ _ _ Hl).
  cbn [io_ret]. by destruct (decide (self ∈ instances w)).
Qed.

Lemma set_procs_lookup (w : world) (self : nat) (o : process) :
  procs (set_procs (insert self o) w) !! self = Some o.
Proof. unfold set_procs. cbn. apply lookup_insert_eq. Qed.




End Kill.

Section KillExamples.
Import StateModel Local MiniPy Examples.


Example kill_returns :
  match kill 1 (a_world false) with
  | Returns _ w' => instances w' = [2%nat]
  | _ => False
  end.
Proof. reflexivity. Qed.


End KillExamples.

(** ** run_single_process, run_exercise, run *)
Section RunExercise.
Import StateModel Local.
Context `{Externals} `{!Backend}.

Lemma on_worker_lookup {A} (self : nat) (m : io WorkerProcess A) (w : world)
    (p : WorkerProcess) :
  procs w !! self = Some (PWorker p) ->
  on_worker self m w
  = match m p with
    | Returns a p => Returns a (set_procs (insert self (PWorker p)) w)
    | Raises e p => Raises e (set_procs (insert self (PWorker p)) w)
    | Blocks => Blocks
    end.
Proof. intros Hl. unfold on_worker. by rewrite Hl. Qed.

(** A waiting worker answers a task that is not the shutdown task with
    its response, and waits again. *)
Lemma WorkerProcess_executeTask_waiting (t : task) cls identity dir sh :
  is_kill t = false ->
  WorkerProcess_executeTask t
    (MkWorkerProcess cls identity true true dir sh [] [])
  = Returns (response t sh)
      (MkWorkerProcess cls identity true true dir (task_call t sh).2 [] []).
Proof.
  intros Hk. unfold WorkerProcess_executeTask, serve.
  cbn [wp_alive wp_in_run wp_task_queue wp_shell wp_result_queue wp_class
       wp_identity wp_cwd andb app WorkerProcess_run].
  rewrite loop_turn_response, Hk. reflexivity.
Qed.

Lemma response_TaskCaptureOutput (code : option string) (sh : shell) :
  response (TaskCaptureOutput code) sh
  = ACaptured (run_code code sh).1.1 (run_code code sh).1.2 /\
  (task_call (TaskCaptureOutput code) sh).2 = (run_code code sh).2.
Proof.
  unfold response, TaskCaptureOutput. cbn [task_call].
  by destruct (run_code code sh) as [[raw error] sh'].
Qed.

(** The simple mode: a new registered [SimpleProcess], started where the
    caller stands, that ran the pre-exercise code and then the code. *)
Lemma run_single_process_simple (pec code : option string) (pid : option nat)
    (w : world) :
  let self := fresh (dom (procs w)) in
  let run := run_code code (run_code pec StubShell).2 in
  run_single_process pec code pid "simple" w
  = Returns (self, run.1.1, run.1.2)
      (World (<[self := PWorker (MkWorkerProcess ClsSimpleProcess
                                   (identity_for pid (randoms w)).1 true true
                                   (Some (cwd w)) run.2 [] [])]> (procs w))
         (instances w ++ [self]) (cwd w) (dirs w)
         (identity_for pid (randoms w)).2 (outlasts w)).
Proof.
  intros self run.
  unfold run_single_process.
  change (String.eqb "simple" "stub") with false.
  change (String.eqb "simple" "simple") with true. cbv iota.
  unfold io_bind at 1. unfold io_bind at 1.
  unfold WorkerProcess_init, io_bind, new_object, new_identity.
  fold self. cbn [procs instances cwd dirs randoms outlasts set_procs set_instances].
  destruct (identity_for pid (randoms w)) as [identity rs] eqn:Hid.
  cbn [fst snd].
  erewrite on_worker_lookup by (cbn [procs]; apply lookup_insert_eq).
  cbn [set_procs procs instances cwd dirs randoms outlasts io_ret].
  rewrite ?insert_insert_eq.
  unfold start. cbn [cwd].
  erewrite on_worker_lookup by (cbn [procs]; apply lookup_insert_eq).
  cbn [set_procs procs instances cwd dirs randoms outlasts
       wp_class wp_identity wp_task_queue wp_result_queue get_shell].
  rewrite ?insert_insert_eq.
  unfold serve at 1.
  cbn [wp_alive wp_in_run wp_task_queue wp_shell wp_result_queue wp_class
       wp_identity wp_cwd andb WorkerProcess_run].
  erewrite on_worker_lookup by (cbn [procs]; apply lookup_insert_eq).
  cbn [executeTask WorkerProcess_Process].
  rewrite WorkerProcess_executeTask_waiting by reflexivity.
  cbn [set_procs procs instances cwd dirs randoms outlasts].
  rewrite ?insert_insert_eq.
  erewrite on_worker_lookup by (cbn [procs]; apply lookup_insert_eq).
  cbn [executeTask WorkerProcess_Process].
  rewrite WorkerProcess_executeTask_waiting by reflexivity.
  cbn [set_procs procs instances cwd dirs randoms outlasts].
  rewrite ?insert_insert_eq.
  destruct (response_TaskCaptureOutput pec StubShell) as [_ ->].
  destruct (response_TaskCaptureOutput code (run_code pec StubShell).2) as [-> ->].
  fold run. cbn [unpack_pair io_lift].
  unfold set_procs, io_ret.
  cbn [procs instances cwd dirs randoms outlasts].
  rewrite !insert_insert_eq. reflexivity.
Qed.

(** [with ChDir(path)] around it: the process starts in [path], and the
    caller is back where it stood. *)
Lemma with_ChDir_run_single_process (path : string) (pec code : option string)
    (pid : option nat) (w : world) :
  path ∈ dirs w -> cwd w ∈ dirs w ->
  let self := fresh (dom (procs w)) in
  let run := run_code code (run_code pec StubShell).2 in
  with_ChDir path (run_single_process pec code pid "simple") w
  = Returns (self, run.1.1, run.1.2)
      (World (<[self := PWorker (MkWorkerProcess ClsSimpleProcess
                                   (identity_for pid (randoms w)).1 true true
                                   (Some path) run.2 [] [])]> (procs w))
         (instances w ++ [self]) (cwd w) (dirs w)
         (identity_for pid (randoms w)).2 (outlasts w)).
Proof.
  intros Hpath Hcwd self run.
  unfold with_ChDir, io_bind, os_getcwd, os_chdir.
  rewrite (decide_True _ _ Hpath).
  rewrite run_single_process_simple.
  cbn [procs instances cwd dirs randoms outlasts].
  rewrite (decide_True _ _ Hcwd). reflexivity.
Qed.


(** [State.to_child] has none of the keywords [run] passes. *)
Lemma to_child_with_TypeError (state : State) (kw : run_keywords) (h : store) :
  to_child_with state kw h
  = (Raise (TypeError
              "to_child() got an unexpected keyword argument 'student_process'"), h).
Proof. reflexivity. Qed.

(** [run] gets as far as the call of [to_child], which raises. *)
Lemma run_ends_in_TypeError (state : State) (relative_working_dir solution_dir : string)
    (h : store) (w : world) :
  run state relative_working_dir solution_dir h w
  = match run_processes state relative_working_dir solution_dir w with
    | Returns _ w' =>
        Raises (TypeError
                  "to_child() got an unexpected keyword argument 'student_process'") w'
    | Raises e w' => Raises e w'
    | Blocks => Blocks
    end.
Proof.
  unfold run, io_bind.
  destruct (run_processes state relative_working_dir solution_dir w) as [r w'|e w'|];
    [|done|done].
  by rewrite to_child_with_TypeError.
Qed.

End RunExercise.

Section RunExerciseExamples.
Import StateModel Local MiniPy Examples.



End RunExerciseExamples.

(** ** The life of a worker, and the registry *)
Section WorkerLife.
Import StateModel Local.
Context `{Externals} `{!Backend}.

(** What the shutdown task leaves of a waiting worker. *)
Lemma executeTask_TaskKillProcess_waiting (p : WorkerProcess) :
  waiting p ->
  WorkerProcess_executeTask TaskKillProcess p
  = Returns ANone
      (MkWorkerProcess (wp_class p) (wp_identity p) true false (wp_cwd p)
         (wp_shell p) [] []).
Proof.
  destruct p as [cls identity alive in_run dir sh tq rq].
  intros (Ha & Hr & Ht & Hq). cbn in Ha, Hr, Ht, Hq. subst.
  unfold WorkerProcess_executeTask, serve.
  cbn [wp_alive wp_in_run wp_task_queue wp_shell wp_result_queue wp_class
       wp_identity wp_cwd andb app WorkerProcess_run].
  rewrite loop_turn_response. reflexivity.
Qed.

(** X1.  Once a waiting worker has answered the shutdown task, its loop is
    over: the shutdown task is answered with [None], and any task sent
    afterwards is queued but never answered, so [executeTask] does not
    come back. *)
Theorem executeTask_after_shutdown_blocks :
  forall (p : WorkerProcess) (t : task),
    waiting p ->
    exists p',
      WorkerProcess_executeTask TaskKillProcess p = Returns ANone p' /\
      wp_in_run p' = false /\
      WorkerProcess_executeTask t p' = Blocks.
Proof.
  intros p t Hw. eexists. split; [by apply executeTask_TaskKillProcess_waiting|].
  split; reflexivity.
Qed.

End WorkerLife.

Section WorkerLifeExamples.
Import StateModel Local MiniPy Examples.

Lemma executeTask_after_shutdown_blocks_witness :
  waiting a_worker /\
  exists p',
    WorkerProcess_executeTask TaskKillProcess a_worker = Returns ANone p' /\
    wp_in_run p' = false /\
    WorkerProcess_executeTask (TaskCaptureOutput (Some "print(7)")) p' = Blocks.
Proof.
  assert (Hw : waiting a_worker) by (repeat split).
  exact (conj Hw (executeTask_after_shutdown_blocks a_worker
                    (TaskCaptureOutput (Some "print(7)")) Hw)).
Defined.

End WorkerLifeExamples.

Section Registry.
Import StateModel Local.
Context `{Externals} `{!Backend}.

Lemma list_remove_elem_of (x y : nat) (l : list nat) :
  NoDup l -> y ∈ list_remove x l <-> y ∈ l /\ y <> x.
Proof.
  intros Hnd. destruct (decide (y = x)) as [->|Hne].
  - split; [|by intros [_ ?]]. intros Hin. by apply list_remove_not_in in Hin.
  - rewrite list_remove_other by done. split; [done|by intros [? _]].
Qed.

Lemma list_remove_NoDup (x : nat) (l : list nat) :
  NoDup l -> NoDup (list_remove x l).
Proof.
  induction 1 as [|y l Hy Hnd IH]; cbn; [constructor|].
  destruct (decide (x = y)); [done|].
  constructor; [|done]. intros Hin. apply Hy.
  by apply list_remove_elem_of in Hin as [? _].
Qed.

Lemma list_remove_absent (x : nat) (l : list nat) :
  x ∉ l -> list_remove x l = l.
Proof.
  induction l as [|y l IH]; cbn; [done|]. intros Hnot.
  destruct (decide (x = y)) as [->|Hne].
  - exfalso. apply Hnot. apply list_elem_of_here.
  - f_equal. apply IH. intros Hin. apply Hnot. by apply list_elem_of_further.
Qed.

(** What [kill] does to a worker that is not alive, or that waits and is
    gone after [terminate]. *)
Lemma kill_responsive (w : world) (self : nat) (p : WorkerProcess) :
  procs w !! self = Some (PWorker p) ->
  wp_alive p = false \/ waiting p ->
  outlasts w self = false ->
  exists p',
    wp_alive p' = false /\
    kill self w
    = Returns tt (World (<[self := PWorker p']> (procs w))
                    (list_remove self (instances w)) (cwd w) (dirs w)
                    (randoms w) (outlasts w)).
Proof.
  intros Hl [Ha|Hw] Hout.
  - exists p. split; [done|]. rewrite (kill_not_alive w self p Hl Ha).
    rewrite insert_id by done. destruct w as [ps ins c ds rs ol]. cbn.
    destruct (decide (self ∈ ins)); [done|].
    by rewrite list_remove_absent.
  - pose proof Hw as (Ha & _).
    exists (MkWorkerProcess (wp_class p) (wp_identity p) false false (wp_cwd p)
              (wp_shell p) [] []).
    split; [done|].
    unfold kill, io_bind, is_alive. unfold on_worker at 1.
    rewrite Hl, Ha, (set_procs_insert_id _ _ _ Hl).
    unfold on_worker at 1. rewrite Hl. cbn [executeTask WorkerProcess_Process].
    rewrite (executeTask_TaskKillProcess_waiting p Hw).
    unfold on_worker at 1. rewrite set_procs_lookup, set_procs_twice.
    unfold on_worker at 1. rewrite set_procs_lookup, set_procs_twice.
    cbn [outlasts set_procs]. rewrite Hout.
    unfold terminate_join, set_instances, set_procs.
    cbn [wp_alive wp_class wp_identity wp_cwd wp_shell wp_task_queue
         wp_result_queue andb io_ret instances set_instances procs cwd dirs
         randoms outlasts].
    destruct (decide (self ∈ instances w)) as [Hin|Hnot]; [reflexivity|].
    by rewrite list_remove_absent.
Qed.

Lemma kill_each_responsive (l : list nat) :
  forall w : world,
    NoDup l -> NoDup (instances w) ->
    (forall i, i ∈ l ->
       exists p, procs w !! i = Some (PWorker p) /\ (wp_alive p = false \/ waiting p)) ->
    (forall i, i ∈ l -> outlasts w i = false) ->
    exists w',
      kill_each l w = Returns tt w' /\
      (forall j, j ∈ instances w' -> j ∈ instances w /\ j ∉ l) /\
      (forall i, i ∈ l ->
         exists p, procs w' !! i = Some (PWorker p) /\ wp_alive p = false) /\
      (forall j, j ∉ l -> procs w' !! j = procs w !! j).
Proof.
  induction l as [|i l IH]; intros w Hl Hnd Hresp Hout.
  - exists w. split; [done|]. split.
    + intros j Hj. split; [done|]. apply not_elem_of_nil.
    + split; [|done]. intros i Hi. by apply elem_of_nil in Hi.
  - apply NoDup_cons in Hl as [Hi Hl].
    destruct (Hresp i) as (p & Hlk & Hp); [apply list_elem_of_here|].
    destruct (kill_responsive w i p Hlk Hp) as (p' & Hdead & Hkill).
    { apply Hout, list_elem_of_here. }
    set (w1 := World (<[i := PWorker p']> (procs w)) (list_remove i (instances w))
                 (cwd w) (dirs w) (randoms w) (outlasts w)) in *.
    destruct (IH w1) as (w' & Hrun & Hins & Hdeads & Hothers).
    + done.
    + by apply list_remove_NoDup.
    + intros j Hj. destruct (Hresp j) as (q & Hq & Hqr);
        [by apply list_elem_of_further|].
      exists q. split; [|done]. cbn [w1 procs].
      rewrite lookup_insert_ne; [done|]. intros ->. done.
    + intros j Hj. apply Hout. by apply list_elem_of_further.
    + exists w'. split.
      { cbn [kill_each]. unfold io_bind. by rewrite Hkill. }
      split; [|split].
      * intros j Hj. apply Hins in Hj as [Hj Hjl].
        cbn [w1 instances] in Hj. apply list_remove_elem_of in Hj as [Hj Hne]; [|done].
        split; [done|]. rewrite elem_of_cons. by intros [?|?].
      * intros j Hj. apply elem_of_cons in Hj as [->|Hj]; [|by apply Hdeads].
        exists p'. split; [|done]. rewrite Hothers by done.
        cbn [w1 procs]. apply lookup_insert_eq.
      * intros j Hj. rewrite not_elem_of_cons in Hj. destruct Hj as [Hne Hj].
        rewrite Hothers by done. cbn [w1 procs]. by rewrite lookup_insert_ne.
Qed.

(** X2.  With every registered instance either not alive, or waiting and
    gone after [terminate], [kill_all] returns, the registry is empty
    afterwards, and none of the instances is alive. *)
Theorem kill_all_empties_registry :
  forall w : world,
    registry_ok w ->
    (forall i p, i ∈ instances w -> procs w !! i = Some (PWorker p) ->
       wp_alive p = false \/ waiting p) ->
    (forall i, i ∈ instances w -> outlasts w i = false) ->
    exists w',
      kill_all w = Returns tt w' /\
      instances w' = [] /\
      (forall i, i ∈ instances w ->
         exists p, procs w' !! i = Some (PWorker p) /\ wp_alive p = false).
Proof.
  intros w [Hnd Hobj] Hresp Hout.
  destruct (kill_each_responsive (instances w) w Hnd Hnd) as (w' & Hrun & Hins & Hdead & _).
  - intros i Hi. destruct (Hobj i Hi) as [p Hp]. exists p. split; [done|]. eauto.
  - done.
  - exists w'. split; [done|]. split; [|done].
    destruct (instances w') as [|j rest] eqn:E; [done|].
    destruct (Hins j) as [Hj Hnot]; [apply list_elem_of_here|]. done.
Qed.

(** X3.  [kill_all] stops at the first [kill] that raises: when the first
    registered instance waits but is still alive after [terminate] and
    the wait, [kill_all] raises, every instance is still registered, and
    no other process object was touched. *)
Theorem kill_all_stops_at_first_failure :
  forall (w : world) (first : nat) (rest : list nat) (p : WorkerProcess),
    instances w = first :: rest ->
    procs w !! first = Some (PWorker p) ->
    waiting p ->
    outlasts w first = true ->
    exists w',
      kill_all w = Raises PlainException w' /\
      instances w' = first :: rest /\
      (forall j, j <> first -> procs w' !! j = procs w !! j).
Proof.
  intros w first rest p Hins Hl Hw Hout.
  pose proof Hw as (Ha & _).
  unfold kill_all. rewrite Hins. cbn [kill_each].
  unfold io_bind at 1.
  unfold kill, io_bind, is_alive. unfold on_worker at 1.
  rewrite Hl, Ha, (set_procs_insert_id _ _ _ Hl).
  unfold on_worker at 1. rewrite Hl. cbn [executeTask WorkerProcess_Process].
  rewrite (executeTask_TaskKillProcess_waiting p Hw).
  unfold on_worker at 1. rewrite set_procs_lookup, set_procs_twice.
  unfold on_worker at 1. rewrite set_procs_lookup, set_procs_twice.
  cbn [outlasts set_procs]. rewrite Hout.
  unfold terminate_join, set_procs. cbn [wp_alive andb io_raise].
  eexists. split; [reflexivity|]. cbn [instances procs]. split; [done|].
  intros j Hne. by rewrite lookup_insert_ne.
Qed.

End Registry.

Section RegistryExamples.
Import StateModel Local MiniPy Examples.

Lemma a_world_registry_ok (stubborn : bool) : registry_ok (a_world stubborn).
Proof.
  split.
  - apply NoDup_cons. split; [by intros ?%list_elem_of_singleton|apply NoDup_singleton].
  - intros self Hin. apply elem_of_cons in Hin as [->|Hin].
    + by exists a_worker.
    + apply list_elem_of_singleton in Hin as ->. by exists an_idle_worker.
Defined.

Lemma a_world_responsive (stubborn : bool) (i : nat) (p : WorkerProcess) :
  i ∈ instances (a_world stubborn) ->
  procs (a_world stubborn) !! i = Some (PWorker p) ->
  wp_alive p = false \/ waiting p.
Proof.
  intros Hin Hl. apply elem_of_cons in Hin as [->|Hin].
  - right.
    assert (Hk : procs (a_world stubborn) !! 1%nat = Some (PWorker a_worker))
      by reflexivity.
    rewrite Hk in Hl. injection Hl as <-. repeat split.
  - apply list_elem_of_singleton in Hin as ->. left.
    assert (Hk : procs (a_world stubborn) !! 2%nat = Some (PWorker an_idle_worker))
      by reflexivity.
    rewrite Hk in Hl. by injection Hl as <-.
Defined.

Lemma kill_all_empties_registry_witness :
  exists w',
    kill_all (a_world false) = Returns tt w' /\
    instances w' = [] /\
    (forall i, i ∈ instances (a_world false) ->
       exists p, procs w' !! i = Some (PWorker p) /\ wp_alive p = false).
Proof.
  apply (kill_all_empties_registry (a_world false)).
  - apply a_world_registry_ok.
  - apply a_world_responsive.
  - intros i _. reflexivity.
Defined.

Lemma kill_all_stops_at_first_failure_witness :
  exists w',
    kill_all (a_world true) = Raises PlainException w' /\
    instances w' = [1; 2]%nat /\
    (forall j, j <> 1%nat -> procs w' !! j = procs (a_world true) !! j).
Proof.
  apply (kill_all_stops_at_first_failure (a_world true) 1%nat [2%nat] a_worker).
  - reflexivity.
  - reflexivity.
  - repeat split.
  - reflexivity.
Defined.

End RegistryExamples.

Section RegistryInvariant.
Import StateModel Local.
Context `{Externals} `{!Backend}.

(** X4.  Creating a worker keeps the registry as it should be: the new
    object is one that did not exist, it is appended to the registry (and
    only it), it is a worker that is not alive yet, and every instance is
    still registered once. *)
Theorem WorkerProcess_init_registers :
  forall (w : world) (cls : worker_class) (pid : option nat),
    registry_ok w ->
    exists (self : nat) (w' : world) (p : WorkerProcess),
      WorkerProcess_init cls pid w = Returns self w' /\
      (self ∉ dom (procs w)) /\
      instances w' = instances w ++ [self] /\
      procs w' !! self = Some (PWorker p) /\
      wp_alive p = false /\ wp_class p = cls /\
      wp_identity p = (identity_for pid (randoms w)).1 /\
      (forall other, other <> self -> procs w' !! other = procs w !! other) /\
      registry_ok w'.
Proof.
  intros w cls pid [Hnd Hobj].
  set (self := fresh (dom (procs w))).
  assert (Hfresh : self ∉ dom (procs w)) by apply is_fresh.
  assert (Hnew : self ∉ instances w).
  { intros Hin. destruct (Hobj self Hin) as [p Hp]. apply Hfresh.
    apply elem_of_dom. by eexists. }
  exists self,
    (World (<[self := PWorker (MkWorkerProcess cls (identity_for pid (randoms w)).1
                                 false false None StubShell [] [])]> (procs w))
       (instances w ++ [self]) (cwd w) (dirs w)
       (identity_for pid (randoms w)).2 (outlasts w)),
    (MkWorkerProcess cls (identity_for pid (randoms w)).1 false false None
       StubShell [] []).
  split.
  { unfold WorkerProcess_init, io_bind, new_object, new_identity.
    fold self. cbn [procs instances cwd dirs randoms outlasts set_procs set_instances].
    destruct (identity_for pid (randoms w)) as [identity rs].
    erewrite on_worker_lookup by (cbn [procs]; apply lookup_insert_eq).
    unfold set_procs, io_ret. cbn [procs instances cwd dirs randoms outlasts fst snd].
    by rewrite insert_insert_eq. }
  split; [done|]. split; [done|]. cbn [procs instances].
  split; [apply lookup_insert_eq|]. split; [done|]. split; [done|]. split; [done|].
  split.
  { intros other Hne. by rewrite lookup_insert_ne. }
  split.
  - apply NoDup_app. split; [done|]. split; [|apply NoDup_singleton].
    intros x Hx Hx'. apply list_elem_of_singleton in Hx' as ->. done.
  - intros i Hi. cbn [procs]. apply elem_of_app in Hi as [Hi|Hi].
    + destruct (Hobj i Hi) as [q Hq]. exists q.
      rewrite lookup_insert_ne; [done|]. intros <-. done.
    + apply list_elem_of_singleton in Hi as ->. eexists. apply lookup_insert_eq.
Qed.

(** X5.  Whether [kill] returns or raises, the registry stays as it
    should be, and no other process object is touched. *)
Theorem kill_keeps_registry :
  forall (w : world) (self : nat) (p : WorkerProcess),
    registry_ok w ->
    procs w !! self = Some (PWorker p) ->
    match kill self w with
    | Returns _ w' | Raises _ w' =>
        registry_ok w' /\
        (forall other, other <> self -> procs w' !! other = procs w !! other) /\
        (forall other, other ∈ instances w' -> other ∈ instances w)
    | Blocks => True
    end.
Proof.
  intros w self p [Hnd Hobj] Hl.
  assert (Hafter : forall p' ins,
            (ins = instances w \/ ins = list_remove self (instances w)) ->
            registry_ok (World (<[self := PWorker p']> (procs w)) ins (cwd w)
                           (dirs w) (randoms w) (outlasts w)) /\
            (forall other, other <> self ->
               <[self := PWorker p']> (procs w) !! other = procs w !! other) /\
            (forall other, other ∈ ins -> other ∈ instances w)).
  { intros p' ins Hins.
    assert (Hsub : forall other, other ∈ ins -> other ∈ instances w).
    { intros other Hin. destruct Hins as [->| ->]; [done|].
      by apply list_remove_elem_of in Hin as [? _]. }
    split; [split|split; [|done]].
    - destruct Hins as [->| ->]; [done|by apply list_remove_NoDup].
    - intros i Hi. cbn [procs instances] in *.
      destruct (decide (i = self)) as [->|Hne].
      + eexists. apply lookup_insert_eq.
      + rewrite lookup_insert_ne by done. apply Hobj, Hsub, Hi.
    - intros other Hne. by rewrite lookup_insert_ne. }
  destruct (wp_alive p) eqn:Ha.
  2:{ rewrite (kill_not_alive w self p Hl Ha).
      destruct (decide (self ∈ instances w)) as [Hin|Hnot].
      - destruct (Hafter p (list_remove self (instances w))) as (Hok & Hoth & Hsub);
          [by right|].
        rewrite insert_id in Hok by done.
        split; [exact Hok|]. split; [done|]. exact Hsub.
      - split; [by split|]. split; done. }
  unfold kill, io_bind, is_alive. unfold on_worker at 1.
  rewrite Hl, Ha, (set_procs_insert_id _ _ _ Hl).
  unfold on_worker at 1. rewrite Hl. cbn [executeTask WorkerProcess_Process].
  destruct (WorkerProcess_executeTask TaskKillProcess p) as [a p1|e p1|] eqn:Hex.
  3:{ done. }
  2:{ by apply WorkerProcess_executeTask_no_raise in Hex. }
  unfold on_worker at 1. rewrite set_procs_lookup, set_procs_twice.
  unfold on_worker at 1. rewrite set_procs_lookup, set_procs_twice.
  cbn [outlasts set_procs].
  set (p2 := terminate_join (outlasts w self) p1).
  destruct (wp_alive p2) eqn:Ha2.
  - cbn [io_raise]. unfold set_procs. apply (Hafter p2). by left.
  - unfold set_procs, set_instances, io_ret.
    cbn [procs instances cwd dirs randoms outlasts].
    destruct (decide (self ∈ instances w)) as [Hin|Hnot].
    + apply (Hafter p2). by right.
    + apply (Hafter p2). by left.
Qed.

End RegistryInvariant.

Section RegistryInvariantExamples.
Import StateModel Local MiniPy Examples.

Lemma WorkerProcess_init_registers_witness :
  exists (self : nat) (w' : world) (p : WorkerProcess),
    WorkerProcess_init ClsSimpleProcess None (a_world false) = Returns self w' /\
    (self ∉ dom (procs (a_world false))) /\
    instances w' = instances (a_world false) ++ [self] /\
    procs w' !! self = Some (PWorker p) /\
    wp_alive p = false /\ wp_class p = ClsSimpleProcess /\
    wp_identity p = (identity_for None (randoms (a_world false))).1 /\
    (forall other, other <> self ->
       procs w' !! other = procs (a_world false) !! other) /\
    registry_ok w'.
Proof.
  exact (WorkerProcess_init_registers (a_world false) ClsSimpleProcess None
           (a_world_registry_ok false)).
Defined.

Lemma kill_keeps_registry_witness :
  match kill 1 (a_world true) with
  | Returns _ w' | Raises _ w' =>
      registry_ok w' /\
      (forall other, other <> 1%nat ->
         procs w' !! other = procs (a_world true) !! other) /\
      (forall other, other ∈ instances w' -> other ∈ instances (a_world true))
  | Blocks => True
  end.
Proof.
  assert (Hl : procs (a_world true) !! 1%nat = Some (PWorker a_worker))
    by reflexivity.
  exact (kill_keeps_registry (a_world true) 1%nat a_worker
           (a_world_registry_ok true) Hl).
Defined.

End RegistryInvariantExamples.

Section Orchestrator.
Import StateModel Local.
Context `{Externals} `{!Backend}.

(** X6.  [ChDir] steps back.  When the directory to step into exists,
    the body runs inside it; after a body that returned or raised, the
    working directory is changed back to the old one and the outcome of
    the body passes through, unless the old directory is gone by then:
    the change back then raises [FileNotFoundError], which replaces the
    outcome of the body, and the working directory stays where the body
    left it.  When the directory to step into does not exist, the body
    does not run and nothing changes. *)
Theorem with_ChDir_steps_back :
  forall {A} (path : string) (body : io world A) (w : world),
    let inside := World (procs w) (instances w) path (dirs w) (randoms w) (outlasts w) in
    let back w2 := World (procs w2) (instances w2) (cwd w) (dirs w2) (randoms w2)
                     (outlasts w2) in
    with_ChDir path body w
    = if decide (path ∈ dirs w)
      then match body inside with
           | Returns a w2 =>
               if decide (cwd w ∈ dirs w2) then Returns a (back w2)
               else Raises (FileNotFoundError (cwd w)) w2
           | Raises e w2 =>
               if decide (cwd w ∈ dirs w2) then Raises e (back w2)
               else Raises (FileNotFoundError (cwd w)) w2
           | Blocks => Blocks
           end
      else Raises (FileNotFoundError path) w.
Proof.
  intros A path body w inside back.
  unfold with_ChDir, io_bind, os_getcwd, os_chdir.
  destruct (decide (path ∈ dirs w)) as [Hin|Hnot]; [|done].
  fold inside.
  destruct (body inside) as [a w2|e w2|]; [| |done].
  - by destruct (decide (cwd w ∈ dirs w2)).
  - by destruct (decide (cwd w ∈ dirs w2)).
Qed.

(** X7.  A mode other than the three known ones, and the full mode when
    the backend could not be imported, is refused with [ValueError] before
    any process is made. *)
Theorem run_single_process_invalid_mode :
  forall (pec code : option string) (pid : option nat) (mode : string) (w : world),
    mode <> "stub" -> mode <> "simple" ->
    (mode <> "full" \/ BACKEND_AVAILABLE = false) ->
    run_single_process pec code pid mode w = Raises (ValueError "Invalid mode") w.
Proof.
  intros pec code pid mode w Hstub Hsimple Hfull.
  unfold run_single_process.
  apply String.eqb_neq in Hstub, Hsimple. rewrite Hstub, Hsimple.
  destruct Hfull as [Hfull|Hfull].
  - apply String.eqb_neq in Hfull. by rewrite Hfull.
  - rewrite Hfull, andb_false_r. reflexivity.
Qed.


(** X9.  [run] never gives a state: once both programs were run, the call
    to [to_child] with keywords it does not have raises [TypeError]. *)
Theorem run_never_returns :
  forall (state : State) (relative_working_dir solution_dir : string)
         (h : store) (w : world),
    match run state relative_working_dir solution_dir h w with
    | Returns _ _ => False
    | Raises e _ =>
        match run_processes state relative_working_dir solution_dir w with
        | Returns _ _ =>
            e = TypeError
                  "to_child() got an unexpected keyword argument 'student_process'"
        | _ => True
        end
    | Blocks => True
    end.
Proof.
  intros state rel sd h w. rewrite run_ends_in_TypeError.
  by destruct (run_processes state rel sd w).
Qed.

Lemma identity_of_worker (w : world) (self : nat) (p : WorkerProcess) :
  procs w !! self = Some (PWorker p) ->
  identity_of w (Some self) = Ret (wp_identity p).
Proof. intros Hl. unfold identity_of. by rewrite Hl. Qed.

(** X10.  The two processes [run_exercise] makes, as
    [has_different_processes] sees them on a state that carries them:
    they are told apart exactly when the two identities drawn differ, so
    with a [pid] given (and not 0) the two are taken for one process. *)
Theorem has_different_processes_after_run_exercise :
  forall (w : world) (pec sol_code stu_code : option string)
         (sol_wd stu_wd : string) (pid : option nat),
    cwd w ∈ dirs w -> sol_wd ∈ dirs w -> stu_wd ∈ dirs w ->
    exists sol_process stu_process raw_stu_output error w',
      run_exercise pec sol_code stu_code (Some sol_wd) (Some stu_wd) pid "simple" w
      = Returns (sol_process, stu_process, raw_stu_output, error) w' /\
      forall state : State,
        student_process state = Some stu_process ->
        solution_process state = Some sol_process ->
        has_different_processes state w'
        = negb (Nat.eqb (identity_for pid (identity_for pid (randoms w)).2).1
                        (identity_for pid (randoms w)).1) /\
        (forall n, pid = Some (S n) -> has_different_processes state w' = false).
Proof.
  intros w pec sol_code stu_code sol_wd stu_wd pid Hcwd Hsol Hstu.
  unfold run_exercise, wd_or_cwd, io_bind, io_ret.
  rewrite (with_ChDir_run_single_process sol_wd pec sol_code pid w Hsol Hcwd).
  set (sol := fresh (dom (procs w))).
  set (sol_worker := MkWorkerProcess ClsSimpleProcess _ true true (Some sol_wd) _ [] []).
  set (w1 := World _ _ _ _ _ _).
  cbv beta iota.
  rewrite (with_ChDir_run_single_process stu_wd pec stu_code pid w1 Hstu Hcwd).
  set (stu := fresh (dom (procs w1))).
  set (stu_worker := MkWorkerProcess ClsSimpleProcess _ true true (Some stu_wd) _ [] []).
  cbv beta iota.
  eexists sol, stu, _, _, _. split; [reflexivity|].
  intros state Hs Hso.
  assert (Hne : sol <> stu).
  { intros Heq. apply (is_fresh (dom (procs w1))). fold stu. rewrite <- Heq.
    subst w1. cbn [procs]. rewrite dom_insert_L. apply elem_of_union. left.
    by apply elem_of_singleton. }
  assert (Hdiff : has_different_processes state
                    (World (<[stu := PWorker stu_worker]> (procs w1))
                       (instances w1 ++ [stu]) (cwd w1) (dirs w1)
                       (identity_for pid (randoms w1)).2 (outlasts w1))
                  = negb (Nat.eqb (identity_for pid (identity_for pid (randoms w)).2).1
                                  (identity_for pid (randoms w)).1)).
  { unfold has_different_processes. rewrite Hs, Hso.
    rewrite (identity_of_worker _ stu stu_worker) by (cbn [procs]; apply lookup_insert_eq).
    rewrite (identity_of_worker _ sol sol_worker).
    2:{ cbn [procs]. rewrite lookup_insert_ne by done. subst w1. cbn [procs].
        apply lookup_insert_eq. }
    reflexivity. }
  split; [exact Hdiff|].
  intros n Hpid. etransitivity; [exact Hdiff|].
  rewrite Hpid. cbn [identity_for fst snd]. by rewrite Nat.eqb_refl.
Qed.

End Orchestrator.

Section OrchestratorExamples.
Import StateModel Local MiniPy Examples.

Lemma fresh_world_cwd : cwd fresh_world ∈ dirs fresh_world.
Proof.
  unfold fresh_world. cbn [cwd dirs]. apply elem_of_union. left.
  by apply elem_of_singleton.
Defined.

Lemma fresh_world_solution : "/home/repl/solution" ∈ dirs fresh_world.
Proof.
  unfold fresh_world. cbn [cwd dirs]. apply elem_of_union. right.
  by apply elem_of_singleton.
Defined.

(** Into the solution directory and back, around a body that asks where
    it is. *)
Lemma with_ChDir_steps_back_witness :
  with_ChDir "/home/repl/solution" os_getcwd fresh_world
  = Returns "/home/repl/solution" fresh_world.
Proof.
  rewrite (with_ChDir_steps_back "/home/repl/solution" os_getcwd fresh_world).
  rewrite (decide_True _ _ fresh_world_solution).
  unfold os_getcwd.
  by rewrite (decide_True _ _ fresh_world_cwd).
Defined.

(** Without a backend the full mode is an invalid mode. *)
Lemma run_single_process_invalid_mode_witness :
  run_single_process (Some "") (Some "pass") None "full" fresh_world
  = Raises (ValueError "Invalid mode") fresh_world.
Proof.
  apply run_single_process_invalid_mode.
  - discriminate.
  - discriminate.
  - right. reflexivity.
Defined.


Lemma has_different_processes_after_run_exercise_witness :
  exists sol_process stu_process raw_stu_output error w',
    run_exercise (Some "") (Some "x = 5") (Some "print(7)")
      (Some "/home/repl/solution") (Some "/home/repl") (Some 4%nat) "simple"
      fresh_world
    = Returns (sol_process, stu_process, raw_stu_output, error) w' /\
    forall state : State,
      student_process state = Some stu_process ->
      solution_process state = Some sol_process ->
      has_different_processes state w'
      = negb (Nat.eqb (identity_for (Some 4%nat)
                         (identity_for (Some 4%nat) (randoms fresh_world)).2).1
                      (identity_for (Some 4%nat) (randoms fresh_world)).1) /\
      (forall n, Some 4%nat = Some (S n) -> has_different_processes state w' = false).
Proof.
  exact (has_different_processes_after_run_exercise fresh_world (Some "")
           (Some "x = 5") (Some "print(7)") "/home/repl/solution" "/home/repl"
           (Some 4%nat) fresh_world_cwd fresh_world_solution fresh_world_cwd).
Defined.

End OrchestratorExamples.

(** ** to_child, all cases *)
Section ToChildCases.
Import StateModel.
Context `{Externals}.

(** What a [to_child] that returns has built. *)
Lemma to_child_returns_cases (self st : State) (args : to_child_args) (h h' : store) :
  to_child self args h = (Ret st, h') ->
  exists stc soc ste soe : Context,
    match wrapped (arg_solution_subtree args), wrapped (arg_student_subtree args) with
    | Some so, Some su =>
        exists (k scode socode : string),
          (if String.eqb (arg_node_name args) "" then k = "State"
           else k = arg_node_name args /\ arg_node_name args ∈ parser_dict) /\
          text_of (student_tree_tokens self) su = Ret scode /\
          text_of (solution_tree_tokens self) so = Ret socode /\
          st = MkState k (Some scode) (Some socode) (pre_exercise_code self)
                 (student_tree_tokens self) (solution_tree_tokens self)
                 (Some su) (Some so) (pre_exercise_tree self)
                 (student_process self) (solution_process self)
                 (raw_student_output self) (reporter_of self) (Some self)
                 (arg_student_parts args) (arg_solution_parts args)
                 (messages self ++ [appended_message args]) (force_diagnose self)
                 (Dispatcher (pre_exercise_tree self))
                 stc soc ste soe
                 (match arg_highlight args with
                  | None => Some su
                  | Some n => Some n
                  end)
                 (match arg_highlighting_disabled args with
                  | None => highlighting_disabled self
                  | Some b => Some b
                  end)
                 get_manual_converters None []
    | _, _ =>
        st = _update self stc soc ste soe (arg_highlight args)
               (match arg_highlighting_disabled args with
                | None => highlighting_disabled self
                | Some b => Some b
                end)
               (messages self ++ [appended_message args])
    end.
Proof.
  unfold to_child.
  destruct (updated (solution_context self) _ h) as [[soc|e] h1]; [|done].
  destruct (updated (student_context self) _ h1) as [[stc|e] h2]; [|done].
  destruct (updated (solution_env self) _ h2) as [[soe|e] h3]; [|done].
  destruct (updated (student_env self) _ h3) as [[ste|e] h4]; [|done].
  intros Hrun. exists stc, soc, ste, soe.
  fold (appended_message args) in Hrun.
  destruct (wrapped (arg_solution_subtree args)) as [so|];
    destruct (wrapped (arg_student_subtree args)) as [su|];
    try (by injection Hrun as <- _).
  destruct (String.eqb (arg_node_name args) "") eqn:Hname.
  - cbn [bind] in Hrun.
    destruct (text_of (student_tree_tokens self) su) as [scode|e]; [|done].
    destruct (text_of (solution_tree_tokens self) so) as [socode|e]; [|done].
    cbn [bind] in Hrun. injection Hrun as <- _.
    by exists "State", scode, socode.
  - destruct (bool_decide (arg_node_name args ∈ parser_dict)) eqn:Hin; [|done].
    apply bool_decide_eq_true_1 in Hin. cbn [bind] in Hrun.
    destruct (text_of (student_tree_tokens self) su) as [scode|e]; [|done].
    destruct (text_of (solution_tree_tokens self) so) as [socode|e]; [|done].
    cbn [bind] in Hrun. injection Hrun as <- _.
    by exists (arg_node_name args), scode, socode.
Qed.

(** X13.  Every [to_child] that returns has extended the message trail
    by exactly one entry, the message it was given (a text is wrapped in
    an entry without arguments), whether it descended or not. *)
Theorem to_child_extends_trail :
  forall (self st : State) (args : to_child_args) (h h' : store),
    to_child self args h = (Ret st, h') ->
    messages st = messages self ++ [appended_message args] /\
    length (messages st) = S (length (messages self)).
Proof.
  intros self st args h h' Hrun.
  assert (Hm : messages st = messages self ++ [appended_message args]).
  { apply to_child_returns_cases in Hrun as (stc & soc & ste & soe & Hcase).
    destruct (wrapped (arg_solution_subtree args)) as [so|];
      destruct (wrapped (arg_student_subtree args)) as [su|];
      try (by subst st).
    by destruct Hcase as (k & scode & socode & _ & _ & _ & ->). }
  split; [done|]. rewrite Hm, length_app. cbn. lia.
Qed.

(** X14.  A [to_child] with both subtrees descends: the child has the
    called state as parent, the two subtrees as trees and their source
    text as code, the class named by [node_name] (which must be a parser
    name when given), the parts that were passed, and the highlight that
    was passed or else the student subtree; token maps, processes, raw
    output, reporter, pre-exercise code and [force_diagnose] are those of
    the parent, and its table of manual signatures starts empty. *)
Theorem to_child_descends :
  forall (self st : State) (args : to_child_args) (h h' : store) (su so : ast),
    wrapped (arg_student_subtree args) = Some su ->
    wrapped (arg_solution_subtree args) = Some so ->
    to_child self args h = (Ret st, h') ->
    parent_state st = Some self /\
    student_tree st = Some su /\ solution_tree st = Some so /\
    (exists tok, student_tree_tokens self = Some tok /\
                 student_code st = Some (get_text tok su)) /\
    (exists tok, solution_tree_tokens self = Some tok /\
                 solution_code st = Some (get_text tok so)) /\
    (arg_node_name args = "" /\ klass st = "State" \/
     arg_node_name args ∈ parser_dict /\ klass st = arg_node_name args) /\
    highlight st = Some (default su (arg_highlight args)) /\
    student_parts st = arg_student_parts args /\
    solution_parts st = arg_solution_parts args /\
    student_tree_tokens st = student_tree_tokens self /\
    solution_tree_tokens st = solution_tree_tokens self /\
    student_process st = student_process self /\
    solution_process st = solution_process self /\
    raw_student_output st = raw_student_output self /\
    reporter_of st = reporter_of self /\
    pre_exercise_code st = pre_exercise_code self /\
    pre_exercise_tree st = pre_exercise_tree self /\
    force_diagnose st = force_diagnose self /\
    manual_sigs st = None.
Proof.
  intros self st args h h' su so Hsu Hso Hrun.
  apply to_child_returns_cases in Hrun as (stc & soc & ste & soe & Hcase).
  rewrite Hsu, Hso in Hcase.
  destruct Hcase as (k & scode & socode & Hk & Hs & Hsol & ->).
  cbn [parent_state student_tree solution_tree student_code solution_code klass
       highlight student_parts solution_parts student_tree_tokens
       solution_tree_tokens student_process solution_process raw_student_output
       reporter_of pre_exercise_code pre_exercise_tree force_diagnose manual_sigs].
  split; [done|]. split; [done|]. split; [done|].
  split.
  { unfold text_of in Hs. destruct (student_tree_tokens self) as [tok|]; [|done].
    exists tok. split; [done|]. by injection Hs as <-. }
  split.
  { unfold text_of in Hsol. destruct (solution_tree_tokens self) as [tok|]; [|done].
    exists tok. split; [done|]. by injection Hsol as <-. }
  split.
  { destruct (String.eqb (arg_node_name args) "") eqn:Hname.
    - left. by apply String.eqb_eq in Hname.
    - right. by destruct Hk as [-> ?]. }
  split; [by destruct (arg_highlight args)|].
  repeat (split; [done|]). done.
Qed.

(** X15.  A parser name that is not known, with both subtrees given and
    no context or environment to update: [SUBCLASSES[node_name]] raises
    [KeyError], and no state is made. *)
Theorem to_child_unknown_node_name :
  forall (self : State) (args : to_child_args) (h : store) (su so : ast),
    wrapped (arg_student_subtree args) = Some su ->
    wrapped (arg_solution_subtree args) = Some so ->
    arg_student_context args = None -> arg_solution_context args = None ->
    arg_student_env args = None -> arg_solution_env args = None ->
    arg_node_name args <> "" ->
    arg_node_name args ∉ parser_dict ->
    to_child self args h = (Raise (KeyError (arg_node_name args)), h).
Proof.
  intros self args h su so Hsu Hso H1 H2 H3 H4 Hne Hnot.
  unfold to_child. rewrite H1, H2, H3, H4, Hsu, Hso. cbn [updated].
  apply String.eqb_neq in Hne. rewrite Hne.
  by rewrite bool_decide_eq_false_2.
Qed.

(** X16.  [assert_root] along [to_child]: a state reached by a descent is
    never a root, so [assert_root] raises on it; a [to_child] that does
    not descend keeps the parent link, so its result passes [assert_root]
    exactly when the state it was called on does. *)
Theorem assert_root_after_to_child :
  forall (self st : State) (args : to_child_args) (h h' : store)
         (fun_ extra_msg : string),
    to_child self args h = (Ret st, h') ->
    assert_root st fun_ extra_msg
    = match wrapped (arg_solution_subtree args), wrapped (arg_student_subtree args) with
      | Some _, Some _ =>
          Raise (InstructorError
                   ("`" +:+ fun_
                    +:+ "()` should only be called from the root state, `Ex()`. "
                    +:+ extra_msg))
      | _, _ => assert_root self fun_ extra_msg
      end.
Proof.
  intros self st args h h' fun_ extra_msg Hrun.
  apply to_child_returns_cases in Hrun as (stc & soc & ste & soe & Hcase).
  destruct (wrapped (arg_solution_subtree args)) as [so|];
    destruct (wrapped (arg_student_subtree args)) as [su|];
    try (by subst st).
  by destruct Hcase as (k & scode & socode & _ & _ & _ & ->).
Qed.

(** X17.  [assert_is] and [assert_is_not] are complementary: for any
    list of class names exactly one of the two raises, and what it raises
    is an [InstructorError]. *)
Theorem assert_is_complementary :
  forall (self : State) (klasses : list string) (fun_ : string)
         (prev_fun : list string),
    (assert_is self klasses fun_ prev_fun = Ret tt /\
     exists m, assert_is_not self klasses fun_ prev_fun = Raise (InstructorError m)) \/
    (assert_is_not self klasses fun_ prev_fun = Ret tt /\
     exists m, assert_is self klasses fun_ prev_fun = Raise (InstructorError m)).
Proof.
  intros self klasses fun_ prev_fun. unfold assert_is, assert_is_not.
  destruct (bool_decide (klass self ∈ klasses)); [left|right]; split; eauto.
Qed.

End ToChildCases.

Section ToChildCasesExamples.
Import StateModel MiniPy Examples.

Lemma descent_runs :
  to_child (a_state [] None) (descent "for_loops") store_C_U
  = (Ret (a_child "for_loops"), store_C_U).
Proof. reflexivity. Defined.

Lemma to_child_extends_trail_witness :
  messages (a_child "for_loops")
  = messages (a_state [] None) ++ [appended_message (descent "for_loops")] /\
  length (messages (a_child "for_loops")) = S (length (messages (a_state [] None))).
Proof.
  exact (to_child_extends_trail (a_state [] None) (a_child "for_loops")
           (descent "for_loops") store_C_U store_C_U descent_runs).
Defined.

Lemma to_child_descends_witness :
  parent_state (a_child "for_loops") = Some (a_state [] None) /\
  student_tree (a_child "for_loops") = Some snippet_x_5 /\
  highlight (a_child "for_loops") = Some snippet_x_5 /\
  klass (a_child "for_loops") = "for_loops".
Proof.
  destruct (to_child_descends (a_state [] None) (a_child "for_loops")
              (descent "for_loops") store_C_U store_C_U snippet_x_5 snippet_pass
              eq_refl eq_refl descent_runs)
    as (Hp & Hst & _ & _ & _ & _ & Hh & _).
  split; [exact Hp|]. split; [exact Hst|]. split; [exact Hh|]. reflexivity.
Defined.

Lemma to_child_unknown_node_name_witness :
  to_child (a_state [] None) (descent "while_loops") store_C_U
  = (Raise (KeyError "while_loops"), store_C_U).
Proof.
  apply (to_child_unknown_node_name (a_state [] None) (descent "while_loops")
           store_C_U snippet_x_5 snippet_pass); try reflexivity.
  - discriminate.
  - intros Hin. cbn in Hin.
    repeat (apply elem_of_cons in Hin as [Hin|Hin]; [discriminate|]).
    by apply elem_of_nil in Hin.
Defined.

Lemma assert_root_after_to_child_witness :
  assert_root (a_state [] None) "has_no_error" "" = Ret tt /\
  assert_root (a_child "for_loops") "has_no_error" ""
  = Raise (InstructorError
             "`has_no_error()` should only be called from the root state, `Ex()`. ").
Proof.
  split; [reflexivity|].
  exact (assert_root_after_to_child (a_state [] None) (a_child "for_loops")
           (descent "for_loops") store_C_U store_C_U "has_no_error" "" descent_runs).
Defined.

End ToChildCasesExamples.

Section BuildMessageEdge.
Import StateModel.
Context `{Externals}.

Lemma out_list_of_nothing ws :
  Forall (fun w : option message * message * option message => msg (w.1.2) = "") ws ->
  out_list_of ws = Ret [].
Proof.
  induction 1 as [|[[prev_d d] next_d] rest Hd Hrest IH]; [reflexivity|].
  cbn [out_list_of]. cbn [fst snd] in Hd. rewrite Hd. exact IH.
Qed.

Lemma trail_windows_entries (P : message -> Prop) (msgs : list message) :
  Forall P msgs ->
  Forall (fun w : option message * message * option message => P (w.1.2))
    (trail_windows msgs).
Proof.
  intros Hall. apply Forall_lookup_2. intros i w Hw.
  unfold trail_windows in Hw. rewrite list_lookup_imap in Hw.
  destruct (msgs !! i) as [d|] eqn:Hd; [|done]. cbn in Hw. injection Hw as <-.
  cbn [window_at fst snd]. by eapply Forall_lookup_1.
Qed.

(** X18.  A trail without any message text and an empty tail: there is
    nothing to render, so [build_message] gives the empty string, and with
    [append=False] it raises [IndexError], for want of a last entry. *)
Theorem build_message_nothing_to_render :
  forall (self : State) (fmt_kwargs : option dict),
    Forall (fun m => msg m = "") (messages self) ->
    build_message self "" fmt_kwargs true = Ret "" /\
    build_message self "" fmt_kwargs false
    = Raise (IndexError "list index out of range").
Proof.
  intros self fmt_kwargs Hall.
  assert (Hout : forall k, out_list_of (windows (messages self ++ [Message "" k]))
                           = Ret []).
  { intros k. rewrite windows_trail_windows. apply out_list_of_nothing.
    apply (trail_windows_entries (fun m => msg m = "")). apply Forall_app. split; [done|].
    by constructor. }
  unfold build_message. rewrite !Hout. cbn [bind].
  by destruct (shows_highlight self).
Qed.

End BuildMessageEdge.

Section ContextLayers.
Import StateModel.
Context `{Externals}.

(** One update of a well-formed context, with what it leaves. *)
Lemma update_ctx_step (h : store) (C : Context) (U : positive) (u : TargetVars)
    (c : dict) :
  well_formed h C ->
  bindings h C = Some c ->
  h !! U = Some (OTargetVars u) ->
  exists C' h',
    update_ctx C (Some U) h = (Ret C', h') /\
    bindings h' C'
    = Some (defined_items (if TargetVars_bool u then u else TargetVars_new) ∪ c) /\
    (forall l, l ∈ dom h -> h' !! l = h !! l) /\
    well_formed h' C'.
Proof.
  intros (t & p & Hc & Hp & Hi) Hb HU.
  unfold bindings in Hb. rewrite Hi in Hb. injection Hb as <-.
  unfold update_ctx, merged_items. rewrite Hp, Hc.
  destruct (alloc (ODict (defined_items t ∪ p)) h) as [l1 h1] eqn:Ha.
  pose proof (alloc_lookup (ODict (defined_items t ∪ p)) h) as Hlk.
  pose proof (alloc_preserves (ODict (defined_items t ∪ p)) h) as Hpr.
  pose proof (alloc_dom (ODict (defined_items t ∪ p)) h) as Hdom.
  rewrite Ha in Hlk, Hpr, Hdom. cbn [fst snd] in Hlk, Hpr, Hdom.
  assert (HUd : U ∈ dom h) by (apply elem_of_dom; eauto).
  destruct (Context_init_spec h1 U l1 u (defined_items t ∪ p))
    as (C2 & h2 & Hrun & Hbind & Hkeep & _ & _ & _ & Hwf).
  { rewrite Hpr by done. done. }
  { done. }
  exists C2, h2. split; [done|]. split; [done|]. split; [|done].
  intros l Hl. rewrite Hkeep by (by apply Hdom). by apply Hpr.
Qed.

(** X19.  Two updates in a row layer up: after [C.update_ctx(U)] and then
    [update_ctx(V)] on the result, a name has the value [V] defines for
    it, else the value [U] defines, else the value it had in [C]; and
    every object that was there before the two calls is unchanged. *)
Theorem update_ctx_twice_layers :
  forall (h : store) (C : Context) (U V : positive) (c dU dV : dict),
    well_formed h C ->
    bindings h C = Some c ->
    update_bindings h U = Some dU ->
    update_bindings h V = Some dV ->
    exists C1 h1 C2 h2 b,
      update_ctx C (Some U) h = (Ret C1, h1) /\
      update_ctx C1 (Some V) h1 = (Ret C2, h2) /\
      bindings h2 C2 = Some b /\
      (forall k, b !! k = match dV !! k with
                          | Some v => Some v
                          | None => match dU !! k with
                                    | Some v => Some v
                                    | None => c !! k
                                    end
                          end) /\
      (forall l, l ∈ dom h -> h2 !! l = h !! l).
Proof.
  intros h C U V c dU dV Hwf Hb HdU HdV.
  unfold update_bindings in HdU, HdV.
  destruct (h !! U) as [[|u]|] eqn:HU; try done. injection HdU as <-.
  destruct (h !! V) as [[|v]|] eqn:HV; try done. injection HdV as <-.
  destruct (update_ctx_step h C U u c Hwf Hb HU) as (C1 & h1 & Hrun1 & Hb1 & Hk1 & Hwf1).
  assert (HV1 : h1 !! V = Some (OTargetVars v)).
  { rewrite Hk1; [done|]. apply elem_of_dom. eauto. }
  destruct (update_ctx_step h1 C1 V v _ Hwf1 Hb1 HV1)
    as (C2 & h2 & Hrun2 & Hb2 & Hk2 & _).
  exists C1, h1, C2, h2. eexists. split; [done|]. split; [done|]. split; [done|].
  split.
  - intros k.
    destruct (defined_items (if TargetVars_bool v then v else TargetVars_new) !! k)
      as [x|] eqn:Ev.
    { rewrite lookup_union_l' by (rewrite Ev; eauto). done. }
    rewrite lookup_union_r by done.
    destruct (defined_items (if TargetVars_bool u then u else TargetVars_new) !! k)
      as [x|] eqn:Eu.
    { rewrite lookup_union_l' by (rewrite Eu; eauto). done. }
    by rewrite lookup_union_r.
  - intros l Hl. rewrite Hk2.
    + by apply Hk1.
    + apply elem_of_dom. rewrite Hk1 by done. by apply elem_of_dom.
Qed.

End ContextLayers.

Section StateEdgeExamples.
Import StateModel MiniPy Examples.

Lemma build_message_nothing_to_render_witness :
  build_message (a_state [text_message ""; text_message ""] None) "" None true
  = Ret "" /\
  build_message (a_state [text_message ""; text_message ""] None) "" None false
  = Raise (IndexError "list index out of range").
Proof.
  apply (build_message_nothing_to_render
           (a_state [text_message ""; text_message ""] None) None).
  repeat constructor.
Defined.

Lemma context_C_well_formed_V : well_formed store_V context_C.
Proof.
  exists [("x", Some (VInt 1))], {[ "z" := VInt 0 ]}.
  repeat split; vm_compute; reflexivity.
Defined.

(** [{x: 1, z: 0}] updated with [x = 2, y = 3] and then with
    [y = 4, v = 5]. *)
Lemma update_ctx_twice_layers_witness :
  exists C1 h1 C2 h2 b,
    update_ctx context_C (Some 4%positive) store_V = (Ret C1, h1) /\
    update_ctx C1 (Some 9%positive) h1 = (Ret C2, h2) /\
    bindings h2 C2 = Some b /\
    (forall k, b !! k = match bindings_V !! k with
                        | Some v => Some v
                        | None => match bindings_U !! k with
                                  | Some v => Some v
                                  | None => bindings_C !! k
                                  end
                        end) /\
    (forall l, l ∈ dom store_V -> h2 !! l = store_V !! l).
Proof.
  refine (update_ctx_twice_layers store_V context_C 4%positive 9%positive
            bindings_C bindings_U bindings_V context_C_well_formed_V _ _ _).
  - vm_compute; reflexivity.
  - vm_compute; reflexivity.
  - vm_compute; reflexivity.
Defined.

End StateEdgeExamples.

(** ** The tasks, beyond the claims *)
Section TasksEdge.
Import Tasks.
Context `{Interpreter} `{Utils}.

Lemma set_env_item_same (k : string) (v : value) (sh : shell) :
  get_env (set_env_item k v sh) !! k = Some v.
Proof.
  unfold set_env_item, get_env.
  destruct (env_layer sh); cbn [env_layer user_ns]; apply lookup_insert_eq.
Qed.

(** X21.  [TaskGetTreeResult] and [TaskGetFunctionCallResult] never
    raise.  They answer [None] when the value cannot be computed (the
    tree does not evaluate; the function is not in the environment or its
    call raises).  Otherwise the value is staged under the name of the
    task in the environment of the shell, and the answer is its string
    form; when taking the string form raises, the answer is [None] and
    the value stays staged. *)
Theorem result_tasks_stage_what_they_answer :
  forall sh : shell,
    let staged (name : string) (v : value) (run : result value * shell) :=
      get_env (snd run) !! name = Some v /\
      fst run = match str v with
                | Ret s => Ret (VStr s)
                | Raise _ => Ret VNone
                end in
    (forall t : TaskGetTreeResult,
       match eval_tree (tr_tree t) (get_env sh) with
       | Ret v => staged (tr_name t) v (TaskGetTreeResult_call t sh)
       | Raise _ => fst (TaskGetTreeResult_call t sh) = Ret VNone
       end) /\
    (forall t : TaskGetFunctionCallResult,
       match get_env sh !! fcr_fun_name t with
       | Some f =>
           match call f (fcr_arguments t) with
           | Ret v => staged (fcr_name t) v (TaskGetFunctionCallResult_call t sh)
           | Raise _ => fst (TaskGetFunctionCallResult_call t sh) = Ret VNone
           end
       | None => fst (TaskGetFunctionCallResult_call t sh) = Ret VNone
       end).
Proof.
  intros sh staged. split.
  - intros t. unfold TaskGetTreeResult_call, stage_and_str.
    destruct (eval_tree (tr_tree t) (get_env sh)) as [v|e]; [|reflexivity].
    unfold staged.
    destruct (str v) as [s|e]; cbn [fst snd]; by rewrite set_env_item_same.
  - intros t. unfold TaskGetFunctionCallResult_call, stage_and_str.
    destruct (get_env sh !! fcr_fun_name t) as [f|]; [|reflexivity].
    destruct (call f (fcr_arguments t)) as [v|e]; [|reflexivity].
    unfold staged.
    destruct (str v) as [s|e]; cbn [fst snd]; by rewrite set_env_item_same.
Qed.

(** X22.  [TaskGetResult] with [expr_code]: the code is run with [exec],
    which gives [None]; so when the code runs, [None] is staged and the
    answer is the string ["None"], whatever the code computes. *)
Theorem TaskGetResult_expr_code_answers_None :
  forall (t : TaskGetResult) (sh : shell) (code : string) (env ns : dict),
    gr_expr_code t = Some code ->
    exec_pre_code (gr_pre_code t)
      (fresh_env (gr_keep_objs_in_env t) (gr_extra_env t) (gr_context t)
         (gr_context_vals t) sh) = Ret env ->
    completed (exec_src code env) = Ret ns ->
    TaskGetResult_call t sh
    = (Ret (VStr "None"), set_env_item (gr_name t) VNone sh).
Proof.
  intros t sh code env ns Hcode Hpre Hrun.
  unfold TaskGetResult_call. rewrite Hpre, Hcode. cbn [bind]. rewrite Hrun.
  reflexivity.
Qed.

(** An exit that raises something that is no [Exception] ends
    [context_objs_exit]. *)
Lemma context_objs_exit_from_BaseException (context_objs : list context_manager) :
  forall got_error log,
    Exists (fun e => is_Exception e = false) (exit_errors context_objs) ->
    exists e log', context_objs_exit_from context_objs got_error log = (Raise e, log').
Proof.
  induction context_objs as [|c rest IH]; intros got_error log Hex.
  - by apply Exists_nil in Hex.
  - cbn [context_objs_exit_from]. unfold exit_errors in Hex.
    cbn [omap list_omap] in Hex.
    destruct (cm_exit c) as [e|] eqn:Hc.
    + destruct (is_Exception e) eqn:He.
      * apply Exists_cons in Hex as [Hex|Hex]; [congruence|]. by apply IH.
      * by eexists _, _.
    + by apply IH.
Qed.

(** X23.  [TaskBreakDownNewEnv] answers [False] whenever the tear-down
    does not go through: when no context managers are recorded, when the
    scoped environment is missing, and when a manager raises on exit
    something that is no [Exception]; in that last case the two reserved
    entries stay in place. *)
Theorem TaskBreakDownNewEnv_False :
  forall sh : shell,
    (context_obj sh = None \/ env_layer sh = None ->
     fst (TaskBreakDownNewEnv_call sh) = Ret (VBool false)) /\
    (forall context_objs,
       context_obj sh = Some context_objs ->
       Exists (fun e => is_Exception e = false) (exit_errors context_objs) ->
       fst (TaskBreakDownNewEnv_call sh) = Ret (VBool false) /\
       context_obj (snd (TaskBreakDownNewEnv_call sh)) = Some context_objs /\
       env_layer (snd (TaskBreakDownNewEnv_call sh)) = env_layer sh /\
       user_ns (snd (TaskBreakDownNewEnv_call sh)) = user_ns sh).
Proof.
  intros sh. split.
  - intros Hmiss. unfold TaskBreakDownNewEnv_call.
    destruct (context_obj sh) as [objs|]; [|done].
    destruct Hmiss as [?|Henv]; [done|].
    destruct (context_objs_exit objs (exited sh)) as [[res|e] log]; [|done].
    by rewrite Henv.
  - intros objs Hobjs Hex. unfold TaskBreakDownNewEnv_call. rewrite Hobjs.
    destruct (context_objs_exit_from_BaseException objs (VBool false) (exited sh) Hex)
      as (e & log' & Hrun).
    unfold context_objs_exit. by rewrite Hrun.
Qed.

End TasksEdge.

Section RepresentationRequests.
Import Tasks.
Context `{Interpreter} `{Utils} {P : Type} `{!Process P}.

Local Existing Instance Recorded.


End RepresentationRequests.

Section TasksEdgeExamples.
Import StateModel Tasks Local MiniPy Examples.
Local Existing Instance Recorded.


(** The tree [2] evaluated for the name [_evaluation_object_]. *)
Lemma result_tasks_stage_what_they_answer_witness :
  get_env (snd (TaskGetTreeResult_call tree_2_staged empty_shell))
    !! "_evaluation_object_" = Some (VInt 2) /\
  fst (TaskGetTreeResult_call tree_2_staged empty_shell) = Ret (VStr "2").
Proof.
  exact (proj1 (result_tasks_stage_what_they_answer empty_shell) tree_2_staged).
Defined.

(** The code [x = 5] is run, and the answer is ["None"]. *)
Lemma TaskGetResult_expr_code_answers_None_witness :
  TaskGetResult_call get_result_expr empty_shell
  = (Ret (VStr "None"), set_env_item (gr_name get_result_expr) VNone empty_shell).
Proof.
  apply (TaskGetResult_expr_code_answers_None get_result_expr empty_shell "x = 5"
           ∅ (<[ "x" := VInt 5 ]> ∅)); reflexivity.
Defined.

(** Nothing recorded, and a manager that raises [SystemExit]. *)
Lemma TaskBreakDownNewEnv_False_witness :
  fst (TaskBreakDownNewEnv_call empty_shell) = Ret (VBool false) /\
  fst (TaskBreakDownNewEnv_call
         (Shell ∅ (Some ∅) (Some [cm_ok_1; cm_SystemExit_3; cm_ok_4]) []))
  = Ret (VBool false).
Proof.
  split.
  - exact (proj1 (TaskBreakDownNewEnv_False empty_shell) (or_introl eq_refl)).
  - refine (proj1 (proj2 (TaskBreakDownNewEnv_False
                            (Shell ∅ (Some ∅) (Some [cm_ok_1; cm_SystemExit_3; cm_ok_4]) []))
                      [cm_ok_1; cm_SystemExit_3; cm_ok_4] eq_refl _)).
    apply Exists_cons_hd. reflexivity.
Defined.

End TasksEdgeExamples.

(** ** Setting up and tearing down a scoped environment *)
Section ScopedEnvironment.
Import Tasks.
Context `{Interpreter} `{Utils} `{Managers}.



(** X27.  A set-up that fails: when evaluating or entering one of the
    contexts raises an [Exception], the task answers with that exception;
    the copied namespace is in place as scoped environment, and no
    manager of this set-up is recorded: what is recorded is what was
    recorded before.  So on a shell with no managers recorded the
    tear-down answers [False], exits nothing (not even the managers
    entered before the failure) and leaves the scoped environment where
    it is; on a shell with managers still recorded by an earlier set-up,
    whose exits raise [Exception]s at most, the tear-down exits those,
    answers with the last of their exit errors (or [False]) and removes
    both reserved entries. *)
Theorem failed_set_up_is_not_torn_down :
  forall (context : list with_item) (sh : shell) (e : exn),
    context_env_update context (copy_env (user_ns sh) None) = Raise e ->
    is_Exception e = true ->
    exists sh1,
      TaskSetUpNewEnv_call context sh = (Ret (VExc e), sh1) /\
      user_ns sh1 = user_ns sh /\
      env_layer sh1 = Some (copy_env (user_ns sh) None) /\
      context_obj sh1 = context_obj sh /\
      exited sh1 = exited sh /\
      match context_obj sh with
      | None => TaskBreakDownNewEnv_call sh1 = (Ret (VBool false), sh1)
      | Some recorded =>
          Forall (fun e => is_Exception e = true) (exit_errors recorded) ->
          TaskBreakDownNewEnv_call sh1
          = (Ret (last_error_or_False (exit_errors recorded)),
             Shell (user_ns sh) None None (exited sh ++ map cm_id recorded))
      end.
Proof.
  intros context sh e Hrun Hexc.
  eexists. unfold TaskSetUpNewEnv_call. rewrite Hrun, Hexc.
  split; [reflexivity|]. split; [reflexivity|]. split; [reflexivity|].
  split; [reflexivity|]. split; [reflexivity|].
  destruct (context_obj sh) as [recorded|] eqn:Hrec.
  - intros Hall.
    by rewrite (TaskBreakDownNewEnv_aggregates _ recorded
                  (copy_env (user_ns sh) None)).
  - unfold TaskBreakDownNewEnv_call. cbn [context_obj]. reflexivity.
Qed.

End ScopedEnvironment.

Section ScopedEnvironmentExamples.
Import Tasks MiniPy Examples.



(** [with 7 as a, zz:] the second context is an unbound name; [7] was
    entered and is never exited. *)
Lemma failed_set_up_is_not_torn_down_witness :
  exists sh1,
    TaskSetUpNewEnv_call with_7_zz empty_shell
    = (Ret (VExc (Exn IsException "NameError" "name 'zz' is not defined")), sh1) /\
    env_layer sh1 = Some (copy_env (user_ns empty_shell) None) /\
    context_obj sh1 = None /\
    exited sh1 = exited empty_shell /\
    TaskBreakDownNewEnv_call sh1 = (Ret (VBool false), sh1).
Proof.
  destruct (failed_set_up_is_not_torn_down with_7_zz empty_shell
              (Exn IsException "NameError" "name 'zz' is not defined"))
    as (sh1 & Hrun & _ & Henv & Hobj & Hexited & Hdown).
  - reflexivity.
  - reflexivity.
  - exists sh1. split; [exact Hrun|]. split; [exact Henv|].
    split; [exact Hobj|]. split; [exact Hexited|]. exact Hdown.
Defined.

End ScopedEnvironmentExamples.
